(** * Guntamatic Biostar client: a shallow embedding of
    [custom_components/guntamatic_biostar/__init__.py]

    The Python client polls a boiler over HTTP.  One refresh reads the
    JSON endpoint [/status.cgi], then the two text endpoints
    [/daqdesc.cgi] and [/daqdata.cgi], and merges both into one
    dictionary [key -> [value, unit]].  Two write commands go through
    [/ext/parset.cgi] and [/parset.cgi].

    Conventions of the embedding.
    - A Python [str] is a Rocq [string] holding its UTF-8 encoding.
    - A Python [int] is a [Z]; a [float] is a [pyfloat], an exact
      dyadic number or one of the special values.
    - A decoded JSON document is a [json] tree, an object being the list
      of its fields, whose keys the decoder has made distinct; a Python
      [dict] keyed by sensor name is a [gmap string _].
    - A raised exception is the [Raise] case of [outcome]; code that
      talks to the device lives in the monad [M], which threads the
      [Biostar] object and the list of requests sent so far. *)

From stdpp Require Import gmap strings list fin_maps pretty.
From Stdlib Require Import ZArith Ascii String.

Local Open Scope string_scope.
Local Open Scope Z_scope.
Local Open Scope list_scope.

Set Warnings "-register-all".

(** ** Exceptions *)

(** Why [_async_get_legacy_data] raised [UpdateFailed]: the endpoint
    answered with another status than 200, or the request (or the
    decoding of its body) raised. *)
Inductive failure :=
  | BadStatus (api : string) (code : Z)
  | FetchError (api : string).

Inductive exn :=
  | UpdateFailed (why : failure)
  | ClientError
  | DecodeError
  | TypeError
  | AttributeError
  | KeyError
  | IndexError
  | ValueError
  | OverflowError.

Inductive outcome (A : Type) :=
  | Ok (a : A)
  | Raise (e : exn).
Arguments Ok {A} a.
Arguments Raise {A} e.

#[global] Instance outcome_ret : MRet outcome := fun A a => Ok a.
#[global] Instance outcome_bind : MBind outcome := fun A B f m =>
  match m with
  | Ok a => f a
  | Raise e => Raise e
  end.

Definition is_update_failed (e : exn) : bool :=
  match e with UpdateFailed _ => true | _ => false end.

(** [try: m  except ValueError: h] *)
Definition except_ValueError {A} (m : outcome A) (h : A) : outcome A :=
  match m with
  | Raise ValueError => Ok h
  | r => r
  end.

(** ** Python strings *)

Module PyStr.

Definition code (c : ascii) : Z := Z.of_N (N_of_ascii c).
Definition chr (n : Z) : ascii := ascii_of_N (Z.to_N n).

Definition bytes (l : list Z) : string :=
  fold_right (fun n s => String (chr n) s) "" l.

(** UTF-8 encoding of one code point. *)
Definition utf8 (cp : Z) : string :=
  if cp <? 128 then bytes [cp]
  else if cp <? 2048 then bytes [192 + cp / 64; 128 + cp mod 64]
  else if cp <? 65536 then
    bytes [224 + cp / 4096; 128 + (cp / 64) mod 64; 128 + cp mod 64]
  else
    bytes [240 + cp / 262144; 128 + (cp / 4096) mod 64;
           128 + (cp / 64) mod 64; 128 + cp mod 64].

Definition is_continuation (c : ascii) : bool :=
  (128 <=? code c) && (code c <? 192).

(** The characters of a string: each lead byte with the continuation
    bytes that follow it.  The first component collects continuation
    bytes found before any lead byte. *)
Fixpoint chars_aux (s : string) : string * list string :=
  match s with
  | EmptyString => (EmptyString, [])
  | String c r =>
      let '(p, cs) := chars_aux r in
      if is_continuation c then (String c p, cs)
      else (EmptyString, String c p :: cs)
  end.

Definition chars (s : string) : list string := (chars_aux s).2.

Definition join (l : list string) : string :=
  fold_right String.append "" l.

(** Code point of a single encoded character. *)
Definition ord (ch : string) : option Z :=
  match map code (list_ascii_of_string ch) with
  | [a] => if a <? 128 then Some a else None
  | [a; b] =>
      if (192 <=? a) && (a <? 224) then Some ((a - 192) * 64 + (b - 128))
      else None
  | [a; b; c] =>
      if (224 <=? a) && (a <? 240)
      then Some ((a - 224) * 4096 + (b - 128) * 64 + (c - 128))
      else None
  | [a; b; c; d] =>
      if (240 <=? a) && (a <? 248)
      then Some ((a - 240) * 262144 + (b - 128) * 4096
                 + (c - 128) * 64 + (d - 128))
      else None
  | _ => None
  end.

(** [str.isspace] for one character. *)
Definition space_code_points : list Z :=
  [9; 10; 11; 12; 13; 28; 29; 30; 31; 32; 133; 160; 5760;
   8192; 8193; 8194; 8195; 8196; 8197; 8198; 8199; 8200; 8201; 8202;
   8232; 8233; 8239; 8287; 12288].

Definition is_space (ch : string) : bool :=
  match ord ch with
  | Some cp => bool_decide (cp ∈ space_code_points)
  | None => false
  end.

Fixpoint dropwhile {A} (p : A -> bool) (l : list A) : list A :=
  match l with
  | [] => []
  | x :: r => if p x then dropwhile p r else l
  end.

(** [s.strip()] *)
Definition strip (s : string) : string :=
  join (rev (dropwhile is_space (rev (dropwhile is_space (chars s))))).

(** [str.lower] on one code point.  The table is complete for the
    repertoire of Windows-1252, the encoding of the legacy endpoints,
    and for the code points whose lower case is an ASCII letter; other
    code points are left as they are. *)
Definition lower_code_point (cp : Z) : list Z :=
  if (65 <=? cp) && (cp <=? 90) then [cp + 32]
  else if (192 <=? cp) && (cp <=? 222) && negb (cp =? 215) then [cp + 32]
  else if cp =? 304 then [105; 775]
  else if cp =? 338 then [339]
  else if cp =? 352 then [353]
  else if cp =? 376 then [255]
  else if cp =? 381 then [382]
  else if cp =? 8490 then [107]
  else [cp].

Definition lower_char (ch : string) : string :=
  match ord ch with
  | Some cp => join (map utf8 (lower_code_point cp))
  | None => ch
  end.

(** [s.lower()] *)
Definition lower (s : string) : string :=
  let '(p, cs) := chars_aux s in p +:+ join (map lower_char cs).

(** [s.split(sep)] for a separator of one character. *)
Fixpoint split (sep : ascii) (s : string) : list string :=
  match s with
  | EmptyString => [EmptyString]
  | String c r =>
      if Ascii.eqb c sep then EmptyString :: split sep r
      else match split sep r with
           | [] => [String c EmptyString]
           | x :: xs => String c x :: xs
           end
  end.

(** [s.startswith(p)] *)
Fixpoint startswith (p s : string) : bool :=
  match p, s with
  | EmptyString, _ => true
  | String _ _, EmptyString => false
  | String a p', String b s' => Ascii.eqb a b && startswith p' s'
  end.

(** [needle in hay] for two strings. *)
Fixpoint contains (needle hay : string) : bool :=
  startswith needle hay ||
  match hay with
  | EmptyString => false
  | String _ r => contains needle r
  end.

(** [l[0:-1]] *)
Definition drop_last {A} (l : list A) : list A := removelast l.

(** [x in l] for a list of string literals. *)
Definition mem (x : string) (l : list string) : bool :=
  existsb (String.eqb x) l.

End PyStr.

(** ** Python floats *)

(** A binary64 value: [FFin neg m e] is [m * 2^e], negated when [neg]
    holds.  The parser below yields [2^52 <= m < 2^53] for normal
    numbers and [e = -1074] for subnormal ones and zero. *)
Inductive pyfloat :=
  | FNan
  | FInf (neg : bool)
  | FFin (neg : bool) (m : Z) (e : Z).

Module PyFloat.
Import PyStr.

Definition is_digit (c : ascii) : bool := (48 <=? code c) && (code c <=? 57).

Definition is_underscore (c : ascii) : bool := code c =? 95.

(** The binary64 nearest to [n / d], ties to even, for [0 < n] and
    [0 < d]; a value beyond the largest finite one becomes infinite. *)
Definition round64 (neg : bool) (n d : Z) : pyfloat :=
  let k := Z.log2 n - Z.log2 d in
  let below := if 0 <=? k then n <? d * 2 ^ k else n * 2 ^ (- k) <? d in
  let lg := if below then k - 1 else k in
  let e := Z.max (lg - 52) (-1074) in
  let num := if 0 <=? e then n else n * 2 ^ (- e) in
  let den := if 0 <=? e then d * 2 ^ e else d in
  let q := num / den in
  let r := num mod den in
  let q := if (den <? 2 * r) || ((2 * r =? den) && Z.odd q) then q + 1 else q in
  let e := if q =? 2 ^ 53 then e + 1 else e in
  let q := if q =? 2 ^ 53 then 2 ^ 52 else q in
  if 971 <? e then FInf neg else FFin neg q e.

(** The float written [m * 10^e10] in decimal. *)
Definition of_decimal (neg : bool) (m e10 : Z) : pyfloat :=
  if m =? 0 then FFin neg 0 (-1074)
  else if 0 <=? e10 then round64 neg (m * 10 ^ e10) 1
  else round64 neg m (10 ^ (- e10)).

(** Underscores of a numeric literal may only stand between two digits;
    [prev] is the previous character. *)
Fixpoint remove_underscores (prev : option ascii) (s : string) : option string :=
  match s with
  | EmptyString =>
      match prev with
      | Some p => if is_underscore p then None else Some EmptyString
      | None => Some EmptyString
      end
  | String c r =>
      let prev_digit := from_option is_digit false prev in
      let prev_underscore := from_option is_underscore false prev in
      if is_underscore c then
        if prev_digit then remove_underscores (Some c) r else None
      else if prev_underscore && negb (is_digit c) then None
      else String c <$> remove_underscores (Some c) r
  end.

(** The leading digits of [s]: their value continuing from [acc], how
    many there are, and the rest of [s]. *)
Fixpoint digits (acc : Z) (s : string) : Z * nat * string :=
  match s with
  | String c r =>
      if is_digit c then
        let '(v, n, rest) := digits (acc * 10 + (code c - 48)) r in
        (v, S n, rest)
      else (acc, O, s)
  | EmptyString => (acc, O, s)
  end.

Definition sign (s : string) : bool * string :=
  match s with
  | String "-" r => (true, r)
  | String "+" r => (false, r)
  | _ => (false, s)
  end.

(** The exponent part: empty, or [e], an optional sign and digits up to
    the end of the literal. *)
Definition exponent (s : string) : option Z :=
  match s with
  | EmptyString => Some 0
  | String c r =>
      if mem (String c EmptyString) ["e"; "E"] then
        let '(neg, r) := sign r in
        let '(v, n, rest) := digits 0 r in
        match n, rest with
        | S _, EmptyString => Some (if neg then - v else v)
        | _, _ => None
        end
      else None
  end.

(** [float(s)] for a string without surrounding white space: [None]
    stands for [ValueError].  Only ASCII digits are read as digits, the
    only decimal digits of Windows-1252 text. *)
Definition parse (s : string) : option pyfloat :=
  s ← remove_underscores None s;
  let '(neg, s) := sign s in
  if mem (lower s) ["inf"; "infinity"] then Some (FInf neg)
  else if String.eqb (lower s) "nan" then Some FNan
  else
    let '(ip, ni, s) := digits 0 s in
    let '(m, nf, s) :=
      match s with
      | String "." r => digits ip r
      | _ => (ip, O, s)
      end in
    match (ni + nf)%nat with
    | O => None
    | S _ => e ← exponent s; Some (of_decimal neg m (e - Z.of_nat nf))
    end.

(** [float(s)] *)
Definition float (s : string) : outcome pyfloat :=
  match parse s with
  | Some f => Ok f
  | None => Raise ValueError
  end.

(** [int(f)]: truncation towards zero. *)
Definition int (f : pyfloat) : outcome Z :=
  match f with
  | FNan => Raise ValueError
  | FInf _ => Raise OverflowError
  | FFin neg m e =>
      let a := if 0 <=? e then m * 2 ^ e else m / 2 ^ (- e) in
      Ok (if neg then - a else a)
  end.

(** A float is false exactly when it is zero. *)
Definition truthy (f : pyfloat) : bool :=
  match f with
  | FFin _ m _ => negb (m =? 0)
  | _ => true
  end.

End PyFloat.

(** ** Decoded JSON documents and the Python operations on them *)

Inductive json :=
  | JNull
  | JBool (b : bool)
  | JInt (n : Z)
  | JFloat (f : pyfloat)
  | JStr (s : string)
  | JArr (items : list json)
  | JObj (fields : list (string * json)).

(** One sensor: the list [[value, unit]] of the source, [None] when the
    sensor has no unit. *)
Abbreviation sensor := (json * option string)%type.

(** The dictionary a parser or a refresh returns. *)
Abbreviation snapshot := (gmap string sensor).

Module Py.
Import PyStr.

(** [bool(v)] *)
Definition truthy (v : json) : bool :=
  match v with
  | JNull => false
  | JBool b => b
  | JInt n => negb (n =? 0)
  | JFloat f => PyFloat.truthy f
  | JStr s => negb (String.eqb s "")
  | JArr items => match items with [] => false | _ => true end
  | JObj fields => match fields with [] => false | _ => true end
  end.

Fixpoint assoc (k : string) (fields : list (string * json)) : option json :=
  match fields with
  | [] => None
  | (k', v) :: rest => if String.eqb k k' then Some v else assoc k rest
  end.

Definition is_str (k : string) (v : json) : bool :=
  match v with JStr s => String.eqb k s | _ => false end.

(** [k in v] for a string [k]: a key of a dict, an element of a list, a
    substring of a string; other values are not containers. *)
Definition contains (k : string) (v : json) : outcome bool :=
  match v with
  | JObj fields => Ok (bool_decide (is_Some (assoc k fields)))
  | JArr items => Ok (existsb (is_str k) items)
  | JStr s => Ok (PyStr.contains k s)
  | _ => Raise TypeError
  end.

(** [v[k]] for a string [k]. *)
Definition getitem (v : json) (k : string) : outcome json :=
  match v with
  | JObj fields =>
      match assoc k fields with
      | Some x => Ok x
      | None => Raise KeyError
      end
  | _ => Raise TypeError
  end.

(** [v.get(k, default)] *)
Definition get (v : json) (k : string) (default : json) : outcome json :=
  match v with
  | JObj fields => Ok (from_option id default (assoc k fields))
  | _ => Raise AttributeError
  end.

(** The values [for x in v] runs through. *)
Definition iter (v : json) : outcome (list json) :=
  match v with
  | JArr items => Ok items
  | JObj fields => Ok (map (fun kv => JStr kv.1) fields)
  | JStr s => Ok (map JStr (chars s))
  | _ => Raise TypeError
  end.

(** [len(v)] *)
Definition len (v : json) : outcome Z :=
  match v with
  | JArr items => Ok (Z.of_nat (List.length items))
  | JObj fields => Ok (Z.of_nat (List.length fields))
  | JStr s => Ok (Z.of_nat (List.length (chars s)))
  | _ => Raise TypeError
  end.

(** [enumerate(l)] *)
Fixpoint enumerate_from {A} (i : Z) (l : list A) : list (Z * A) :=
  match l with
  | [] => []
  | x :: r => (i, x) :: enumerate_from (i + 1) r
  end.

Definition enumerate {A} (l : list A) : list (Z * A) := enumerate_from 0 l.

(** [for x in l: s = body x s], stopping at the first exception. *)
Fixpoint for_each {A S} (l : list A) (body : A -> S -> outcome S) (s : S)
  : outcome S :=
  match l with
  | [] => Ok s
  | x :: r => s' ← body x s; for_each r body s'
  end.

(** [l[i]] *)
Definition index {A} (l : list A) (i : nat) : outcome A :=
  match l !! i with
  | Some x => Ok x
  | None => Raise IndexError
  end.

(** [bytes.decode("windows-1252")]: the code point of each byte; five
    bytes have none. *)
Definition cp1252_table : list (option Z) :=
  [Some 8364; None; Some 8218; Some 402; Some 8222; Some 8230; Some 8224;
   Some 8225; Some 710; Some 8240; Some 352; Some 8249; Some 338; None;
   Some 381; None; None; Some 8216; Some 8217; Some 8220; Some 8221;
   Some 8226; Some 8211; Some 8212; Some 732; Some 8482; Some 353;
   Some 8250; Some 339; None; Some 382; Some 376].

Definition cp1252_code_point (b : Z) : option Z :=
  if (128 <=? b) && (b <? 160) then mjoin (cp1252_table !! Z.to_nat (b - 128))
  else Some b.

Fixpoint decode_cp1252 (body : string) : outcome string :=
  match body with
  | EmptyString => Ok EmptyString
  | String c r =>
      match cp1252_code_point (code c) with
      | Some cp => s ← decode_cp1252 r; Ok (utf8 cp +:+ s)
      | None => Raise DecodeError
      end
  end.

End Py.

(** ** The HTTP session and the client object *)

Record request := Request {
  url : string;
  params : list (string * string)
}.

(** A response as the client reads it: [resp_json] is what
    [await resp.json(...)] returns and [resp_text] what
    [await resp.text()] returns, [None] when the call raises;
    [resp_body] holds the raw bytes. *)
Record response := Response {
  resp_status : Z;
  resp_body : string;
  resp_json : option json;
  resp_text : option string
}.

(** The device: the answer to each request, [None] when the request
    itself raises (refused connection, time-out). *)
Definition network := request -> option response.

Record Biostar := {
  _api_key : string;
  _host : string;
  _write_key : option string;
  _device_info : json;
  _heating_circuits : json;
  _heat_constraints : json
}.

Record world := World {
  self : Biostar;
  sent : list request
}.

Definition M (A : Type) : Type := network -> world -> outcome A * world.

#[global] Instance M_ret : MRet M := fun A a _ w => (Ok a, w).
#[global] Instance M_bind : MBind M := fun A B f m net w =>
  match m net w with
  | (Ok a, w') => f a net w'
  | (Raise e, w') => (Raise e, w')
  end.

Definition raise {A} (e : exn) : M A := fun _ w => (Raise e, w).

Definition lift {A} (r : outcome A) : M A := fun _ w => (r, w).

(** [try: m  except Exception as e: h e] *)
Definition try_except {A} (m : M A) (h : exn -> M A) : M A := fun net w =>
  match m net w with
  | (Raise e, w') => h e net w'
  | r => r
  end.

Definition get_self : M Biostar := fun _ w => (Ok (self w), w).

Definition set_self (f : Biostar -> Biostar) : M unit := fun _ w =>
  (Ok tt, World (f (self w)) (sent w)).

(** [async with self._session.get(url, params=params) as resp]; the
    request counts as sent even when it raises. *)
Definition session_get (rq : request) : M response := fun net w =>
  let w' := World (self w) (sent w ++ [rq]) in
  match net rq with
  | Some resp => (Ok resp, w')
  | None => (Raise ClientError, w')
  end.

Definition json_of (resp : response) : outcome json :=
  match resp_json resp with
  | Some v => Ok v
  | None => Raise DecodeError
  end.

Definition text_of (resp : response) : outcome string :=
  match resp_text resp with
  | Some s => Ok s
  | None => Raise DecodeError
  end.

(** ** The client *)

Import PyStr.

(** The dict [{"min": 15.0, "max": 30.0, "inc": 0.5}] of [__init__]. *)
Definition default_heat_constraints : json :=
  JObj [("min", JFloat (FFin false 8444249301319680 (-49)));
        ("max", JFloat (FFin false 8444249301319680 (-48)));
        ("inc", JFloat (FFin false 4503599627370496 (-53)))].

(** [Biostar.__init__] *)
Definition init (api_key host : string) (write_key : option string) : Biostar :=
  {| _api_key := api_key;
     _host := host;
     _write_key := write_key;
     _device_info := JNull;
     _heating_circuits := JArr [];
     _heat_constraints := default_heat_constraints |}.

(** [f"http://{self._host}{api}"] *)
Definition endpoint (self : Biostar) (api : string) : string :=
  "http://" +:+ _host self +:+ api.

(** [Biostar._async_get_status_data]: the decoded document, or [None]
    (here [JNull]) when the endpoint is not available. *)
Definition _async_get_status_data : M json :=
  self ← get_self;
  let params := [("key", _api_key self)] in
  try_except
    (resp ← session_get (Request (endpoint self "/status.cgi") params);
     if resp_status resp =? 200 then lift (json_of resp)
     else mret JNull)
    (fun _ => mret JNull).

(** *** The legacy endpoints *)

Definition legacy_endpoints : list string := ["/daqdesc.cgi"; "/daqdata.cgi"].

Definition LF : ascii := "010"%char.

(** [text.split("\n")[0:-1]] *)
Definition lines (text : string) : list string := drop_last (split LF text).

(** [resp.text(encoding="windows-1252")], then the split into lines. *)
Definition read_lines (resp : response) : outcome (list string) :=
  text ← Py.decode_cp1252 (resp_body resp);
  Ok (lines text).

(** The loop over [legacy_endpoints]; [dataDescription] and [dataValues]
    start as [None]; [legacy_endpoints[0]] and [legacy_endpoints[1]] are
    written out. *)
Fixpoint fetch_legacy (apis : list string)
    (dataDescription dataValues : option (list string))
  : M (option (list string) * option (list string)) :=
  match apis with
  | [] => mret (dataDescription, dataValues)
  | API :: rest =>
      self ← get_self;
      let params := [("key", _api_key self)] in
      '(dataDescription, dataValues) ←
        try_except
          (resp ← session_get (Request (endpoint self API) params);
           if negb (resp_status resp =? 200) then
             raise (UpdateFailed (BadStatus API (resp_status resp)))
           else if String.eqb API "/daqdesc.cgi" then
             lines ← lift (read_lines resp); mret (Some lines, dataValues)
           else if String.eqb API "/daqdata.cgi" then
             lines ← lift (read_lines resp); mret (dataDescription, Some lines)
           else mret (dataDescription, dataValues))
          (fun e =>
             if is_update_failed e then raise e
             else raise (UpdateFailed (FetchError API)));
      fetch_legacy rest dataDescription dataValues
  end.

(** The three literal lists of the parsing loop (lines 132, 139, 141). *)
Definition RESERVED : list string := ["reserved"; "réservé"; "reserviert"].
Definition TRUE_TOKENS : list string := ["AN"; "ON"; "MARCHE"].
Definition FALSE_TOKENS : list string := ["AUS"; "OFF"; "ARRÊT"].

(** [const.EXCLUDE_KEYWORDS] *)
Definition EXCLUDE_KEYWORDS : list string := ["réservé"; "reserved"; "reserviert"].

(** [unitOfMeasurement in units], false for the unit [None]. *)
Definition unit_in (unitOfMeasurement : option string) (units : list string) : bool :=
  match unitOfMeasurement with
  | Some u => mem u units
  | None => false
  end.

(** The value of one line, "Parse value based on type".  [raw_value] is
    stripped, so the stripping [float] does itself changes nothing. *)
Definition parse_value (raw_value : string) (unitOfMeasurement : option string)
  : outcome json :=
  if mem raw_value TRUE_TOKENS then Ok (JBool true)
  else if mem raw_value FALSE_TOKENS then Ok (JBool false)
  else if unit_in unitOfMeasurement ["°C"; "%"] then
    except_ValueError
      (f ← PyFloat.float raw_value; Ok (JFloat f))
      (JStr raw_value)
  else if unit_in unitOfMeasurement ["d"; "h"] then
    except_ValueError
      (f ← PyFloat.float raw_value; n ← PyFloat.int f; Ok (JInt n))
      (JStr raw_value)
  else Ok (JStr raw_value).

(** [s.strip() or None] *)
Definition strip_or_none (s : string) : option string :=
  let s := strip s in
  if String.eqb s "" then None else Some s.

(** The body of the loop [for i in range(min(len(dataDescription),
    len(dataValues)))]. *)
Definition parse_line (dataDescription dataValues : list string) (i : nat)
    (data : snapshot) : outcome snapshot :=
  description ← Py.index dataDescription i;
  match split ";" description with
  | [key; unitOfMeasurement] =>
      if mem (lower key) RESERVED then Ok data
      else
        let unitOfMeasurement := strip_or_none unitOfMeasurement in
        value ← Py.index dataValues i;
        let raw_value := strip value in
        dataValue ← parse_value raw_value unitOfMeasurement;
        Ok (<[key := (dataValue, unitOfMeasurement)]> data)
  | _ => Ok data
  end.

(** The loop "Parse legacy API data", from [data = {}]. *)
Definition parse_legacy (dataDescription dataValues : list string)
  : outcome snapshot :=
  Py.for_each
    (seq 0 (min (List.length dataDescription) (List.length dataValues)))
    (parse_line dataDescription dataValues) ∅.

(** The truth value of a list that may be [None]. *)
Definition nonempty {A} (l : option (list A)) : bool :=
  match l with
  | Some (_ :: _) => true
  | _ => false
  end.

(** [Biostar._async_get_legacy_data] *)
Definition _async_get_legacy_data : M snapshot :=
  '(dataDescription, dataValues) ← fetch_legacy legacy_endpoints None None;
  if nonempty dataDescription && nonempty dataValues then
    lift (parse_legacy (default [] dataDescription) (default [] dataValues))
  else mret ∅.

(** *** The status endpoint, the refresh and the write commands *)

Section Client.

(** Python's [repr] of a float, a list or a dict, which [str] and the
    f-strings fall back on; the interpreter's own formatting. *)
Variable py_repr : json -> string.

(** [str(v)], also the [{v}] of an f-string. *)
Definition py_str (v : json) : string :=
  match v with
  | JStr s => s
  | JInt n => pretty n
  | JBool true => "True"
  | JBool false => "False"
  | JNull => "None"
  | _ => py_repr v
  end.

(** [if field in data: result[key] = [data[field], unit]] *)
Definition copy_field (data : json) (field key : string) (unit : option string)
    (result : snapshot) : outcome snapshot :=
  present ← Py.contains field data;
  if present : bool then
    value ← Py.getitem data field;
    Ok (<[key := (value, unit)]> result)
  else Ok result.

Definition parse_meta (data : json) (result : snapshot) : outcome snapshot :=
  present ← Py.contains "meta" data;
  if present : bool then
    meta ← Py.getitem data "meta";
    result ← copy_field meta "sw_version" "_Version firmware" None result;
    result ← copy_field meta "sn" "_Numéro de série" None result;
    result ← copy_field meta "typ" "_Modèle" None result;
    copy_field meta "language" "_Langue" None result
  else Ok result.

Definition parse_heat_circ (data : json) (result : snapshot) : outcome snapshot :=
  present ← Py.contains "heat_circ" data;
  if present : bool then
    circuits ← Py.getitem data "heat_circ";
    circuits ← Py.iter circuits;
    Py.for_each (Py.enumerate circuits) (fun '(i, circuit) result =>
      name ← Py.get circuit "name" (JInt i);
      let prefix := "_Circuit " +:+ py_str name in
      result ← copy_field circuit "day_temp" (prefix +:+ " - Temp jour")
                 (Some "°C") result;
      result ← copy_field circuit "night_temp" (prefix +:+ " - Temp nuit")
                 (Some "°C") result;
      copy_field circuit "mode" (prefix +:+ " - Mode") None result) result
  else Ok result.

Definition parse_water_circ (data : json) (result : snapshot) : outcome snapshot :=
  present ← Py.contains "water_circ" data;
  if present : bool then
    circuits ← Py.getitem data "water_circ";
    circuits ← Py.iter circuits;
    Py.for_each (Py.enumerate circuits) (fun '(i, circuit) result =>
      name ← Py.get circuit "name" (JInt i);
      let prefix := "_ECS " +:+ py_str name in
      result ← copy_field circuit "temp" (prefix +:+ " - Temp")
                 (Some "°C") result;
      copy_field circuit "mode" (prefix +:+ " - Mode") None result) result
  else Ok result.

Definition parse_error (data : json) (result : snapshot) : outcome snapshot :=
  present ← Py.contains "error" data;
  if present : bool then
    errors ← Py.getitem data "error";
    if Py.truthy errors then
      count ← Py.len errors;
      let result := <["_Erreurs actives" := (JInt count, None)]> result in
      errors ← Py.iter errors;
      Py.for_each (Py.enumerate errors) (fun '(i, error) result =>
        Ok (<["_Erreur " +:+ pretty i := (JStr (py_str error), None)]> result))
        result
    else Ok result
  else Ok result.

(** [Biostar._parse_status_data] *)
Definition _parse_status_data (data : json) : outcome snapshot :=
  let result : snapshot := ∅ in
  result ← copy_field data "temp" "_Température chaudière" (Some "°C") result;
  result ← copy_field data "ext_temp" "_Température extérieure" (Some "°C") result;
  result ← copy_field data "co2" "_CO2" (Some "%") result;
  result ← copy_field data "fumes" "_Fumées" (Some "%") result;
  result ← copy_field data "fuel" "_Combustible" (Some "%") result;
  result ← copy_field data "cleaning_in" "_Nettoyage dans" (Some "h") result;
  result ← copy_field data "state" "_État" None result;
  result ← copy_field data "mode" "_Mode" None result;
  result ← copy_field data "name" "_Nom" None result;
  result ← copy_field data "timestamp" "_Dernière mise à jour" None result;
  result ← parse_meta data result;
  result ← parse_heat_circ data result;
  result ← parse_water_circ data result;
  parse_error data result.

(** [if field in status_data: self.<attribute> = status_data[field]] *)
Definition store_field (status_data : json) (field : string)
    (store : json -> Biostar -> Biostar) : M unit :=
  present ← lift (Py.contains field status_data);
  if present : bool then
    value ← lift (Py.getitem status_data field);
    set_self (store value)
  else mret tt.

Definition set_device_info (v : json) (b : Biostar) : Biostar :=
  {| _api_key := _api_key b; _host := _host b; _write_key := _write_key b;
     _device_info := v;
     _heating_circuits := _heating_circuits b;
     _heat_constraints := _heat_constraints b |}.

Definition set_heating_circuits (v : json) (b : Biostar) : Biostar :=
  {| _api_key := _api_key b; _host := _host b; _write_key := _write_key b;
     _device_info := _device_info b;
     _heating_circuits := v;
     _heat_constraints := _heat_constraints b |}.

Definition set_heat_constraints (v : json) (b : Biostar) : Biostar :=
  {| _api_key := _api_key b; _host := _host b; _write_key := _write_key b;
     _device_info := _device_info b;
     _heating_circuits := _heating_circuits b;
     _heat_constraints := v |}.

(** [for key, value in legacy_data.items(): if key not in result:
    result[key] = value] *)
Definition merge_legacy (result legacy_data : snapshot) : snapshot :=
  map_fold (fun key value (result : snapshot) =>
              match result !! key with
              | Some _ => result
              | None => <[key := value]> result
              end) result legacy_data.

(** "Step 1: Try modern JSON API" *)
Definition status_step : M snapshot :=
  status_data ← _async_get_status_data;
  if Py.truthy status_data then
    store_field status_data "meta" set_device_info;;
    store_field status_data "heat_circ" set_heating_circuits;;
    store_field status_data "heat_constraints" set_heat_constraints;;
    lift (_parse_status_data status_data)
  else mret ∅.

(** "Step 2: Get legacy data" *)
Definition legacy_step (result : snapshot) : M snapshot :=
  try_except
    (legacy_data ← _async_get_legacy_data;
     mret (merge_legacy result legacy_data))
    (fun e =>
       if is_update_failed e then
         if bool_decide (result = ∅) then raise e else mret result
       else raise e).

(** [Biostar._async_get_data] *)
Definition _async_get_data : M snapshot :=
  result ← status_step;
  legacy_step result.

(** [Biostar.has_write_access] *)
Definition has_write_access (self : Biostar) : bool :=
  match _write_key self with
  | Some key => (0 <? String.length key)%nat
  | None => false
  end.

(** The outcome of one attempt of a write command: [Some b] when the
    attempt ends the call with [return b], [None] when control goes on
    after it. *)
Definition ack_in_text (resp : response) : M (option bool) :=
  text ← lift (text_of resp);
  if PyStr.contains "OK" text || PyStr.contains "ack" (lower text)
  then mret (Some true) else mret None.

(** The request of [setProgram] to [/ext/parset.cgi]. *)
Definition program_ext_attempt (self : Biostar) (params : list (string * string))
  : M (option bool) :=
  try_except
    (resp ← session_get (Request (endpoint self "/ext/parset.cgi") params);
     if resp_status resp =? 200 then
       try_except
         (status ← lift (json_of resp);
          ack ← lift (Py.contains "ack" status);
          if ack : bool then mret (Some true)
          else
            err ← lift (Py.contains "err" status);
            if err : bool then _ ← lift (Py.get status "err" JNull); mret None
            else mret None)
         (fun _ => ack_in_text resp)
     else mret None)
    (fun _ => mret None).

(** [Biostar.setProgram] *)
Definition setProgram (program_id : Z) : M bool :=
  self ← get_self;
  if negb (has_write_access self) then mret false
  else
    let params := [("syn", "PR001"); ("value", pretty program_id);
                   ("key", default "" (_write_key self))] in
    returned ← program_ext_attempt self params;
    match returned with
    | Some b => mret b
    | None =>
        try_except
          (resp ← session_get (Request (endpoint self "/parset.cgi") params);
           if resp_status resp =? 200 then mret true else mret false)
          (fun _ => mret false)
    end.

(** The request of [setTemperature] to [/ext/parset.cgi]. *)
Definition temperature_ext_attempt (self : Biostar)
    (params : list (string * string)) : M (option bool) :=
  try_except
    (resp ← session_get (Request (endpoint self "/ext/parset.cgi") params);
     if resp_status resp =? 200 then
       try_except
         (status ← lift (json_of resp);
          ack ← lift (Py.contains "ack" status);
          if ack : bool then mret (Some true)
          else
            err ← lift (Py.contains "err" status);
            if err : bool then
              _ ← lift (Py.get status "err" JNull); mret (Some false)
            else mret None)
         (fun _ => ack_in_text resp)
     else mret None)
    (fun _ => mret (Some false)).

(** [Biostar.setTemperature] *)
Definition setTemperature (circuit_nr : Z) (temp_type : string) (value : pyfloat)
  : M bool :=
  self ← get_self;
  if negb (has_write_access self) then mret false
  else
    let syn_suffix := if String.eqb temp_type "day" then "02" else "03" in
    let syn := "HK" +:+ pretty (circuit_nr + 1) +:+ syn_suffix in
    let params := [("syn", syn); ("value", py_str (JFloat value));
                   ("key", default "" (_write_key self))] in
    returned ← temperature_ext_attempt self params;
    match returned with
    | Some b => mret b
    | None => mret false
    end.

End Client.

(** * The vocabulary of the properties *)

(** [c in s] for one character. *)
Fixpoint has_char (c : ascii) (s : string) : bool :=
  match s with
  | EmptyString => false
  | String a r => Ascii.eqb a c || has_char c r
  end.

(** The text made of the given lines, each closed by a line feed. *)
Fixpoint unlines (ls : list string) : string :=
  match ls with
  | [] => EmptyString
  | l :: r => l +:+ String LF (unlines r)
  end.

(** No key of the legacy data is a reserved keyword in any letter case. *)
Definition no_reserved_key (data : snapshot) : Prop :=
  forall key, is_Some (data !! key) -> mem (lower key) RESERVED = false.

(** The requests of a refresh. *)
Definition status_request (b : Biostar) : request :=
  Request (endpoint b "/status.cgi") [("key", _api_key b)].

Definition legacy_request (b : Biostar) (api : string) : request :=
  Request (endpoint b api) [("key", _api_key b)].

(** What [_async_get_status_data] makes of the answer to its request. *)
Definition payload (answer : option response) : json :=
  match answer with
  | Some resp =>
      if resp_status resp =? 200 then default JNull (resp_json resp) else JNull
  | None => JNull
  end.

(** The status endpoint is unavailable: the request raises, the status
    is not 200, or the body is not JSON. *)
Definition unavailable (answer : option response) : Prop :=
  match answer with
  | Some resp => resp_status resp <> 200 \/ resp_json resp = None
  | None => True
  end.

(** The lines one legacy endpoint yields, or the [UpdateFailed] raised
    for it. *)
Definition fetched (answer : option response) (api : string)
  : outcome (list string) :=
  match answer with
  | Some resp =>
      if resp_status resp =? 200 then
        match read_lines resp with
        | Ok ls => Ok ls
        | Raise _ => Raise (UpdateFailed (FetchError api))
        end
      else Raise (UpdateFailed (BadStatus api (resp_status resp)))
  | None => Raise (UpdateFailed (FetchError api))
  end.

(** The world once the requests [rqs] have been sent. *)
Definition after (w : world) (rqs : list request) : world :=
  World (self w) (sent w ++ rqs).

(** Every key begins with an underscore. *)
Definition underscored (result : snapshot) : Prop :=
  forall key, is_Some (result !! key) -> startswith "_" key = true.

(** The attributes a status document leaves on the client. *)
Definition stored (status_data : json) (b : Biostar) : Biostar :=
  match status_data with
  | JObj fields =>
      let b := from_option (fun v => set_device_info v b) b
                 (Py.assoc "meta" fields) in
      let b := from_option (fun v => set_heating_circuits v b) b
                 (Py.assoc "heat_circ" fields) in
      from_option (fun v => set_heat_constraints v b) b
        (Py.assoc "heat_constraints" fields)
  | _ => b
  end.

(** [status_data] is a dict with the key [field]. *)
Definition has_field (field : string) (status_data : json) : bool :=
  match status_data with
  | JObj fields => bool_decide (is_Some (Py.assoc field fields))
  | _ => false
  end.

(** Every exception the computation can raise satisfies [P]. *)
Definition raises_only {A} (P : exn -> Prop) (m : outcome A) : Prop :=
  forall e, m = Raise e -> P e.

Definition M_raises_only {A} (P : exn -> Prop) (m : M A) : Prop :=
  forall net w e w', m net w = (Raise e, w') -> P e.

Definition not_update_failed (e : exn) : Prop := is_update_failed e = false.

(** The client after a run of refreshes, one device answer per refresh. *)
Fixpoint refreshes (py_repr : json -> string) (nets : list network)
    (w : world) : world :=
  match nets with
  | [] => w
  | net :: rest => refreshes py_repr rest (_async_get_data py_repr net w).2
  end.

(** ** Sample devices *)

(** A formatter for the examples, none of which formats a float, a list
    or a dict. *)
Definition plain_repr (v : json) : string := "".

(** A device given by its answer to each URL; other requests raise. *)
Definition device (answers : list (string * response)) : network :=
  fun rq => snd <$> List.find (fun a => String.eqb (url rq) a.1) answers.

Definition text_answer (body : string) : response := Response 200 body None None.
Definition json_answer (v : json) : response := Response 200 "" (Some v) None.
Definition not_found : response := Response 404 "" None None.

Definition client : Biostar := init "secret" "boiler" (Some "write").
Definition reader : Biostar := init "secret" "boiler" None.

Definition float_of (s : string) : pyfloat := default FNan (PyFloat.parse s).

(** The description stream in Windows-1252: byte 176 is the degree sign. *)
Definition sample_descriptions : string :=
  unlines ["Kesseltemperatur;" +:+ PyStr.bytes [176] +:+ "C"; "Betriebsstunden;h";
           "reserved;"; "Pumpe;"; "_Mode;"].

Definition sample_values : string :=
  unlines ["61.5"; "1234"; "0"; "AN"; "AUTO"].

Definition infinite_values : string :=
  unlines ["61.5"; "inf"; "0"; "AN"; "AUTO"].

Definition sample_circuits : json :=
  JArr [JObj [("nr", JInt 1); ("name", JStr "Main");
              ("day_temp", JFloat (float_of "21.0"));
              ("night_temp", JFloat (float_of "16.0"))]].

Definition sample_status : json :=
  JObj [("temp", JFloat (float_of "55.2")); ("mode", JStr "HEAT");
        ("heat_circ", sample_circuits)].

Definition legacy_device : network :=
  device [("http://boiler/status.cgi", not_found);
          ("http://boiler/daqdesc.cgi", text_answer sample_descriptions);
          ("http://boiler/daqdata.cgi", text_answer sample_values)].

Definition status_device : network :=
  device [("http://boiler/status.cgi", json_answer sample_status)].

Definition full_device : network :=
  device [("http://boiler/status.cgi", json_answer sample_status);
          ("http://boiler/daqdesc.cgi", text_answer sample_descriptions);
          ("http://boiler/daqdata.cgi", text_answer sample_values)].

Definition empty_status_device : network :=
  device [("http://boiler/status.cgi", json_answer (JObj []));
          ("http://boiler/daqdesc.cgi", text_answer sample_descriptions);
          ("http://boiler/daqdata.cgi", text_answer sample_values)].

Definition silent_device : network := device [].

Definition infinite_device : network :=
  device [("http://boiler/status.cgi", json_answer sample_status);
          ("http://boiler/daqdesc.cgi", text_answer sample_descriptions);
          ("http://boiler/daqdata.cgi", text_answer infinite_values)].

Definition rejecting_device : network :=
  device [("http://boiler/ext/parset.cgi",
           json_answer (JObj [("err", JStr "denied")]));
          ("http://boiler/parset.cgi", text_answer "")].

Definition start : world := World client [].

(** The client and the session once the status step has read
    [sample_status]. *)
Definition polled : world :=
  World (set_heating_circuits sample_circuits client) [status_request client].

(** The snapshots the sample documents give. *)
Definition sample_base : snapshot :=
  <["_Température chaudière" := (JFloat (float_of "55.2"), Some "°C")]>
  (<["_Mode" := (JStr "HEAT", None)]>
  (<["_Circuit Main - Temp jour" := (JFloat (float_of "21.0"), Some "°C")]>
  (<["_Circuit Main - Temp nuit" := (JFloat (float_of "16.0"), Some "°C")]> ∅))).

Definition sample_legacy : snapshot :=
  <["Kesseltemperatur" := (JFloat (float_of "61.5"), Some "°C")]>
  (<["Betriebsstunden" := (JInt 1234, Some "h")]>
  (<["Pumpe" := (JBool true, None)]>
  (<["_Mode" := (JStr "AUTO", None)]> ∅))).

Definition legacy_requests : list request :=
  [legacy_request client "/daqdesc.cgi"; legacy_request client "/daqdata.cgi"].

(** * The platforms around the client

    The keyword tables of [const.py], the coordinator of [__init__.py],
    the program selector of [select.py], the connection test of
    [config_flow.py] and the temperature entities of [number.py]. *)

(** ** The constants and classifiers of [const.py] *)

(** [PROGRAM_OPTIONS], in the order of the dict. *)
Definition PROGRAM_OPTIONS : list (string * Z) :=
  [("off", 0); ("normal", 1); ("heat", 2); ("lower", 3)].

(** [PROGRAM_OPTIONS_REVERSE = {v: k for k, v in PROGRAM_OPTIONS.items()}] *)
Definition PROGRAM_OPTIONS_REVERSE : gmap Z string :=
  foldl (fun reverse '(k, v) => <[v := k]> reverse) ∅ PROGRAM_OPTIONS.

(** [PROGRAM_OPTIONS.get(option)] *)
Definition program_id_of (option : string) : Datatypes.option Z :=
  snd <$> List.find (fun kv => String.eqb option kv.1) PROGRAM_OPTIONS.

(** [ICON_KEYWORDS], in the order of the dict. *)
Definition ICON_KEYWORDS : list (string * string) :=
  [("ext", "mdi:sun-thermometer-outline");
   ("chaud", "mdi:fire"); ("kessel", "mdi:fire"); ("boiler", "mdi:fire");
   ("accu", "mdi:water-boiler"); ("puff", "mdi:water-boiler");
   ("tamp", "mdi:water-boiler"); ("buffer", "mdi:water-boiler");
   ("ecs", "mdi:water-boiler"); ("warmwasser", "mdi:water-boiler");
   ("hot water", "mdi:water-boiler");
   ("pump", "mdi:pump"); ("pomp", "mdi:pump");
   ("circ", "mdi:heating-coil"); ("heiz", "mdi:heating-coil");
   ("vent", "mdi:fan"); ("gebl", "mdi:fan"); ("fan", "mdi:fan");
   ("mot", "mdi:cog"); ("motor", "mdi:cog");
   ("cendr", "mdi:delete-empty"); ("asche", "mdi:delete-empty");
   ("ash", "mdi:delete-empty");
   ("révis", "mdi:account-wrench"); ("service", "mdi:account-wrench");
   ("fonct", "mdi:counter"); ("betrieb", "mdi:counter");
   ("runtime", "mdi:counter");
   ("defaut", "mdi:alert-circle"); ("störung", "mdi:alert-circle");
   ("error", "mdi:alert-circle"); ("fault", "mdi:alert-circle");
   ("program", "mdi:cog"); ("prog", "mdi:cog")].

Definition DIAGNOSTIC_KEYWORDS : list string :=
  ["version"; "série"; "serial"; "defaut"; "störung"; "error"; "fault";
   "fonction"; "betrieb"; "function"].

(** [const.get_icon_for_key] *)
Definition get_icon_for_key (key : string) : string :=
  let key_lower := lower key in
  match List.find (fun ki => PyStr.contains ki.1 key_lower) ICON_KEYWORDS with
  | Some (_, icon) => icon
  | None => "mdi:gauge"
  end.

(** [const.is_diagnostic_sensor] *)
Definition is_diagnostic_sensor (key : string) : bool :=
  let key_lower := lower key in
  existsb (fun keyword => PyStr.contains keyword key_lower) DIAGNOSTIC_KEYWORDS.

(** [const.should_exclude_key] *)
Definition should_exclude_key (key : string) : bool :=
  let key_lower := lower key in
  existsb (fun keyword => PyStr.contains keyword key_lower) EXCLUDE_KEYWORDS.

(** ** The coordinator and the program selector *)

(** [BiostarUpdateCoordinator.async_set_program]: the result of
    [setProgram], and whether [async_request_refresh()] has been
    awaited. *)
Definition async_set_program (program_id : Z) : M (bool * bool) :=
  result ← setProgram program_id;
  if result : bool then mret (result, true) else mret (result, false).

(** [BiostarUpdateCoordinator.async_set_temperature], likewise. *)
Definition async_set_temperature (py_repr : json -> string) (circuit_nr : Z)
    (temp_type : string) (value : pyfloat) : M (bool * bool) :=
  result ← setTemperature py_repr circuit_nr temp_type value;
  if result : bool then mret (result, true) else mret (result, false).

(** [GuntamaticProgramSelect.async_select_option]: whether a refresh has
    been requested. *)
Definition async_select_option (option : string) : M bool :=
  match program_id_of option with
  | None => mret false
  | Some program_id =>
      '(success, refresh) ← async_set_program program_id;
      mret refresh
  end.

(** The option a value stands for, the body of the loop of
    [current_option]: an [int] (a [bool] is one) is looked up in
    [PROGRAM_OPTIONS_REVERSE], a string is searched for an option
    name. *)
Definition option_of_value (value : json) : option string :=
  match value with
  | JInt n => PROGRAM_OPTIONS_REVERSE !! n
  | JBool b => PROGRAM_OPTIONS_REVERSE !! (if b then 1 else 0)
  | JStr s =>
      let value_lower := lower s in
      fst <$> List.find (fun kv => PyStr.contains kv.1 value_lower)
                PROGRAM_OPTIONS
  | _ => None
  end.

(** [GuntamaticProgramSelect.current_option] on the items of
    [coordinator.data] in the order of the dict; each value is the list
    [[value, unit]]. *)
Fixpoint current_option (data : list (string * sensor)) : option string :=
  match data with
  | [] => None
  | (key, (value, _)) :: rest =>
      if PyStr.contains "program" (lower key) || PyStr.contains "prog" (lower key)
      then
        match option_of_value value with
        | Some option => Some option
        | None => current_option rest
        end
      else current_option rest
  end.

(** ** The connection test of [config_flow.py] *)

Section ConfigFlow.

(** What [await resp.json(content_type=None)] returns for the answer of
    [/status.cgi], [None] when it raises; [resp_json] is the result of
    the call that checks the content type. *)
Variable json_any : response -> option json.

(** The request of [_test_connection] to [/status.cgi]: [Some true]
    stands for [return True]. *)
Definition test_status (host api_key : string) : M (option bool) :=
  let params := [("key", api_key)] in
  try_except
    (resp ← session_get (Request ("http://" +:+ host +:+ "/status.cgi") params);
     if resp_status resp =? 200 then
       match json_any resp with
       | Some _ => mret (Some true)
       | None => mret None
       end
     else mret None)
    (fun _ => mret None).

(** [GuntamaticBiostarConfigFlow._test_connection] *)
Definition _test_connection (host api_key : string) : M bool :=
  let params := [("key", api_key)] in
  returned ← test_status host api_key;
  match returned with
  | Some b => mret b
  | None =>
      try_except
        (resp ← session_get
                  (Request ("http://" +:+ host +:+ "/daqdesc.cgi") params);
         if resp_status resp =? 200 then mret true else mret false)
        (fun _ => mret false)
  end.

End ConfigFlow.

(** ** The temperature entities of [number.py] *)

(** [GuntamaticTempNumber], the attributes set by [__init__] but the
    unique id, which is made of the configuration entry. *)
Record GuntamaticTempNumber := {
  _circuit_nr : Z;
  _circuit_name : json;
  _temp_type : string;
  _attr_translation_key : string;
  _attr_native_min_value : json;
  _attr_native_max_value : json;
  _attr_native_step : json
}.

Section Number.

(** Python's [int(s)] for a string [s]. *)
Variable int_of_str : string -> outcome Z.

(** [int(v)] *)
Definition py_int (v : json) : outcome Z :=
  match v with
  | JInt n => Ok n
  | JBool b => Ok (if b then 1 else 0)
  | JFloat f => PyFloat.int f
  | JStr s => int_of_str s
  | _ => Raise TypeError
  end.

(** [int(circuit.get("nr", 0))] *)
Definition circuit_number (circuit : json) : outcome Z :=
  nr ← Py.get circuit "nr" (JInt 0);
  py_int nr.

(** [GuntamaticTempNumber.__init__] *)
Definition new_number (circuit_nr : Z) (circuit_name : json)
    (temp_type : string) (constraints : json) : outcome GuntamaticTempNumber :=
  native_min ← Py.get constraints "min" (JFloat (FFin false 8444249301319680 (-49)));
  native_max ← Py.get constraints "max" (JFloat (FFin false 8444249301319680 (-48)));
  native_step ← Py.get constraints "inc" (JFloat (FFin false 4503599627370496 (-53)));
  Ok {| _circuit_nr := circuit_nr;
        _circuit_name := circuit_name;
        _temp_type := temp_type;
        _attr_translation_key := temp_type +:+ "_temperature";
        _attr_native_min_value := native_min;
        _attr_native_max_value := native_max;
        _attr_native_step := native_step |}.

(** The entities [async_setup_entry] of [number.py] builds from the
    cached circuits and constraints: none without write access, else a
    day and a night entity per circuit.  [coordinator] is the client as
    the loop finds it, after the refresh the set-up awaits when there is
    no data yet. *)
Definition temperature_entities (coordinator : Biostar)
  : outcome (list GuntamaticTempNumber) :=
  if negb (has_write_access coordinator) then Ok []
  else
    let heating_circuits := _heating_circuits coordinator in
    let constraints := _heat_constraints coordinator in
    circuits ← Py.iter heating_circuits;
    Py.for_each circuits (fun circuit entities =>
      circuit_nr ← circuit_number circuit;
      circuit_name ← Py.get circuit "name"
                       (JStr ("Circuit " +:+ pretty circuit_nr));
      day ← new_number circuit_nr circuit_name "day" constraints;
      night ← new_number circuit_nr circuit_name "night" constraints;
      Ok (entities ++ [day; night])) [].

(** The loop of [GuntamaticTempNumber.native_value] over the circuits
    that remain. *)
Fixpoint find_native_value (circuits : list json) (entity : GuntamaticTempNumber)
  : outcome json :=
  match circuits with
  | [] => Ok JNull
  | circuit :: rest =>
      nr ← circuit_number circuit;
      if nr =? _circuit_nr entity then
        if String.eqb (_temp_type entity) "day"
        then Py.get circuit "day_temp" JNull
        else Py.get circuit "night_temp" JNull
      else find_native_value rest entity
  end.

(** [GuntamaticTempNumber.native_value] *)
Definition native_value (coordinator : Biostar) (entity : GuntamaticTempNumber)
  : outcome json :=
  circuits ← Py.iter (_heating_circuits coordinator);
  find_native_value circuits entity.

(** [GuntamaticTempNumber.async_set_native_value]: whether the write
    succeeded and a refresh has been requested. *)
Definition async_set_native_value (py_repr : json -> string)
    (entity : GuntamaticTempNumber) (value : pyfloat) : M (bool * bool) :=
  async_set_temperature py_repr (_circuit_nr entity) (_temp_type entity) value.

End Number.

(** ** More vocabulary *)

(** What the legacy parser can store for a sensor: a Boolean, a float
    under a unit of temperature or percentage, an integer under a unit
    of days or hours, or a string; the unit is never the empty string. *)
Definition legacy_typed (s : sensor) : Prop :=
  match s.1 with
  | JBool _ | JStr _ => True
  | JFloat _ => unit_in s.2 ["°C"; "%"] = true
  | JInt _ => unit_in s.2 ["d"; "h"] = true
  | _ => False
  end /\ s.2 <> Some "".

(** The requests of the write commands. *)
Definition program_params (key : string) (program_id : Z)
  : list (string * string) :=
  [("syn", "PR001"); ("value", pretty program_id); ("key", key)].

Definition temperature_params (py_repr : json -> string) (key : string)
    (circuit_nr : Z) (temp_type : string) (value : pyfloat)
  : list (string * string) :=
  [("syn", "HK" +:+ pretty (circuit_nr + 1)
           +:+ (if String.eqb temp_type "day" then "02" else "03"));
   ("value", py_str py_repr (JFloat value)); ("key", key)].

Definition ext_request (b : Biostar) (params : list (string * string)) : request :=
  Request (endpoint b "/ext/parset.cgi") params.

Definition parset_request (b : Biostar) (params : list (string * string))
  : request :=
  Request (endpoint b "/parset.cgi") params.

(** The answer is 200. *)
Definition answers_200 (answer : Datatypes.option response) : bool :=
  from_option (fun resp => resp_status resp =? 200) false answer.

(** [kw] is a substring of [s]. *)
Definition occurs_in (kw s : string) : Prop :=
  exists pre post, s = pre +:+ kw +:+ post.

(** The top-level readings of a status document: the field of the
    document, the key of its sensor and the unit. *)
Definition main_fields : list (string * string * option string) :=
  [("temp", "_Température chaudière", Some "°C");
   ("ext_temp", "_Température extérieure", Some "°C");
   ("co2", "_CO2", Some "%");
   ("fumes", "_Fumées", Some "%");
   ("fuel", "_Combustible", Some "%");
   ("cleaning_in", "_Nettoyage dans", Some "h");
   ("state", "_État", None);
   ("mode", "_Mode", None);
   ("name", "_Nom", None);
   ("timestamp", "_Dernière mise à jour", None)].

(** The readings of the [meta] dict of a status document. *)
Definition meta_fields : list (string * string) :=
  [("sw_version", "_Version firmware");
   ("sn", "_Numéro de série");
   ("typ", "_Modèle");
   ("language", "_Langue")].

(** ** More sample devices *)

(** The extended endpoint acknowledges, and reports an error as well. *)
Definition ack_device : network :=
  device [("http://boiler/ext/parset.cgi",
           json_answer (JObj [("err", JStr "busy"); ("ack", JStr "done")]))].

(** The extended endpoint answers in plain text. *)
Definition ok_text : response := Response 200 "OK" None (Some "OK").

Definition text_device : network :=
  device [("http://boiler/ext/parset.cgi", ok_text)].

(** A device with the legacy write endpoint only. *)
Definition legacy_write_device : network :=
  device [("http://boiler/parset.cgi", text_answer "")].

(** No string is read as an integer. *)
Definition no_int (s : string) : outcome Z := Raise ValueError.

(** The two entities of the circuit of [sample_circuits]. *)
Definition sample_entity (temp_type : string) : GuntamaticTempNumber :=
  {| _circuit_nr := 1; _circuit_name := JStr "Main"; _temp_type := temp_type;
     _attr_translation_key := temp_type +:+ "_temperature";
     _attr_native_min_value := JFloat (float_of "15.0");
     _attr_native_max_value := JFloat (float_of "30.0");
     _attr_native_step := JFloat (float_of "0.5") |}.

(** ** The refresh and the data that survives *)

(** The refresh fails: it raises. *)
Definition refresh_fails (py_repr : json -> string) (net : network) (w : world)
  : Prop :=
  exists e w', _async_get_data py_repr net w = (Raise e, w').

(** Data survives from a source: the status step returns a snapshot that
    is not empty, or the legacy fetch returns data that is not empty. *)
Definition data_survives (py_repr : json -> string) (net : network) (w : world)
  : Prop :=
  (exists base w1, status_step py_repr net w = (Ok base, w1) /\ base <> ∅)
  \/ (exists legacy_data w2,
        _async_get_legacy_data net w = (Ok legacy_data, w2) /\
        legacy_data <> ∅).

(** A device without the status endpoint whose legacy payloads are
    empty. *)
Definition hollow_device : network :=
  device [("http://boiler/status.cgi", not_found);
          ("http://boiler/daqdesc.cgi", text_answer "");
          ("http://boiler/daqdata.cgi", text_answer "")].

(** A device whose status document has [null] for [meta]. *)
Definition malformed_status : json := JObj [("temp", JInt 5); ("meta", JNull)].

Definition malformed_device : network :=
  device [("http://boiler/status.cgi", json_answer malformed_status);
          ("http://boiler/daqdesc.cgi", text_answer sample_descriptions);
          ("http://boiler/daqdata.cgi", text_answer sample_values)].

(** * Properties *)

(** ** Strings *)

Module StrFacts.
Import PyStr.

Lemma append_cons c (a b : string) : String c a +:+ b = String c (a +:+ b).
Proof. reflexivity. Qed.

Lemma append_nil (b : string) : "" +:+ b = b.
Proof. reflexivity. Qed.

Lemma append_assoc (a b c : string) : (a +:+ b) +:+ c = a +:+ (b +:+ c).
Proof.
  induction a as [|x a IH]; [reflexivity|].
  rewrite !append_cons, IH. reflexivity.
Qed.

Lemma split_nonempty sep s : split sep s <> [].
Proof.
  destruct s as [|c r]; simpl; [discriminate|].
  destruct (Ascii.eqb c sep); [discriminate|].
  destruct (split sep r); discriminate.
Qed.

Lemma split_without_separator sep s :
  has_char sep s = false -> split sep s = [s].
Proof.
  induction s as [|c r IH]; simpl; [reflexivity|].
  intros [Hc Hr]%orb_false_elim. rewrite Hc, (IH Hr). reflexivity.
Qed.

Lemma split_at_separator sep s r :
  has_char sep s = false ->
  split sep (s +:+ String sep r) = s :: split sep r.
Proof.
  induction s as [|c s IH]; [rewrite append_nil|rewrite append_cons]; simpl.
  - intros _. rewrite Ascii.eqb_refl. reflexivity.
  - intros [Hc Hs]%orb_false_elim. rewrite Hc, (IH Hs). reflexivity.
Qed.

Lemma split_unlines ls t :
  Forall (fun l => has_char LF l = false) ls ->
  has_char LF t = false ->
  split LF (unlines ls +:+ t) = ls ++ [t].
Proof.
  intros Hls Ht. induction Hls as [|l ls Hl _ IH]; simpl.
  - apply split_without_separator, Ht.
  - rewrite append_assoc, append_cons.
    rewrite (split_at_separator _ _ _ Hl), IH. reflexivity.
Qed.

Lemma lower_char_underscore p :
  exists q, lower_char (String "_" p) = String "_" q.
Proof.
  unfold lower_char, ord. cbn [list_ascii_of_string map].
  change (code "_") with 95.
  destruct p as [|a [|b [|c [|d p]]]]; cbn [list_ascii_of_string map];
    try (vm_compute; eauto; fail); simpl; eauto.
Qed.

Lemma lower_keeps_underscore r :
  exists r', lower (String "_" r) = String "_" r'.
Proof.
  unfold lower. cbn [chars_aux]. destruct (chars_aux r) as [p cs].
  change (is_continuation "_") with false. cbv iota beta.
  cbn [map join fold_right]. rewrite append_nil.
  destruct (lower_char_underscore p) as [q ->].
  rewrite append_cons. eauto.
Qed.

Lemma startswith_underscore k :
  startswith "_" k = true -> exists r, k = String "_" r.
Proof.
  destruct k as [|c r]; cbn [startswith]; [intros H; discriminate H|].
  destruct (Ascii.eqb_spec "_" c) as [<-|]; [eauto|intros H; discriminate H].
Qed.

End StrFacts.

(** ** The legacy parser *)

Section LegacyParser.
Import StrFacts.

Lemma for_each_app {A S} (l1 l2 : list A) (body : A -> S -> outcome S) s :
  Py.for_each (l1 ++ l2) body s =
  (s' ← Py.for_each l1 body s; Py.for_each l2 body s').
Proof.
  revert s. induction l1 as [|x l1 IH]; intros s; simpl; [reflexivity|].
  destruct (body x s) as [s'|e]; simpl; [apply IH|reflexivity].
Qed.

(** An invariant of the state kept by every step is kept by the loop. *)
Lemma for_each_invariant {A S} (P : S -> Prop) (l : list A)
    (body : A -> S -> outcome S) s s' :
  (forall x a b, body x a = Ok b -> P a -> P b) ->
  P s -> Py.for_each l body s = Ok s' -> P s'.
Proof.
  intros Hbody. revert s. induction l as [|x l IH]; intros s Hs; simpl.
  - intros [= <-]. exact Hs.
  - destruct (body x s) as [s1|e] eqn:E; simpl; [|discriminate].
    apply IH. eapply Hbody; eauto.
Qed.

(** What [parse_value] computes, case by case. *)
Lemma parse_value_cases raw_value unitOfMeasurement :
  parse_value raw_value unitOfMeasurement =
  if mem raw_value TRUE_TOKENS then Ok (JBool true)
  else if mem raw_value FALSE_TOKENS then Ok (JBool false)
  else if unit_in unitOfMeasurement ["°C"; "%"] then
    Ok (match PyFloat.parse raw_value with
        | Some f => JFloat f
        | None => JStr raw_value
        end)
  else if unit_in unitOfMeasurement ["d"; "h"] then
    match PyFloat.parse raw_value with
    | None | Some FNan => Ok (JStr raw_value)
    | Some (FInf _) => Raise OverflowError
    | Some (FFin neg m e) =>
        let a := if 0 <=? e then m * 2 ^ e else m / 2 ^ (- e) in
        Ok (JInt (if neg then - a else a))
    end
  else Ok (JStr raw_value).
Proof.
  unfold parse_value, PyFloat.float.
  repeat match goal with
         | |- (if ?b then _ else _) = (if ?b then _ else _) =>
             destruct b; [reflexivity|]
         end;
    try reflexivity;
    destruct (PyFloat.parse raw_value) as [[| |]|]; reflexivity.
Qed.

Lemma parse_value_raises raw_value unitOfMeasurement e :
  parse_value raw_value unitOfMeasurement = Raise e -> e = OverflowError.
Proof.
  rewrite parse_value_cases.
  repeat match goal with
         | |- (if ?b then _ else _) = _ -> _ => destruct b
         | |- match ?x with _ => _ end = _ -> _ => destruct x
         end; congruence.
Qed.

(** Line [i] of both lists, when both have one. *)
Lemma parse_line_at dd dv i d v data :
  dd !! i = Some d -> dv !! i = Some v ->
  parse_line dd dv i data = parse_line [d] [v] 0 data.
Proof.
  intros Hd Hv. unfold parse_line, Py.index. rewrite Hd, Hv. reflexivity.
Qed.

Lemma parse_seq_shift d v dd dv a n data :
  Py.for_each (seq (S a) n) (parse_line (d :: dd) (v :: dv)) data =
  Py.for_each (seq a n) (parse_line dd dv) data.
Proof.
  revert a data. induction n as [|n IH]; intros a data; simpl; [reflexivity|].
  change (parse_line (d :: dd) (v :: dv) (S a) data)
    with (parse_line dd dv a data).
  destruct (parse_line dd dv a data); simpl; [apply IH|reflexivity].
Qed.

(** The loop over indices is the loop over the pairs of lines. *)
Lemma parse_loop_zip dd dv data :
  Py.for_each (seq 0 (min (List.length dd) (List.length dv)))
    (parse_line dd dv) data =
  Py.for_each (zip dd dv) (fun '(d, v) => parse_line [d] [v] 0) data.
Proof.
  revert dv data. induction dd as [|d dd IH]; intros [|v dv] data;
    try reflexivity.
  cbn [List.length min Nat.min seq zip zip_with Py.for_each].
  rewrite (parse_line_at (d :: dd) (v :: dv) 0 d v) by reflexivity.
  destruct (parse_line [d] [v] 0 data) as [data'|e]; simpl; [|reflexivity].
  rewrite parse_seq_shift. apply IH.
Qed.

Lemma parse_legacy_zip dd dv :
  parse_legacy dd dv =
  Py.for_each (zip dd dv) (fun '(d, v) => parse_line [d] [v] 0) ∅.
Proof. apply parse_loop_zip. Qed.

(** One pair of lines on its own. *)
Lemma parse_line_pair d v data :
  parse_line [d] [v] 0 data =
  match split ";" d with
  | [key; unitOfMeasurement] =>
      if mem (lower key) RESERVED then Ok data
      else
        dataValue ← parse_value (strip v) (strip_or_none unitOfMeasurement);
        Ok (<[key := (dataValue, strip_or_none unitOfMeasurement)]> data)
  | _ => Ok data
  end.
Proof. reflexivity. Qed.

Lemma parse_line_raises d v data e :
  parse_line [d] [v] 0 data = Raise e -> e = OverflowError.
Proof.
  rewrite parse_line_pair.
  destruct (split ";" d) as [|key [|u [|]]]; try discriminate.
  destruct (mem (lower key) RESERVED); [discriminate|].
  destruct (parse_value _ _) eqn:E; simpl; [discriminate|].
  intros [= <-]. eapply parse_value_raises, E.
Qed.

Lemma for_each_raises {A S} (l : list A) (body : A -> S -> outcome S) s e e0 :
  (forall x a e, body x a = Raise e -> e = e0) ->
  Py.for_each l body s = Raise e -> e = e0.
Proof.
  intros Hbody. revert s. induction l as [|x l IH]; intros s; simpl.
  - discriminate.
  - destruct (body x s) as [s1|e1] eqn:E; simpl; [apply IH|].
    intros [= <-]. eapply Hbody, E.
Qed.

Lemma parse_legacy_raises dd dv e :
  parse_legacy dd dv = Raise e -> e = OverflowError.
Proof.
  rewrite parse_legacy_zip. apply for_each_raises.
  intros [d v] a e'. apply parse_line_raises.
Qed.

(** A description line that has not exactly two fields changes nothing,
    whatever the value line holds. *)
Lemma parse_line_malformed d v data :
  List.length (split ";" d) <> 2%nat -> parse_line [d] [v] 0 data = Ok data.
Proof.
  rewrite parse_line_pair.
  destruct (split ";" d) as [|key [|u [|]]]; simpl; congruence.
Qed.

Lemma parse_line_no_reserved d v data data' :
  parse_line [d] [v] 0 data = Ok data' ->
  no_reserved_key data -> no_reserved_key data'.
Proof.
  rewrite parse_line_pair.
  destruct (split ";" d) as [|key [|u [|]]]; try (intros [= <-]; auto; fail).
  destruct (mem (lower key) RESERVED) eqn:R; [intros [= <-]; auto|].
  destruct (parse_value _ _); simpl; [|discriminate].
  intros [= <-] H k. destruct (decide (key = k)) as [<-|Hne].
  - intros _. exact R.
  - rewrite lookup_insert_ne by exact Hne. apply H.
Qed.

Lemma parse_legacy_no_reserved dd dv data :
  parse_legacy dd dv = Ok data -> no_reserved_key data.
Proof.
  rewrite parse_legacy_zip. apply for_each_invariant.
  - intros [d v] a b. apply parse_line_no_reserved.
  - intros key [x Hx]. rewrite lookup_empty in Hx. discriminate.
Qed.

End LegacyParser.

(** ** The two fetches as functions of the device's answers *)

Ltac run :=
  unfold try_except, raise, lift, get_self, set_self, session_get,
    mbind, M_bind, mret, M_ret; cbn beta iota.

Lemma status_data_spec net w :
  _async_get_status_data net w =
  (Ok (payload (net (status_request (self w)))),
   after w [status_request (self w)]).
Proof.
  unfold _async_get_status_data, payload, status_request, after. run.
  destruct (net _) as [resp|]; [|reflexivity].
  destruct (resp_status resp =? 200); [|reflexivity].
  unfold json_of. destruct (resp_json resp); reflexivity.
Qed.

Lemma parse_legacy_nil_l dv : parse_legacy [] dv = Ok ∅.
Proof. reflexivity. Qed.

Lemma parse_legacy_nil_r dd : parse_legacy dd [] = Ok ∅.
Proof. unfold parse_legacy. rewrite Nat.min_0_r. reflexivity. Qed.

Lemma decode_cp1252_raises body e :
  Py.decode_cp1252 body = Raise e -> e = DecodeError.
Proof.
  induction body as [|c r IH]; simpl; [discriminate|].
  destruct (Py.cp1252_code_point _); [|congruence].
  destruct (Py.decode_cp1252 r); simpl; [discriminate|].
  intros [= <-]. apply IH. reflexivity.
Qed.

Lemma read_lines_raises resp e : read_lines resp = Raise e -> e = DecodeError.
Proof.
  unfold read_lines.
  destruct (Py.decode_cp1252 _) eqn:E; simpl; [discriminate|].
  intros [= <-]. eapply decode_cp1252_raises, E.
Qed.

Lemma legacy_data_spec net w :
  let b := self w in
  let rq1 := legacy_request b "/daqdesc.cgi" in
  let rq2 := legacy_request b "/daqdata.cgi" in
  _async_get_legacy_data net w =
  match fetched (net rq1) "/daqdesc.cgi" with
  | Raise e => (Raise e, after w [rq1])
  | Ok dd =>
      match fetched (net rq2) "/daqdata.cgi" with
      | Raise e => (Raise e, after w [rq1; rq2])
      | Ok dv => (parse_legacy dd dv, after w [rq1; rq2])
      end
  end.
Proof.
  intros b rq1 rq2. subst b rq1 rq2.
  unfold _async_get_legacy_data, legacy_endpoints, fetch_legacy, fetched,
    legacy_request, after. run. cbn [self sent].
  destruct (net _) as [r1|]; [|reflexivity].
  destruct (resp_status r1 =? 200); cbn [negb]; [|reflexivity].
  change ("/daqdesc.cgi" =? "/daqdesc.cgi")%string with true. cbn iota.
  destruct (read_lines r1) as [dd|e1] eqn:E1;
    [|apply read_lines_raises in E1; subst e1; reflexivity].
  cbn [self sent]. rewrite <- app_assoc. cbn [app].
  destruct (net _) as [r2|]; [|reflexivity].
  destruct (resp_status r2 =? 200); cbn [negb]; [|reflexivity].
  change ("/daqdata.cgi" =? "/daqdesc.cgi")%string with false.
  change ("/daqdata.cgi" =? "/daqdata.cgi")%string with true. cbn iota.
  destruct (read_lines r2) as [dv|e2] eqn:E2;
    [|apply read_lines_raises in E2; subst e2; reflexivity].
  destruct dd as [|d dd]; [reflexivity|].
  destruct dv as [|v dv]; [rewrite parse_legacy_nil_r; reflexivity|].
  reflexivity.
Qed.

Lemma legacy_data_self net w :
  self (_async_get_legacy_data net w).2 = self w.
Proof.
  rewrite legacy_data_spec. cbn zeta.
  repeat match goal with
         | |- context [match ?x with _ => _ end] => destruct x
         end; reflexivity.
Qed.

(** ** The status parser and the refresh *)

Lemma bind_Ok {A B} (m : outcome A) (f : A -> outcome B) b :
  m ≫= f = Ok b -> exists a, m = Ok a /\ f a = Ok b.
Proof. destruct m as [a|e]; simpl; [eauto|discriminate]. Qed.

Ltac inv_bind H :=
  match type of H with
  | mbind _ _ = Ok _ => apply bind_Ok in H as (? & ? & H)
  end.

Lemma merge_legacy_union (result legacy_data : snapshot) :
  merge_legacy result legacy_data = result ∪ legacy_data.
Proof.
  unfold merge_legacy.
  apply (map_fold_weak_ind (fun r (m : snapshot) => r = result ∪ m)).
  - rewrite (right_id_L ∅ (∪)). reflexivity.
  - intros key value m r Hm ->.
    destruct ((result ∪ m) !! key) as [x|] eqn:E.
    + apply lookup_union_Some_raw in E as [E|[_ E]]; [|congruence].
      apply map_eq. intros k. rewrite !lookup_union.
      destruct (decide (key = k)) as [<-|Hne].
      * rewrite E, Hm, lookup_insert_eq. reflexivity.
      * rewrite lookup_insert_ne by exact Hne. reflexivity.
    + apply lookup_union_None in E as [E _].
      apply insert_union_r, E.
Qed.

Lemma merge_legacy_lookup (result legacy_data : snapshot) key :
  merge_legacy result legacy_data !! key =
  match result !! key with
  | Some s => Some s
  | None => legacy_data !! key
  end.
Proof.
  rewrite merge_legacy_union, lookup_union.
  destruct (result !! key), (legacy_data !! key); reflexivity.
Qed.

Lemma underscored_empty : underscored ∅.
Proof. intros key [x Hx]. rewrite lookup_empty in Hx. discriminate. Qed.

Lemma underscored_insert key (s : sensor) result :
  startswith "_" key = true -> underscored result ->
  underscored (<[key := s]> result).
Proof.
  intros Hkey H k. destruct (decide (key = k)) as [<-|Hne]; [auto|].
  rewrite lookup_insert_ne by exact Hne. apply H.
Qed.

Section ClientFacts.

Variable py_repr : json -> string.

Lemma copy_field_underscored data field key unit result result' :
  copy_field data field key unit result = Ok result' ->
  startswith "_" key = true ->
  underscored result -> underscored result'.
Proof.
  intros H Hkey Hr. unfold copy_field in H.
  apply bind_Ok in H as ([] & _ & H).
  - apply bind_Ok in H as (v & _ & [= <-]).
    apply underscored_insert; assumption.
  - injection H as <-. exact Hr.
Qed.

Lemma parse_meta_underscored data result result' :
  parse_meta data result = Ok result' ->
  underscored result -> underscored result'.
Proof.
  intros H Hr. unfold parse_meta in H.
  apply bind_Ok in H as ([] & _ & H); [|injection H as <-; exact Hr].
  repeat inv_bind H.
  eauto 10 using copy_field_underscored.
Qed.

Lemma parse_heat_circ_underscored data result result' :
  parse_heat_circ py_repr data result = Ok result' ->
  underscored result -> underscored result'.
Proof.
  intros H Hr. unfold parse_heat_circ in H.
  apply bind_Ok in H as ([] & _ & H); [|injection H as <-; exact Hr].
  apply bind_Ok in H as (c & _ & H). apply bind_Ok in H as (cs & _ & H).
  eapply (for_each_invariant underscored); [|exact Hr|exact H].
  clear. intros [i circuit] a b H Ha.
  repeat inv_bind H.
  eauto 10 using copy_field_underscored.
Qed.

Lemma parse_water_circ_underscored data result result' :
  parse_water_circ py_repr data result = Ok result' ->
  underscored result -> underscored result'.
Proof.
  intros H Hr. unfold parse_water_circ in H.
  apply bind_Ok in H as ([] & _ & H); [|injection H as <-; exact Hr].
  apply bind_Ok in H as (c & _ & H). apply bind_Ok in H as (cs & _ & H).
  eapply (for_each_invariant underscored); [|exact Hr|exact H].
  clear. intros [i circuit] a b H Ha.
  repeat inv_bind H.
  eauto 10 using copy_field_underscored.
Qed.

Lemma parse_error_underscored data result result' :
  parse_error py_repr data result = Ok result' ->
  underscored result -> underscored result'.
Proof.
  intros H Hr. unfold parse_error in H.
  apply bind_Ok in H as ([] & _ & H); [|injection H as <-; exact Hr].
  apply bind_Ok in H as (errors & _ & H).
  destruct (Py.truthy errors); [|injection H as <-; exact Hr].
  apply bind_Ok in H as (count & _ & H). apply bind_Ok in H as (es & _ & H).
  eapply (for_each_invariant underscored); [| |exact H].
  - intros [i error] a b [= <-]. apply underscored_insert. reflexivity.
  - apply underscored_insert; [reflexivity|exact Hr].
Qed.

Lemma parse_status_data_underscored data result :
  _parse_status_data py_repr data = Ok result -> underscored result.
Proof.
  intros H. unfold _parse_status_data in H.
  repeat inv_bind H.
  eauto 20 using copy_field_underscored, parse_meta_underscored,
    parse_heat_circ_underscored, parse_water_circ_underscored,
    parse_error_underscored, underscored_empty.
Qed.

End ClientFacts.

Lemma M_bind_Ok {A B} (m : M A) (f : A -> M B) net w b w' :
  (m ≫= f) net w = (Ok b, w') ->
  exists a w1, m net w = (Ok a, w1) /\ f a net w1 = (Ok b, w').
Proof.
  unfold mbind, M_bind. destruct (m net w) as [[a|e] w1]; [eauto|discriminate].
Qed.

Lemma store_field_dict fields field store net w :
  store_field (JObj fields) field store net w =
  (Ok tt, World (from_option (fun v => store v (self w)) (self w)
                   (Py.assoc field fields)) (sent w)).
Proof.
  unfold store_field. run. cbn [Py.contains Py.getitem].
  destruct (Py.assoc field fields) as [v|]; [reflexivity|].
  destruct w; reflexivity.
Qed.

Lemma store_field_other status_data field store net w :
  (forall fields, status_data <> JObj fields) ->
  store_field status_data field store net w = (Ok tt, w) \/
  exists e, store_field status_data field store net w = (Raise e, w).
Proof.
  intros Hsd. unfold store_field. run.
  destruct status_data; cbn [Py.contains Py.getitem];
    try (right; eexists; reflexivity).
  - destruct (PyStr.contains field s); [right; eexists|left]; reflexivity.
  - destruct (existsb _ _); [right; eexists|left]; reflexivity.
  - destruct (Hsd fields). reflexivity.
Qed.

Lemma unavailable_payload answer : unavailable answer -> payload answer = JNull.
Proof.
  destruct answer as [resp|]; simpl; [|reflexivity].
  intros [H|H].
  - destruct (Z.eqb_spec (resp_status resp) 200); [contradiction|reflexivity].
  - rewrite H. destruct (_ =? _); reflexivity.
Qed.

Section Refresh.

Variable py_repr : json -> string.

Lemma status_step_spec net w :
  let status_data := payload (net (status_request (self w))) in
  let w1 := after w [status_request (self w)] in
  status_step py_repr net w =
  if Py.truthy status_data then
    (store_field status_data "meta" set_device_info;;
     store_field status_data "heat_circ" set_heating_circuits;;
     store_field status_data "heat_constraints" set_heat_constraints;;
     lift (_parse_status_data py_repr status_data)) net w1
  else (Ok ∅, w1).
Proof.
  cbn zeta. unfold status_step. unfold mbind at 1, M_bind at 1.
  rewrite status_data_spec. destruct (Py.truthy _); reflexivity.
Qed.

Lemma status_step_unavailable net w :
  Py.truthy (payload (net (status_request (self w)))) = false ->
  status_step py_repr net w = (Ok ∅, after w [status_request (self w)]).
Proof. intros H. rewrite status_step_spec. cbn zeta. rewrite H. reflexivity. Qed.

Lemma status_step_underscored net w base w1 :
  status_step py_repr net w = (Ok base, w1) -> underscored base.
Proof.
  rewrite status_step_spec. cbn zeta. destruct (Py.truthy _).
  - intros H.
    apply M_bind_Ok in H as (? & ? & _ & H).
    apply M_bind_Ok in H as (? & ? & _ & H).
    apply M_bind_Ok in H as (? & ? & _ & H).
    injection H as H _. eapply parse_status_data_underscored, H.
  - intros [= <- _]. apply underscored_empty.
Qed.

Lemma status_step_self net w :
  let status_data := payload (net (status_request (self w))) in
  self (status_step py_repr net w).2 =
  if Py.truthy status_data then stored status_data (self w) else self w.
Proof.
  cbn zeta. rewrite status_step_spec. cbn zeta.
  set (sd := payload _). set (w1 := after w _).
  destruct (Py.truthy sd); [|reflexivity].
  assert (Hd : (exists fields, sd = JObj fields) \/
               (forall fields, sd <> JObj fields)).
  { destruct sd; try (right; discriminate). left; eauto. }
  destruct Hd as [[fields ->]|Hsd].
  - unfold mbind, M_bind. rewrite !store_field_dict. reflexivity.
  - assert (Hst : stored sd (self w) = self w).
    { destruct sd; try reflexivity. destruct (Hsd fields); reflexivity. }
    rewrite Hst. unfold mbind, M_bind.
    destruct (store_field_other sd "meta" set_device_info net w1 Hsd)
      as [->|[e ->]]; [|reflexivity].
    destruct (store_field_other sd "heat_circ" set_heating_circuits net w1 Hsd)
      as [->|[e ->]]; [|reflexivity].
    destruct (store_field_other sd "heat_constraints" set_heat_constraints
                net w1 Hsd)
      as [->|[e ->]]; reflexivity.
Qed.

Lemma legacy_step_spec result net w :
  legacy_step result net w =
  match _async_get_legacy_data net w with
  | (Ok legacy_data, w') => (Ok (result ∪ legacy_data), w')
  | (Raise e, w') =>
      if is_update_failed e && negb (bool_decide (result = ∅))
      then (Ok result, w') else (Raise e, w')
  end.
Proof.
  unfold legacy_step. run.
  destruct (_async_get_legacy_data net w) as [[legacy_data|e] w'].
  - rewrite merge_legacy_union. reflexivity.
  - destruct (is_update_failed e), (bool_decide (result = ∅)); reflexivity.
Qed.

Lemma legacy_step_self result net w :
  self (legacy_step result net w).2 = self w.
Proof.
  rewrite legacy_step_spec. pose proof (legacy_data_self net w) as H.
  destruct (_async_get_legacy_data net w) as [[legacy_data|e] w']; [exact H|].
  destruct (_ && _); exact H.
Qed.

Lemma get_data_spec net w :
  _async_get_data py_repr net w =
  match status_step py_repr net w with
  | (Ok base, w1) => legacy_step base net w1
  | (Raise e, w1) => (Raise e, w1)
  end.
Proof. reflexivity. Qed.

Lemma get_data_self net w :
  let status_data := payload (net (status_request (self w))) in
  self (_async_get_data py_repr net w).2 =
  if Py.truthy status_data then stored status_data (self w) else self w.
Proof.
  cbn zeta. rewrite <- status_step_self, get_data_spec.
  destruct (status_step py_repr net w) as [[base|e] w1]; [|reflexivity].
  apply legacy_step_self.
Qed.

End Refresh.

(** ** Which exceptions the status step can raise *)

Lemma raises_only_Ok {A} P (a : A) : raises_only P (Ok a).
Proof. intros e. discriminate. Qed.

Lemma raises_only_bind {A B} P (m : outcome A) (f : A -> outcome B) :
  raises_only P m -> (forall a, raises_only P (f a)) ->
  raises_only P (m ≫= f).
Proof.
  intros Hm Hf e. destruct m as [a|e']; simpl; [apply Hf|].
  intros [= <-]. apply Hm. reflexivity.
Qed.

Lemma raises_only_for_each {A S} P (l : list A) (body : A -> S -> outcome S) s :
  (forall x a, raises_only P (body x a)) -> raises_only P (Py.for_each l body s).
Proof.
  intros Hbody. revert s. induction l as [|x l IH]; intros s; simpl.
  - apply raises_only_Ok.
  - apply raises_only_bind; [apply Hbody|exact IH].
Qed.

Lemma raises_only_if {A} P (c : bool) (m1 m2 : outcome A) :
  raises_only P m1 -> raises_only P m2 -> raises_only P (if c then m1 else m2).
Proof. destruct c; auto. Qed.

Lemma contains_raises k v : raises_only not_update_failed (Py.contains k v).
Proof. intros e. destruct v; simpl; intros [= <-]; reflexivity. Qed.

Lemma getitem_raises v k : raises_only not_update_failed (Py.getitem v k).
Proof.
  intros e. destruct v; simpl; try (intros [= <-]; reflexivity).
  destruct (Py.assoc k fields); intros [= <-]; reflexivity.
Qed.

Lemma get_raises v k d : raises_only not_update_failed (Py.get v k d).
Proof. intros e. destruct v; simpl; intros [= <-]; reflexivity. Qed.

Lemma iter_raises v : raises_only not_update_failed (Py.iter v).
Proof. intros e. destruct v; simpl; intros [= <-]; reflexivity. Qed.

Lemma len_raises v : raises_only not_update_failed (Py.len v).
Proof. intros e. destruct v; simpl; intros [= <-]; reflexivity. Qed.

Lemma copy_field_raises data field key unit result :
  raises_only not_update_failed (copy_field data field key unit result).
Proof.
  unfold copy_field. apply raises_only_bind; [apply contains_raises|].
  intros []; [|apply raises_only_Ok].
  apply raises_only_bind; [apply getitem_raises|]. intros. apply raises_only_Ok.
Qed.

Create HintDb raises.

#[local] Hint Resolve raises_only_Ok contains_raises getitem_raises get_raises
  iter_raises len_raises copy_field_raises : raises.

Ltac raises_step :=
  first
    [ apply raises_only_bind; [|intros ?]
    | apply raises_only_if
    | apply raises_only_for_each; intros [? ?] ?
    | solve [auto with raises] ].

Lemma parse_status_data_raises py_repr data :
  raises_only not_update_failed (_parse_status_data py_repr data).
Proof.
  unfold _parse_status_data, parse_meta, parse_heat_circ, parse_water_circ,
    parse_error.
  repeat raises_step.
Qed.

Lemma M_raises_only_bind {A B} P (m : M A) (f : A -> M B) :
  M_raises_only P m -> (forall a, M_raises_only P (f a)) ->
  M_raises_only P (m ≫= f).
Proof.
  intros Hm Hf net w e w'. unfold mbind, M_bind.
  destruct (m net w) as [[a|e'] w1] eqn:E; [apply Hf|].
  intros [= <- <-]. eapply Hm, E.
Qed.

Lemma M_raises_only_lift {A} P (m : outcome A) :
  raises_only P m -> M_raises_only P (lift m).
Proof. intros Hm net w e w' [= H _]. apply Hm, H. Qed.

Lemma store_field_raises status_data field store :
  M_raises_only not_update_failed (store_field status_data field store).
Proof.
  unfold store_field.
  apply M_raises_only_bind; [apply M_raises_only_lift, contains_raises|].
  intros []; [|intros net w e w'; discriminate].
  apply M_raises_only_bind; [apply M_raises_only_lift, getitem_raises|].
  intros v net w e w'. discriminate.
Qed.

Lemma status_step_raises py_repr :
  M_raises_only not_update_failed (status_step py_repr).
Proof.
  intros net w e w'. rewrite status_step_spec. cbn zeta.
  destruct (Py.truthy _); [|discriminate].
  apply M_raises_only_bind; [apply store_field_raises|intros _].
  apply M_raises_only_bind; [apply store_field_raises|intros _].
  apply M_raises_only_bind; [apply store_field_raises|intros _].
  apply M_raises_only_lift, parse_status_data_raises.
Qed.

(** * The properties of the specification *)

Section Claims.

Variable py_repr : json -> string.

Lemma legacy_step_empty net w :
  legacy_step ∅ net w = _async_get_legacy_data net w.
Proof.
  rewrite legacy_step_spec.
  destruct (_async_get_legacy_data net w) as [[legacy_data|e] w'].
  - rewrite (left_id_L ∅ (∪)). reflexivity.
  - rewrite bool_decide_eq_true_2 by reflexivity.
    rewrite andb_false_r. reflexivity.
Qed.

Lemma refresh_when_unavailable net w :
  unavailable (net (status_request (self w))) ->
  _async_get_data py_repr net w =
  _async_get_legacy_data net (after w [status_request (self w)]).
Proof.
  intros Hun. rewrite get_data_spec, status_step_unavailable.
  - apply legacy_step_empty.
  - rewrite (unavailable_payload _ Hun). reflexivity.
Qed.

(** Every way the refresh can raise: the status step raises, or the
    legacy fetch raises and either the exception is not [UpdateFailed]
    or the status snapshot is empty. *)
Lemma refresh_raises_iff net w e w2 :
  _async_get_data py_repr net w = (Raise e, w2) <->
  status_step py_repr net w = (Raise e, w2) \/
  exists base w1,
    status_step py_repr net w = (Ok base, w1) /\
    _async_get_legacy_data net w1 = (Raise e, w2) /\
    (is_update_failed e = true -> base = ∅).
Proof.
  rewrite get_data_spec.
  destruct (status_step py_repr net w) as [[base|e1] w1] eqn:Hs.
  - rewrite legacy_step_spec.
    destruct (_async_get_legacy_data net w1) as [[legacy_data|e2] w'] eqn:Hl.
    + split; [intros H; discriminate H|].
      intros [H|(b & w1' & Hs' & Hl' & _)]; [discriminate H|congruence].
    + destruct (is_update_failed e2) eqn:Hu; case_bool_decide as Hb; simpl;
        (split;
         [ intros H; simplify_eq; right; eexists _, _; split_and!; eauto;
           congruence
         | intros [H|(b & w1' & Hs' & Hl' & Himp)]; [discriminate H|];
           simplify_eq; rewrite Hl in Hl'; simplify_eq;
           first [reflexivity | exfalso; auto] ]).
  - split; [intros [= <- <-]; auto|].
    intros [H|(? & ? & H & _)]; [exact H|discriminate H].
Qed.

Lemma merged_lookup net w base w1 legacy_data w2 :
  status_step py_repr net w = (Ok base, w1) ->
  _async_get_legacy_data net w1 = (Ok legacy_data, w2) ->
  _async_get_data py_repr net w = (Ok (base ∪ legacy_data), w2).
Proof.
  intros Hs Hl. rewrite get_data_spec, Hs, legacy_step_spec, Hl. reflexivity.
Qed.

(** C2.  When the status step and the legacy fetch both succeed, the
    refresh returns a snapshot in which every key of the status snapshot
    keeps its status value, whatever the legacy data holds for that key,
    and a key absent from the status snapshot has its legacy entry, if
    any. *)
Theorem status_wins_merge net w base w1 legacy_data w2 :
  status_step py_repr net w = (Ok base, w1) ->
  _async_get_legacy_data net w1 = (Ok legacy_data, w2) ->
  exists merged,
    _async_get_data py_repr net w = (Ok merged, w2) /\
    (forall key s l,
        base !! key = Some s -> legacy_data !! key = Some l ->
        merged !! key = Some s) /\
    (forall key s, base !! key = Some s -> merged !! key = Some s) /\
    (forall key, base !! key = None -> merged !! key = legacy_data !! key).
Proof.
  intros Hs Hl. exists (base ∪ legacy_data).
  split; [apply (merged_lookup _ _ _ _ _ _ Hs Hl)|].
  repeat split.
  - intros key s l Hb _. apply lookup_union_Some_l, Hb.
  - intros key s Hb. apply lookup_union_Some_l, Hb.
  - intros key Hb. apply lookup_union_r, Hb.
Qed.

(** C3.  Without a write key, or with an empty one, [setProgram] and
    [setTemperature] return [False] and leave the session as it was: no
    request is sent. *)
Theorem write_needs_key net w program_id circuit_nr temp_type value :
  has_write_access (self w) = false ->
  setProgram program_id net w = (Ok false, w) /\
  setTemperature py_repr circuit_nr temp_type value net w = (Ok false, w) /\
  sent (setProgram program_id net w).2 = sent w /\
  sent (setTemperature py_repr circuit_nr temp_type value net w).2 = sent w.
Proof.
  intros H.
  assert (H1 : setProgram program_id net w = (Ok false, w)).
  { unfold setProgram. run. rewrite H. reflexivity. }
  assert (H2 : setTemperature py_repr circuit_nr temp_type value net w
               = (Ok false, w)).
  { unfold setTemperature. run. rewrite H. reflexivity. }
  rewrite H1, H2. auto.
Qed.

Lemma reserved_not_underscored key :
  startswith "_" key = true -> mem (lower key) RESERVED = false.
Proof.
  intros [r ->]%StrFacts.startswith_underscore.
  destruct (StrFacts.lower_keeps_underscore r) as [r' ->]. reflexivity.
Qed.

Lemma not_reserved_not_excluded s kw :
  mem s RESERVED = false -> kw ∈ EXCLUDE_KEYWORDS -> s <> kw.
Proof.
  unfold mem, RESERVED, EXCLUDE_KEYWORDS. cbn [existsb].
  rewrite !orb_false_iff, !String.eqb_neq. intros (H1 & H2 & H3 & _) Hkw.
  repeat (apply elem_of_cons in Hkw as [->|Hkw]; [assumption|]).
  apply elem_of_nil in Hkw. contradiction.
Qed.

Lemma legacy_data_no_reserved net w legacy_data w' :
  _async_get_legacy_data net w = (Ok legacy_data, w') ->
  no_reserved_key legacy_data.
Proof.
  rewrite legacy_data_spec. cbn zeta.
  destruct (fetched _ "/daqdesc.cgi") as [dd|]; [|discriminate].
  destruct (fetched _ "/daqdata.cgi") as [dv|]; [|discriminate].
  intros [= H _]. eapply parse_legacy_no_reserved, H.
Qed.

(** C4.  No key of the snapshot a refresh returns equals, once put in
    lower case, one of the excluded keywords réservé, reserved,
    reserviert.  This holds for the keys that come from the legacy
    source, which the legacy parser filters, and for the other keys too,
    which begin with an underscore. *)
Theorem no_reserved_key_in_snapshot net w merged w' key kw :
  _async_get_data py_repr net w = (Ok merged, w') ->
  is_Some (merged !! key) -> kw ∈ EXCLUDE_KEYWORDS -> lower key <> kw.
Proof.
  rewrite get_data_spec.
  destruct (status_step py_repr net w) as [[base|e] w1] eqn:Hs; [|discriminate].
  apply status_step_underscored in Hs. rewrite legacy_step_spec.
  destruct (_async_get_legacy_data net w1) as [[legacy_data|e] w2] eqn:Hl.
  - apply legacy_data_no_reserved in Hl.
    intros [= <- _] [s Hkey] Hkw. apply not_reserved_not_excluded; [|exact Hkw].
    apply lookup_union_Some_raw in Hkey as [Hkey|[_ Hkey]].
    + apply reserved_not_underscored, Hs. eauto.
    + apply Hl. eauto.
  - destruct (_ && _); [|discriminate].
    intros [= <- _] Hkey Hkw. apply not_reserved_not_excluded; [|exact Hkw].
    apply reserved_not_underscored, Hs, Hkey.
Qed.

Lemma stored_config status_data b :
  _host (stored status_data b) = _host b /\
  _api_key (stored status_data b) = _api_key b.
Proof.
  destruct status_data; try (split; reflexivity). unfold stored.
  destruct (Py.assoc "meta" fields), (Py.assoc "heat_circ" fields),
    (Py.assoc "heat_constraints" fields); split; reflexivity.
Qed.

Lemma stored_device_info status_data b :
  has_field "meta" status_data = false ->
  _device_info (stored status_data b) = _device_info b.
Proof.
  destruct status_data; try reflexivity. unfold has_field, stored.
  intros H%bool_decide_eq_false. rewrite <- eq_None_not_Some in H. rewrite H.
  destruct (Py.assoc "heat_circ" fields), (Py.assoc "heat_constraints" fields);
    reflexivity.
Qed.

Lemma stored_heating_circuits status_data b :
  has_field "heat_circ" status_data = false ->
  _heating_circuits (stored status_data b) = _heating_circuits b.
Proof.
  destruct status_data; try reflexivity. unfold has_field, stored.
  intros H%bool_decide_eq_false. rewrite <- eq_None_not_Some in H. rewrite H.
  destruct (Py.assoc "meta" fields), (Py.assoc "heat_constraints" fields);
    reflexivity.
Qed.

Lemma stored_heat_constraints status_data b :
  has_field "heat_constraints" status_data = false ->
  _heat_constraints (stored status_data b) = _heat_constraints b.
Proof.
  destruct status_data; try reflexivity. unfold has_field, stored.
  intros H%bool_decide_eq_false. rewrite <- eq_None_not_Some in H. rewrite H.
  destruct (Py.assoc "meta" fields), (Py.assoc "heat_circ" fields);
    reflexivity.
Qed.

Lemma get_data_status_request net w :
  status_request (self (_async_get_data py_repr net w).2) =
  status_request (self w).
Proof.
  rewrite get_data_self. cbn zeta. set (sd := payload _).
  destruct (Py.truthy sd); [|reflexivity].
  destruct (stored_config sd (self w)) as [Hh Hk].
  unfold status_request, endpoint. rewrite Hh, Hk. reflexivity.
Qed.

Lemma unreported_field field answer :
  unavailable answer \/ has_field field (payload answer) = false ->
  has_field field (payload answer) = false.
Proof.
  intros [H|H]; [|exact H]. rewrite (unavailable_payload _ H). reflexivity.
Qed.

Lemma refreshes_keep_constraints nets w :
  Forall (fun net : network =>
            has_field "heat_constraints"
              (payload (net (status_request (self w)))) = false) nets ->
  _heat_constraints (self (refreshes py_repr nets w)) = _heat_constraints (self w).
Proof.
  revert w. induction nets as [|net nets IH]; intros w H; [reflexivity|].
  apply Forall_cons in H as [Hnet Hnets]. cbn [refreshes].
  rewrite IH.
  - rewrite get_data_self. cbn zeta. destruct (Py.truthy _); [|reflexivity].
    apply stored_heat_constraints, Hnet.
  - rewrite get_data_status_request. exact Hnets.
Qed.

(** C8.  After a refresh, whether it returns or raises, the device
    info, the heating circuits and the heat constraints kept on the
    client are those from before the refresh whenever the status
    endpoint is unavailable or its document has no field [meta],
    [heat_circ], [heat_constraints] respectively.  A new client holds the
    constraints min 15.0, max 30.0 and increment 0.5 (key [inc]) and keeps
    them through every run of refreshes in which no status document has a
    field [heat_constraints]. *)
Theorem cached_attributes_persist net w :
  let answer := net (status_request (self w)) in
  let b' := self (_async_get_data py_repr net w).2 in
  (unavailable answer \/ has_field "meta" (payload answer) = false ->
   _device_info b' = _device_info (self w))
  /\ (unavailable answer \/ has_field "heat_circ" (payload answer) = false ->
      _heating_circuits b' = _heating_circuits (self w))
  /\ (unavailable answer \/
      has_field "heat_constraints" (payload answer) = false ->
      _heat_constraints b' = _heat_constraints (self w))
  /\ (forall api_key host write_key nets,
        let b := init api_key host write_key in
        Forall (fun net : network =>
                  unavailable (net (status_request b)) \/
                  has_field "heat_constraints"
                    (payload (net (status_request b))) = false) nets ->
        _heat_constraints (self (refreshes py_repr nets (World b []))) =
        default_heat_constraints)
  /\ (f15 ← PyFloat.float "15.0"; f30 ← PyFloat.float "30.0";
      f05 ← PyFloat.float "0.5";
      Ok (JObj [("min", JFloat f15); ("max", JFloat f30); ("inc", JFloat f05)]))
     = Ok default_heat_constraints.
Proof.
  cbn zeta. rewrite get_data_self. cbn zeta.
  split_and!.
  - intros H%unreported_field. destruct (Py.truthy _); [|reflexivity].
    apply stored_device_info, H.
  - intros H%unreported_field. destruct (Py.truthy _); [|reflexivity].
    apply stored_heating_circuits, H.
  - intros H%unreported_field. destruct (Py.truthy _); [|reflexivity].
    apply stored_heat_constraints, H.
  - intros api_key host write_key nets H.
    rewrite refreshes_keep_constraints; [reflexivity|].
    eapply Forall_impl; [exact H|]. intros net' Hn. apply unreported_field, Hn.
  - vm_compute. reflexivity.
Qed.

Lemma append_inj (p a b : string) : p +:+ a = p +:+ b -> a = b.
Proof.
  induction p as [|c p IH]; [auto|].
  rewrite !StrFacts.append_cons. intros [= H]. auto.
Qed.

Lemma legacy_request_not_status b api :
  api <> "/status.cgi" -> legacy_request b api <> status_request b.
Proof.
  intros Hne [= H]. unfold endpoint in H.
  apply append_inj, append_inj in H. contradiction.
Qed.

Lemma legacy_data_ext (net net' : network) w :
  net' (legacy_request (self w) "/daqdesc.cgi")
  = net (legacy_request (self w) "/daqdesc.cgi") ->
  net' (legacy_request (self w) "/daqdata.cgi")
  = net (legacy_request (self w) "/daqdata.cgi") ->
  _async_get_legacy_data net' w = _async_get_legacy_data net w.
Proof.
  intros H1 H2. rewrite !legacy_data_spec. cbn zeta. rewrite H1, H2.
  reflexivity.
Qed.

(** C9.  A status answer with status 200 whose document is false in
    Python ([{}], [null], [0], the empty string or list, ...) gives the
    refresh of an unavailable status endpoint: the refresh is the legacy
    fetch, the client keeps its attributes, and the result, the client
    and the requests sent are those obtained from any device that differs
    only by an unavailable status endpoint. *)
Theorem falsy_status_is_unavailable net w resp v :
  net (status_request (self w)) = Some resp ->
  resp_status resp = 200 ->
  resp_json resp = Some v ->
  Py.truthy v = false ->
  let rq := status_request (self w) in
  _async_get_data py_repr net w = _async_get_legacy_data net (after w [rq])
  /\ self (_async_get_data py_repr net w).2 = self w
  /\ (forall net' : network,
        unavailable (net' rq) ->
        (forall rq', rq' <> rq -> net' rq' = net rq') ->
        _async_get_data py_repr net' w = _async_get_data py_repr net w).
Proof.
  intros Hnet Hst Hjs Hv. cbn zeta.
  assert (Hp : Py.truthy (payload (net (status_request (self w)))) = false).
  { unfold payload. rewrite Hnet, Hst, Hjs. exact Hv. }
  assert (Hd : _async_get_data py_repr net w
               = _async_get_legacy_data net (after w [status_request (self w)])).
  { rewrite get_data_spec, status_step_unavailable by exact Hp.
    apply legacy_step_empty. }
  split_and!.
  - exact Hd.
  - rewrite Hd, legacy_data_self. reflexivity.
  - intros net' Hun Hagree. rewrite Hd.
    rewrite (refresh_when_unavailable net' w Hun).
    apply legacy_data_ext; cbn [after self];
      apply Hagree, legacy_request_not_status; discriminate.
Qed.

(** C10.  Every key of the dictionary [_parse_status_data] returns
    begins with an underscore.  Hence a key of the legacy data that does
    not begin with one is not a key of the status snapshot, and the
    merged snapshot holds its legacy entry. *)
Theorem status_keys_begin_with_underscore :
  (forall data result key,
      _parse_status_data py_repr data = Ok result ->
      is_Some (result !! key) -> startswith "_" key = true)
  /\ (forall net w base w1 legacy_data w2 key s,
        status_step py_repr net w = (Ok base, w1) ->
        _async_get_legacy_data net w1 = (Ok legacy_data, w2) ->
        legacy_data !! key = Some s ->
        startswith "_" key = false ->
        base !! key = None /\
        exists merged,
          _async_get_data py_repr net w = (Ok merged, w2) /\
          merged !! key = Some s).
Proof.
  split.
  - intros data result key H. apply (parse_status_data_underscored _ _ _ H).
  - intros net w base w1 legacy_data w2 key s Hs Hl Hkey Hu.
    assert (Hb : base !! key = None).
    { apply eq_None_not_Some. intros Hin.
      apply (status_step_underscored _ _ _ _ _ Hs) in Hin. congruence. }
    split; [exact Hb|]. exists (base ∪ legacy_data).
    split; [apply (merged_lookup _ _ _ _ _ _ Hs Hl)|].
    rewrite lookup_union_r by exact Hb. exact Hkey.
Qed.

End Claims.

(** C1.  The refresh absorbs one failure only, the [UpdateFailed] of the
    legacy fetch, and only when the status snapshot is not empty.
    (a) With the status endpoint unavailable (request raising, status
    other than 200, body not JSON) the refresh is the legacy fetch: same
    snapshot on success, empty or not, same exception on failure.
    (b) When the legacy fetch raises [UpdateFailed] and the status
    snapshot is not empty, the refresh returns the status snapshot.
    (c) When the legacy fetch raises [UpdateFailed] and the status
    snapshot is empty, the refresh raises the same [UpdateFailed].
    (d) The refresh raises [UpdateFailed] exactly in case (c).
    (e) The refresh returns a snapshot exactly when the status step
    returns and the legacy fetch returns, the snapshot being the status
    snapshot completed by the legacy data, or raises [UpdateFailed] on a
    status snapshot that is not empty, the snapshot being that one.
    (f) An exception of the status step is no [UpdateFailed] and is the
    exception of the refresh, which ends where the status step ended. *)
Theorem refresh_absorbs_fetch_failure py_repr (net : network) w :
  let rq := status_request (self w) in
  (unavailable (net rq) ->
   _async_get_data py_repr net w = _async_get_legacy_data net (after w [rq]))
  /\ (forall base w1 why w2,
        status_step py_repr net w = (Ok base, w1) ->
        _async_get_legacy_data net w1 = (Raise (UpdateFailed why), w2) ->
        base <> ∅ ->
        _async_get_data py_repr net w = (Ok base, w2))
  /\ (forall w1 why w2,
        status_step py_repr net w = (Ok ∅, w1) ->
        _async_get_legacy_data net w1 = (Raise (UpdateFailed why), w2) ->
        _async_get_data py_repr net w = (Raise (UpdateFailed why), w2))
  /\ (forall why w2,
        _async_get_data py_repr net w = (Raise (UpdateFailed why), w2) <->
        exists w1,
          status_step py_repr net w = (Ok ∅, w1) /\
          _async_get_legacy_data net w1 = (Raise (UpdateFailed why), w2))
  /\ (forall snapshot w2,
        _async_get_data py_repr net w = (Ok snapshot, w2) <->
        exists base w1,
          status_step py_repr net w = (Ok base, w1) /\
          ((exists legacy_data,
               _async_get_legacy_data net w1 = (Ok legacy_data, w2) /\
               snapshot = base ∪ legacy_data)
           \/ (exists why,
                 _async_get_legacy_data net w1 = (Raise (UpdateFailed why), w2) /\
                 base <> ∅ /\ snapshot = base)))
  /\ (forall e w1,
        status_step py_repr net w = (Raise e, w1) ->
        is_update_failed e = false /\
        _async_get_data py_repr net w = (Raise e, w1)).
Proof.
  cbn zeta. split_and!.
  - apply refresh_when_unavailable.
  - intros base w1 why w2 Hs Hl Hne.
    rewrite get_data_spec, Hs, legacy_step_spec, Hl.
    rewrite bool_decide_eq_false_2 by exact Hne. reflexivity.
  - intros w1 why w2 Hs Hl.
    rewrite get_data_spec, Hs, legacy_step_empty. exact Hl.
  - intros why w2. split.
    + rewrite get_data_spec.
      destruct (status_step py_repr net w) as [[base|e] w1] eqn:Hs.
      * rewrite legacy_step_spec.
        destruct (_async_get_legacy_data net w1) as [[legacy_data|e] w'] eqn:Hl;
          [discriminate|].
        destruct (decide (base = ∅)) as [->|Hne].
        -- rewrite bool_decide_eq_true_2, andb_false_r by reflexivity.
           intros [= -> ->]. eauto.
        -- rewrite bool_decide_eq_false_2, andb_true_r by exact Hne.
           destruct e; simpl; discriminate.
      * intros [= -> ->]. apply status_step_raises in Hs. discriminate Hs.
    + intros (w1 & Hs & Hl).
      rewrite get_data_spec, Hs, legacy_step_empty. exact Hl.
  - intros snapshot w2. rewrite get_data_spec.
    destruct (status_step py_repr net w) as [[base|e] w1] eqn:Hs.
    + rewrite legacy_step_spec.
      destruct (_async_get_legacy_data net w1) as [[legacy_data|e] w'] eqn:Hl.
      * split.
        -- intros [= <- <-]. exists base, w1. split; [reflexivity|]. left. eauto.
        -- intros (b & w1' & Hs' & Hcase). injection Hs' as <- <-.
           destruct Hcase as [(l & H & ->)|(why & H & _)]; rewrite Hl in H;
             [injection H as <- <-; reflexivity|discriminate H].
      * split.
        -- destruct (is_update_failed e) eqn:Hu; case_bool_decide as Hb;
             cbn [andb negb]; try (intros H; discriminate H).
           intros [= <- <-]. exists base, w1. split; [reflexivity|]. right.
           destruct e; try discriminate Hu. eauto.
        -- intros (b & w1' & Hs' & Hcase). injection Hs' as <- <-.
           destruct Hcase as [(l & H & ->)|(why & H & Hne & ->)]; rewrite Hl in H;
             [discriminate H|].
           injection H as -> <-. cbn [is_update_failed andb].
           rewrite bool_decide_eq_false_2 by exact Hne. reflexivity.
    + split; [intros H; discriminate H|].
      intros (b & w1' & H & _). discriminate H.
  - intros e w1 Hs. split.
    + apply status_step_raises in Hs. exact Hs.
    + rewrite get_data_spec, Hs. reflexivity.
Qed.

Lemma parse_pairs_sources l data :
  Py.for_each l (fun '(d, v) => parse_line [d] [v] 0) ∅ = Ok data ->
  forall key s, data !! key = Some s ->
    exists (i : nat) d v unit,
      l !! i = Some (d, v) /\
      split ";" d = [key; unit] /\
      mem (lower key) RESERVED = false /\
      parse_value (strip v) (strip_or_none unit) = Ok s.1 /\
      s.2 = strip_or_none unit.
Proof.
  revert data. induction l as [|[d v] l IH] using rev_ind; intros data.
  - intros [= <-] key s H. rewrite lookup_empty in H. discriminate H.
  - rewrite for_each_app. intros H. apply bind_Ok in H as (data' & Hl & H).
    cbn [Py.for_each] in H. apply bind_Ok in H as (data'' & H & [= <-]).
    assert (Hold : forall key s, data' !! key = Some s ->
              exists (i : nat) d0 v0 unit,
                (l ++ [(d, v)]) !! i = Some (d0, v0) /\
                split ";" d0 = [key; unit] /\
                mem (lower key) RESERVED = false /\
                parse_value (strip v0) (strip_or_none unit) = Ok s.1 /\
                s.2 = strip_or_none unit).
    { intros key s Hk.
      destruct (IH _ Hl key s Hk) as (i & d0 & v0 & unit & Hi & F).
      exists i, d0, v0, unit. split; [|exact F].
      rewrite lookup_app_l; [exact Hi|]. apply lookup_lt_Some in Hi. exact Hi. }
    rewrite parse_line_pair in H.
    destruct (split ";" d) as [|k [|u [|]]] eqn:Hsplit;
      try (injection H as <-; exact Hold).
    destruct (mem (lower k) RESERVED) eqn:Hres; [injection H as <-; exact Hold|].
    apply bind_Ok in H as (dataValue & Hv & [= <-]).
    intros key s. destruct (decide (k = key)) as [<-|Hne].
    + rewrite lookup_insert_eq. intros [= <-].
      exists (List.length l), d, v, u. split_and!; auto.
      rewrite lookup_app_r by reflexivity. rewrite Nat.sub_diag. reflexivity.
    + rewrite lookup_insert_ne by exact Hne. apply Hold.
Qed.

Lemma later_lines_keep key l (data data' : snapshot) :
  Forall (fun dv : string * string =>
            forall unit, split ";" dv.1 <> [key; unit]) l ->
  Py.for_each l (fun '(d, v) => parse_line [d] [v] 0) data = Ok data' ->
  data' !! key = data !! key.
Proof.
  intros Hl. revert data. induction Hl as [|[d v] l Hd _ IH]; intros data.
  - intros [= <-]. reflexivity.
  - cbn [Py.for_each]. intros H. apply bind_Ok in H as (data1 & H1 & H).
    rewrite (IH _ H). rewrite parse_line_pair in H1. cbn [fst] in Hd.
    destruct (split ";" d) as [|k [|u [|]]] eqn:Hsplit;
      try (injection H1 as <-; reflexivity).
    destruct (mem (lower k) RESERVED); [injection H1 as <-; reflexivity|].
    apply bind_Ok in H1 as (dataValue & _ & [= <-]).
    apply lookup_insert_ne. intros ->. apply (Hd u). reflexivity.
Qed.

Lemma Forall_zip_fst {A B} (P : A -> Prop) (l : list A) (k : list B) :
  Forall P l -> Forall (fun x : A * B => P x.1) (zip l k).
Proof.
  intros H. revert k. induction H as [|a l Ha _ IH]; intros [|b k];
    cbn [zip_with]; constructor; auto.
Qed.

(** C7.  The lines of each payload are those of the text without the
    part after the last line feed.  [_async_get_legacy_data] parses them
    pair by pair: description line [i] with value line [i], as far as
    both lists go; lines beyond the shorter list change nothing and raise
    nothing; a description line that does not split into exactly two
    fields at [;] is passed over and the remaining lines are parsed as if
    it and its value line were not there.  What a pair yields: every
    sensor of the data comes from a description line [key;unit] and the
    value line of the same index, its value parsed from that value line
    and its unit the stripped unit; and a description line [key;unit]
    whose key is not reserved and does not come again later gives the key
    the value of the value line at its own index. *)
Theorem legacy_lines_paired :
  (forall (net : network) w r1 r2 text1 text2,
      net (legacy_request (self w) "/daqdesc.cgi") = Some r1 ->
      net (legacy_request (self w) "/daqdata.cgi") = Some r2 ->
      resp_status r1 = 200 -> resp_status r2 = 200 ->
      Py.decode_cp1252 (resp_body r1) = Ok text1 ->
      Py.decode_cp1252 (resp_body r2) = Ok text2 ->
      _async_get_legacy_data net w =
      (parse_legacy (lines text1) (lines text2),
       after w [legacy_request (self w) "/daqdesc.cgi";
                legacy_request (self w) "/daqdata.cgi"]))
  /\ (forall ls last,
        Forall (fun l => has_char LF l = false) ls ->
        has_char LF last = false ->
        lines (unlines ls +:+ last) = ls)
  /\ (forall dd dv,
        parse_legacy dd dv =
        Py.for_each (zip dd dv) (fun '(d, v) => parse_line [d] [v] 0) ∅)
  /\ (forall dd dv extra,
        List.length dd = List.length dv ->
        parse_legacy (dd ++ extra) dv = parse_legacy dd dv /\
        parse_legacy dd (dv ++ extra) = parse_legacy dd dv)
  /\ (forall dd dv, parse_legacy dd dv <> Raise IndexError)
  /\ (forall d1 d2 v1 v2 d v,
        List.length d1 = List.length v1 ->
        List.length (split ";" d) <> 2%nat ->
        parse_legacy (d1 ++ d :: d2) (v1 ++ v :: v2) =
        parse_legacy (d1 ++ d2) (v1 ++ v2))
  /\ (forall dd dv data key s,
        parse_legacy dd dv = Ok data ->
        data !! key = Some s ->
        exists (i : nat) d v unit,
          dd !! i = Some d /\ dv !! i = Some v /\
          split ";" d = [key; unit] /\
          mem (lower key) RESERVED = false /\
          parse_value (strip v) (strip_or_none unit) = Ok s.1 /\
          s.2 = strip_or_none unit)
  /\ (forall d1 d2 v1 v2 d v key unit data,
        List.length d1 = List.length v1 ->
        split ";" d = [key; unit] ->
        mem (lower key) RESERVED = false ->
        Forall (fun d' => forall unit', split ";" d' <> [key; unit']) d2 ->
        parse_legacy (d1 ++ d :: d2) (v1 ++ v :: v2) = Ok data ->
        exists dataValue,
          parse_value (strip v) (strip_or_none unit) = Ok dataValue /\
          data !! key = Some (dataValue, strip_or_none unit)).
Proof.
  split_and!.
  - intros net w r1 r2 text1 text2 H1 H2 S1 S2 D1 D2.
    rewrite legacy_data_spec. cbn zeta. rewrite H1, H2.
    unfold fetched, read_lines. rewrite S1, S2, D1, D2. reflexivity.
  - intros ls last Hls Hlast. unfold lines, drop_last.
    rewrite (StrFacts.split_unlines _ _ Hls Hlast). apply removelast_last.
  - apply parse_legacy_zip.
  - intros dd dv extra Hlen. rewrite !parse_legacy_zip.
    rewrite zip_with_app_l, zip_with_app_r.
    rewrite <- Hlen, !take_ge, !drop_ge by (rewrite ?Hlen; reflexivity).
    rewrite zip_with_nil_r, app_nil_r. cbn [zip_with]. rewrite app_nil_r.
    auto.
  - intros dd dv H. apply parse_legacy_raises in H. discriminate H.
  - intros d1 d2 v1 v2 d v Hlen Hbad. rewrite !parse_legacy_zip.
    rewrite !zip_with_app by exact Hlen.
    rewrite !for_each_app. cbn [zip_with Py.for_each].
    destruct (Py.for_each (zip_with pair d1 v1) _ ∅) as [data|e];
      [|reflexivity].
    cbn [mbind outcome_bind]. rewrite (parse_line_malformed _ _ _ Hbad).
    reflexivity.
  - intros dd dv data key s H Hk. rewrite parse_legacy_zip in H.
    destruct (parse_pairs_sources _ _ H key s Hk)
      as (i & d & v & unit & Hi & F).
    apply lookup_zip_with_Some in Hi as (d' & v' & [= <- <-] & Hd & Hv).
    exists i, d, v, unit. split_and!; tauto.
  - intros d1 d2 v1 v2 d v key unit data Hlen Hsplit Hres Hlater H.
    rewrite parse_legacy_zip, zip_with_app in H by exact Hlen.
    rewrite for_each_app in H. apply bind_Ok in H as (data1 & _ & H).
    cbn [zip_with Py.for_each] in H. apply bind_Ok in H as (data2 & Hline & H).
    rewrite parse_line_pair, Hsplit, Hres in Hline.
    apply bind_Ok in Hline as (dataValue & Hv & [= <-]).
    exists dataValue. split; [exact Hv|].
    rewrite (later_lines_keep key _ _ _ (Forall_zip_fst _ d2 v2 Hlater) H).
    apply lookup_insert_eq.
Qed.

(** ** The builtins and the value parser on small inputs *)

Example lower_upper_case_keyword : lower "RÉSERVÉ" = "réservé".
Proof. vm_compute. reflexivity. Qed.

Example strip_spaces_and_return :
  strip (" AN " +:+ PyStr.bytes [13]) = "AN".
Proof. vm_compute. reflexivity. Qed.

Example decode_degree_celsius : Py.decode_cp1252 (PyStr.bytes [176; 67]) = Ok "°C".
Proof. vm_compute. reflexivity. Qed.

Example decode_undefined_byte :
  Py.decode_cp1252 (PyStr.bytes [65; 129]) = Raise DecodeError.
Proof. vm_compute. reflexivity. Qed.

Example float_of_decimal :
  PyFloat.parse "21.5" = Some (FFin false 6051711999279104 (-48)) /\
  PyFloat.parse "0.1" = Some (FFin false 7205759403792794 (-56)) /\
  PyFloat.parse "-1_000" = Some (FFin true 8796093022208000 (-43)) /\
  PyFloat.parse "1e999" = Some (FInf false) /\
  PyFloat.parse "-Infinity" = Some (FInf true) /\
  PyFloat.parse "NaN" = Some FNan.
Proof. vm_compute. repeat split. Qed.

Example float_rejects :
  map PyFloat.parse [""; "foo"; "."; "1e"; "1__0"; "_1"; "1 2"; "0x10"; "1,5"]
  = [None; None; None; None; None; None; None; None; None].
Proof. vm_compute. reflexivity. Qed.

Example int_truncates :
  map (fun s => f ← PyFloat.float s; PyFloat.int f)
    ["12.9"; "-12.9"; "0.99999999999999999999"; "nan"; "inf"]
  = [Ok 12; Ok (-12); Ok 1; Raise ValueError; Raise OverflowError].
Proof. vm_compute. reflexivity. Qed.

Example value_tokens :
  parse_value "MARCHE" (Some "°C") = Ok (JBool true) /\
  parse_value "ARRÊT" (Some "h") = Ok (JBool false) /\
  parse_value "AN" None = Ok (JBool true).
Proof. vm_compute. repeat split. Qed.

Example value_numbers :
  parse_value "21.5" (Some "°C") = Ok (JFloat (float_of "21.5")) /\
  parse_value "foo" (Some "°C") = Ok (JStr "foo") /\
  parse_value "12.9" (Some "h") = Ok (JInt 12) /\
  parse_value "nan" (Some "d") = Ok (JStr "nan") /\
  parse_value "12.9" (Some "bar") = Ok (JStr "12.9").
Proof. vm_compute. repeat split. Qed.

(** The filter of line 132 compares whole keys: a key that only contains
    a keyword is kept. *)
Example key_containing_keyword_kept :
  (data ← parse_legacy ["Reserved 2;"; "RESERVED;"] ["0"; "0"];
   Ok (map_to_list data)) = Ok [("Reserved 2", (JStr "0", None))].
Proof. vm_compute. reflexivity. Qed.

(** ** The sample devices at work *)

Lemma full_device_status :
  status_step plain_repr full_device start = (Ok sample_base, polled).
Proof. vm_compute. reflexivity. Qed.

Lemma full_device_legacy :
  _async_get_legacy_data full_device polled =
  (Ok sample_legacy, after polled legacy_requests).
Proof. vm_compute. reflexivity. Qed.

Lemma status_device_status :
  status_step plain_repr status_device start = (Ok sample_base, polled).
Proof. vm_compute. reflexivity. Qed.

Lemma status_device_legacy :
  _async_get_legacy_data status_device polled =
  (Raise (UpdateFailed (FetchError "/daqdesc.cgi")),
   after polled [legacy_request client "/daqdesc.cgi"]).
Proof. vm_compute. reflexivity. Qed.

Lemma sample_base_not_empty : sample_base <> ∅.
Proof.
  intros H. apply (f_equal (fun m : snapshot => m !! "_Mode")) in H.
  vm_compute in H. discriminate H.
Qed.

Lemma refresh_absorbs_fetch_failure_witness :
  (unavailable (legacy_device (status_request (self start))) /\
   _async_get_data plain_repr legacy_device start =
   _async_get_legacy_data legacy_device
     (after start [status_request (self start)]))
  /\ _async_get_data plain_repr status_device start =
     (Ok sample_base, after polled [legacy_request client "/daqdesc.cgi"])
  /\ _async_get_data plain_repr silent_device start =
     (Raise (UpdateFailed (FetchError "/daqdesc.cgi")),
      after start [status_request client; legacy_request client "/daqdesc.cgi"])
  /\ _async_get_data plain_repr full_device start =
     (Ok (sample_base ∪ sample_legacy), after polled legacy_requests)
  /\ (is_update_failed TypeError = false /\
      _async_get_data plain_repr malformed_device start =
      (Raise TypeError,
       World (set_device_info JNull client) [status_request client])).
Proof.
  assert (Hun : unavailable (legacy_device (status_request (self start)))).
  { left. vm_compute. discriminate. }
  assert (Hs : status_step plain_repr malformed_device start
               = (Raise TypeError,
                  World (set_device_info JNull client) [status_request client]))
    by (vm_compute; reflexivity).
  assert (Hf := proj2 (proj2 (proj2 (proj2 (proj2
                  (refresh_absorbs_fetch_failure plain_repr malformed_device
                     start))))) _ _ Hs).
  split_and!.
  - exact Hun.
  - exact (proj1 (refresh_absorbs_fetch_failure plain_repr legacy_device start)
             Hun).
  - exact (proj1 (proj2 (refresh_absorbs_fetch_failure plain_repr status_device
                           start))
             sample_base polled _ _ status_device_status status_device_legacy
             sample_base_not_empty).
  - apply (proj1 (proj2 (proj2
             (refresh_absorbs_fetch_failure plain_repr silent_device start)))
             (after start [status_request client])).
    + vm_compute. reflexivity.
    + vm_compute. reflexivity.
  - apply (proj2 (proj1 (proj2 (proj2 (proj2 (proj2
             (refresh_absorbs_fetch_failure plain_repr full_device start)))))
             (sample_base ∪ sample_legacy) (after polled legacy_requests))).
    exists sample_base, polled. split; [exact full_device_status|].
    left. exists sample_legacy. split; [exact full_device_legacy|reflexivity].
  - exact (proj1 Hf).
  - exact (proj2 Hf).
Defined.

Lemma status_wins_merge_witness :
  status_step plain_repr full_device start = (Ok sample_base, polled) /\
  _async_get_legacy_data full_device polled =
  (Ok sample_legacy, after polled legacy_requests) /\
  exists merged,
    _async_get_data plain_repr full_device start =
    (Ok merged, after polled legacy_requests) /\
    (forall key s l,
        sample_base !! key = Some s -> sample_legacy !! key = Some l ->
        merged !! key = Some s) /\
    (forall key s, sample_base !! key = Some s -> merged !! key = Some s) /\
    (forall key, sample_base !! key = None ->
                 merged !! key = sample_legacy !! key).
Proof.
  split_and!.
  - exact full_device_status.
  - exact full_device_legacy.
  - exact (status_wins_merge plain_repr full_device start sample_base polled
             sample_legacy _ full_device_status full_device_legacy).
Defined.

Lemma write_needs_key_witness :
  has_write_access (self (World reader [])) = false /\
  setProgram 2 full_device (World reader []) = (Ok false, World reader []) /\
  setTemperature plain_repr 0 "day" (float_of "21.5") full_device
    (World reader []) = (Ok false, World reader []) /\
  sent (setProgram 2 full_device (World reader [])).2 = [] /\
  sent (setTemperature plain_repr 0 "day" (float_of "21.5") full_device
          (World reader [])).2 = [].
Proof.
  split; [reflexivity|].
  apply (write_needs_key plain_repr full_device (World reader []) 2 0 "day"
           (float_of "21.5")).
  reflexivity.
Defined.

Lemma full_device_refresh :
  _async_get_data plain_repr full_device start =
  (Ok (sample_base ∪ sample_legacy), after polled legacy_requests).
Proof.
  exact (merged_lookup plain_repr full_device start sample_base polled
           sample_legacy _ full_device_status full_device_legacy).
Qed.

Lemma no_reserved_key_in_snapshot_witness :
  _async_get_data plain_repr full_device start =
  (Ok (sample_base ∪ sample_legacy), after polled legacy_requests) /\
  is_Some ((sample_base ∪ sample_legacy) !! "Pumpe") /\
  "reserved" ∈ EXCLUDE_KEYWORDS /\
  lower "Pumpe" <> "reserved".
Proof.
  assert (Hin : is_Some ((sample_base ∪ sample_legacy) !! "Pumpe")).
  { vm_compute. eauto. }
  assert (Hkw : "reserved" ∈ EXCLUDE_KEYWORDS).
  { unfold EXCLUDE_KEYWORDS. constructor 2. constructor 1. }
  split_and!; [exact full_device_refresh|exact Hin|exact Hkw|].
  exact (no_reserved_key_in_snapshot plain_repr full_device start _ _
           "Pumpe" "reserved" full_device_refresh Hin Hkw).
Defined.

Lemma legacy_lines_paired_witness :
  (List.length ["Kessel;h"] = List.length ["12"] /\
   List.length (split ";" "no separator") <> 2%nat /\
   parse_legacy (["Kessel;h"] ++ "no separator" :: ["Pumpe;"])
     (["12"] ++ "inf" :: ["AN"]) =
   parse_legacy (["Kessel;h"] ++ ["Pumpe;"]) (["12"] ++ ["AN"]))
  /\ (parse_legacy (["Kessel;h"] ++ ["Pumpe;"; "a;b;c"]) ["12"] =
      parse_legacy ["Kessel;h"] ["12"] /\
      parse_legacy ["Kessel;h"] (["12"] ++ ["inf"; ""]) =
      parse_legacy ["Kessel;h"] ["12"])
  /\ (Forall (fun l => has_char LF l = false) ["Kessel;h"; "Pumpe;"] /\
      has_char LF "trailing" = false /\
      lines (unlines ["Kessel;h"; "Pumpe;"] +:+ "trailing") =
      ["Kessel;h"; "Pumpe;"])
  /\ (parse_legacy (["Kessel;h"] ++ "Pumpe;" :: ["no separator"; "Kessel;h"])
        (["12"] ++ "AN" :: ["x"; "13"; "14"])
      = Ok (<["Pumpe" := (JBool true, None)]>
            (<["Kessel" := (JInt 13, Some "h")]> ∅)) /\
      exists dataValue,
        parse_value (strip "AN") (strip_or_none "") = Ok dataValue /\
        (<["Pumpe" := (JBool true, None)]>
         (<["Kessel" := (JInt 13, Some "h")]> (∅ : snapshot))) !! "Pumpe"
        = Some (dataValue, strip_or_none ""))
  /\ (exists (i : nat) d v unit,
        ["Kessel;h"; "Pumpe;"; "no separator"; "Kessel;h"] !! i = Some d /\
        ["12"; "AN"; "x"; "13"; "14"] !! i = Some v /\
        split ";" d = ["Kessel"; unit] /\
        mem (lower "Kessel") RESERVED = false /\
        parse_value (strip v) (strip_or_none unit) = Ok (JInt 13) /\
        Some "h" = strip_or_none unit).
Proof.
  assert (Hbad : List.length (split ";" "no separator") <> 2%nat).
  { vm_compute. discriminate. }
  assert (Hls : Forall (fun l => has_char LF l = false) ["Kessel;h"; "Pumpe;"]).
  { repeat constructor. }
  assert (H1 := proj1 (proj2 (proj2 (proj2 legacy_lines_paired)))
                 ["Kessel;h"] ["12"] ["Pumpe;"; "a;b;c"] eq_refl).
  assert (H2 := proj1 (proj2 (proj2 (proj2 legacy_lines_paired)))
                 ["Kessel;h"] ["12"] ["inf"; ""] eq_refl).
  assert (Hp : parse_legacy
                 (["Kessel;h"] ++ "Pumpe;" :: ["no separator"; "Kessel;h"])
                 (["12"] ++ "AN" :: ["x"; "13"; "14"])
               = Ok (<["Pumpe" := (JBool true, None)]>
                     (<["Kessel" := (JInt 13, Some "h")]> ∅)))
    by (vm_compute; reflexivity).
  split_and!;
    [reflexivity|exact Hbad| |exact (proj1 H1)|exact (proj2 H2)|exact Hls
    |reflexivity| |exact Hp| |].
  - exact (proj1 (proj2 (proj2 (proj2 (proj2 (proj2 legacy_lines_paired)))))
             ["Kessel;h"] ["Pumpe;"] ["12"] ["AN"] "no separator" "inf"
             eq_refl Hbad).
  - exact (proj1 (proj2 legacy_lines_paired) ["Kessel;h"; "Pumpe;"] "trailing"
             Hls eq_refl).
  - apply (proj2 (proj2 (proj2 (proj2 (proj2 (proj2 (proj2
             legacy_lines_paired))))))
             ["Kessel;h"] ["no separator"; "Kessel;h"] ["12"] ["x"; "13"; "14"]
             "Pumpe;" "AN" "Pumpe" "").
    + reflexivity.
    + vm_compute. reflexivity.
    + vm_compute. reflexivity.
    + repeat constructor; intros unit'; vm_compute; discriminate.
    + exact Hp.
  - apply (proj1 (proj2 (proj2 (proj2 (proj2 (proj2 (proj2
             legacy_lines_paired))))))
             ["Kessel;h"; "Pumpe;"; "no separator"; "Kessel;h"]
             ["12"; "AN"; "x"; "13"; "14"]
             (<["Pumpe" := (JBool true, None)]>
              (<["Kessel" := (JInt 13, Some "h")]> ∅))
             "Kessel" (JInt 13, Some "h")).
    + exact Hp.
    + vm_compute. reflexivity.
Defined.

Lemma cached_attributes_persist_witness :
  ((unavailable (legacy_device (status_request (self polled))) \/
    has_field "heat_circ"
      (payload (legacy_device (status_request (self polled)))) = false) /\
   _heating_circuits (self (_async_get_data plain_repr legacy_device polled).2)
   = sample_circuits)
  /\ (Forall (fun net : network =>
                unavailable (net (status_request client)) \/
                has_field "heat_constraints"
                  (payload (net (status_request client))) = false)
        [full_device; silent_device; empty_status_device; legacy_device] /\
      _heat_constraints
        (self (refreshes plain_repr
                 [full_device; silent_device; empty_status_device; legacy_device]
                 start))
      = default_heat_constraints).
Proof.
  assert (Hun : unavailable (legacy_device (status_request (self polled)))).
  { left. vm_compute. discriminate. }
  assert (Hall : Forall (fun net : network =>
                unavailable (net (status_request client)) \/
                has_field "heat_constraints"
                  (payload (net (status_request client))) = false)
        [full_device; silent_device; empty_status_device; legacy_device]).
  { repeat (apply Forall_cons; split); [right; reflexivity..|apply Forall_nil_2]. }
  split_and!; [left; exact Hun| |exact Hall|].
  - exact (proj1 (proj2 (cached_attributes_persist plain_repr legacy_device
                           polled)) (or_introl Hun)).
  - exact (proj1 (proj2 (proj2 (proj2
             (cached_attributes_persist plain_repr legacy_device polled))))
             "secret" "boiler" (Some "write") _ Hall).
Defined.

Lemma falsy_status_is_unavailable_witness :
  empty_status_device (status_request (self start)) = Some (json_answer (JObj []))
  /\ resp_status (json_answer (JObj [])) = 200
  /\ resp_json (json_answer (JObj [])) = Some (JObj [])
  /\ Py.truthy (JObj []) = false
  /\ _async_get_data plain_repr empty_status_device start =
     _async_get_legacy_data empty_status_device
       (after start [status_request (self start)])
  /\ self (_async_get_data plain_repr empty_status_device start).2 = self start.
Proof.
  assert (H := falsy_status_is_unavailable plain_repr empty_status_device start
                 (json_answer (JObj [])) (JObj []) eq_refl eq_refl eq_refl eq_refl).
  split_and!; try reflexivity; apply H.
Defined.

Lemma status_keys_begin_with_underscore_witness :
  status_step plain_repr full_device start = (Ok sample_base, polled) /\
  _async_get_legacy_data full_device polled =
  (Ok sample_legacy, after polled legacy_requests) /\
  sample_legacy !! "Pumpe" = Some (JBool true, None) /\
  startswith "_" "Pumpe" = false /\
  sample_base !! "Pumpe" = None /\
  exists merged,
    _async_get_data plain_repr full_device start =
    (Ok merged, after polled legacy_requests) /\
    merged !! "Pumpe" = Some (JBool true, None).
Proof.
  assert (Hk : sample_legacy !! "Pumpe" = Some (JBool true, None)).
  { vm_compute. reflexivity. }
  assert (H := proj2 (status_keys_begin_with_underscore plain_repr)
                 full_device start sample_base polled sample_legacy _
                 "Pumpe" (JBool true, None)
                 full_device_status full_device_legacy Hk eq_refl).
  split_and!; [exact full_device_status|exact full_device_legacy|exact Hk
              |reflexivity|apply H|apply H].
Defined.

(** ** Where the code departs from its description *)

(** C1, as stated, fails on the code in both directions.  On a device
    without status endpoint whose legacy payloads are empty no data
    survives and the refresh returns the empty snapshot.  On a device
    whose status document has [null] for [meta] the legacy data would
    survive, and the refresh raises [TypeError] after the status request
    alone. *)
Lemma refresh_failure_is_not_lack_of_data :
  (_async_get_data plain_repr hollow_device start
   = (Ok ∅, after start (status_request client :: legacy_requests))
   /\ ~ data_survives plain_repr hollow_device start
   /\ ~ (refresh_fails plain_repr hollow_device start <->
         ~ data_survives plain_repr hollow_device start))
  /\ (_async_get_data plain_repr malformed_device start
      = (Raise TypeError,
         World (set_device_info JNull client) [status_request client])
      /\ data_survives plain_repr malformed_device start
      /\ ~ (refresh_fails plain_repr malformed_device start <->
            ~ data_survives plain_repr malformed_device start)).
Proof.
  assert (Hh : _async_get_data plain_repr hollow_device start
               = (Ok ∅, after start (status_request client :: legacy_requests)))
    by (vm_compute; reflexivity).
  assert (Hno : ~ data_survives plain_repr hollow_device start).
  { intros [(base & w1 & H & Hne)|(legacy_data & w2 & H & Hne)].
    - assert (E : status_step plain_repr hollow_device start
                  = (Ok ∅, after start [status_request client]))
        by (vm_compute; reflexivity).
      rewrite E in H. injection H as <- _. apply Hne. reflexivity.
    - assert (E : _async_get_legacy_data hollow_device start
                  = (Ok ∅, after start legacy_requests))
        by (vm_compute; reflexivity).
      rewrite E in H. injection H as <- _. apply Hne. reflexivity. }
  assert (Hm : _async_get_data plain_repr malformed_device start
               = (Raise TypeError,
                  World (set_device_info JNull client) [status_request client]))
    by (vm_compute; reflexivity).
  assert (Hyes : data_survives plain_repr malformed_device start).
  { right. exists sample_legacy, (after start legacy_requests). split.
    - vm_compute. reflexivity.
    - intros E.
      assert (H : sample_legacy !! "Pumpe" = Some (JBool true, None))
        by (vm_compute; reflexivity).
      rewrite E, lookup_empty in H. discriminate H. }
  split; split_and!; try assumption.
  - intros [_ H]. destruct (H Hno) as (e & w' & E). rewrite Hh in E.
    discriminate E.
  - intros [H _]. apply H; [|exact Hyes]. eexists _, _. exact Hm.
Qed.

(** C5.  With a write key, when [/ext/parset.cgi] answers 200 with the
    document [{"err": "denied"}], [setProgram] goes on to [/parset.cgi]
    and, that endpoint answering 200, returns [True]. *)
Theorem setProgram_falls_back_after_err :
  setProgram 2 rejecting_device start =
  (Ok true,
   after start
     [Request "http://boiler/ext/parset.cgi"
        [("syn", "PR001"); ("value", "2"); ("key", "write")];
      Request "http://boiler/parset.cgi"
        [("syn", "PR001"); ("value", "2"); ("key", "write")]]).
Proof. vm_compute. reflexivity. Qed.

(** After an [err] document without [ack], the outcome of [setProgram]
    is that of the request to [/parset.cgi], whatever the device. *)
Lemma setProgram_after_err (net : network) w key fields resp program_id :
  _write_key (self w) = Some key -> key <> "" ->
  let params := [("syn", "PR001"); ("value", pretty program_id); ("key", key)] in
  let ext := Request (endpoint (self w) "/ext/parset.cgi") params in
  let legacy := Request (endpoint (self w) "/parset.cgi") params in
  net ext = Some resp -> resp_status resp = 200 ->
  resp_json resp = Some (JObj fields) ->
  Py.assoc "ack" fields = None -> is_Some (Py.assoc "err" fields) ->
  setProgram program_id net w =
  (Ok (from_option (fun r => resp_status r =? 200) false (net legacy)),
   after w [ext; legacy]).
Proof.
  intros Hkey Hne params ext legacy Hext Hst Hjs Hack [x Herr].
  unfold setProgram, has_write_access, program_ext_attempt. run.
  rewrite Hkey. destruct key as [|c key]; [contradiction|].
  cbn [String.length Nat.ltb Nat.leb negb default from_option id].
  fold params. fold ext. rewrite Hext, Hst. cbn [Z.eqb Pos.eqb].
  unfold json_of. rewrite Hjs. cbn [Py.contains Py.get].
  rewrite Hack, Herr.
  rewrite bool_decide_eq_false_2 by (intros [? ?]; discriminate).
  rewrite bool_decide_eq_true_2 by eauto.
  cbn [self sent]. fold legacy. unfold after. rewrite <- app_assoc.
  destruct (net legacy) as [r|]; [|reflexivity]. cbn [from_option].
  destruct (resp_status r =? 200); reflexivity.
Qed.

(** At the same answer [setTemperature] returns [False] after its single
    request. *)
Lemma setTemperature_stops_after_err py_repr (net : network) w key fields resp
    circuit_nr temp_type value :
  _write_key (self w) = Some key -> key <> "" ->
  let syn := "HK" +:+ pretty (circuit_nr + 1)
             +:+ (if String.eqb temp_type "day" then "02" else "03") in
  let params := [("syn", syn); ("value", py_str py_repr (JFloat value));
                 ("key", key)] in
  let ext := Request (endpoint (self w) "/ext/parset.cgi") params in
  net ext = Some resp -> resp_status resp = 200 ->
  resp_json resp = Some (JObj fields) ->
  Py.assoc "ack" fields = None -> is_Some (Py.assoc "err" fields) ->
  setTemperature py_repr circuit_nr temp_type value net w =
  (Ok false, after w [ext]).
Proof.
  intros Hkey Hne syn params ext Hext Hst Hjs Hack [x Herr].
  unfold setTemperature, has_write_access, temperature_ext_attempt. run.
  rewrite Hkey. destruct key as [|c key]; [contradiction|].
  cbn [String.length Nat.ltb Nat.leb negb default from_option id].
  fold syn. fold params. fold ext. rewrite Hext, Hst. cbn [Z.eqb Pos.eqb].
  unfold json_of. rewrite Hjs. cbn [Py.contains Py.get].
  rewrite Hack, Herr.
  rewrite bool_decide_eq_false_2 by (intros [? ?]; discriminate).
  rewrite bool_decide_eq_true_2 by eauto.
  reflexivity.
Qed.

(** The legacy value parser raises exactly on an infinite reading under
    the unit of days or hours. *)
Lemma parse_value_raises_iff raw_value unitOfMeasurement e :
  parse_value raw_value unitOfMeasurement = Raise e <->
  e = OverflowError /\
  mem raw_value TRUE_TOKENS = false /\ mem raw_value FALSE_TOKENS = false /\
  unit_in unitOfMeasurement ["°C"; "%"] = false /\
  unit_in unitOfMeasurement ["d"; "h"] = true /\
  exists neg, PyFloat.parse raw_value = Some (FInf neg).
Proof.
  rewrite parse_value_cases.
  assert (Hno : forall x : json,
             Ok x = Raise e <->
             e = OverflowError /\ false = false /\ false = false /\
             false = false /\ true = true /\
             exists neg, @None pyfloat = Some (FInf neg)).
  { intros x. split; [intros H; discriminate H|].
    intros (_ & _ & _ & _ & _ & neg & H). discriminate H. }
  destruct (mem raw_value TRUE_TOKENS);
    [split; [intros H; discriminate H|intros (_ & H & _); discriminate H]|].
  destruct (mem raw_value FALSE_TOKENS);
    [split; [intros H; discriminate H|intros (_ & _ & H & _); discriminate H]|].
  destruct (unit_in unitOfMeasurement ["°C"; "%"]);
    [split; [intros H; discriminate H
            |intros (_ & _ & _ & H & _); discriminate H]|].
  destruct (unit_in unitOfMeasurement ["d"; "h"]);
    [|split; [intros H; discriminate H
             |intros (_ & _ & _ & _ & H & _); discriminate H]].
  destruct (PyFloat.parse raw_value) as [[|neg|neg m x]|]; [| | |apply Hno].
  - split; [intros H; discriminate H|].
    intros (_ & _ & _ & _ & _ & neg & H). discriminate H.
  - split; [intros [= <-]; eauto 10|intros (-> & _); reflexivity].
  - split; [intros H; discriminate H|].
    intros (_ & _ & _ & _ & _ & neg' & H). discriminate H.
Qed.

(** C6.  The value [inf] under the unit [h]: [float] reads it as
    infinity, [int] raises [OverflowError], which [except ValueError]
    does not catch; the exception ends the legacy parse and the refresh,
    although the status snapshot is not empty. *)
Theorem infinite_reading_aborts_refresh :
  parse_value "inf" (Some "h") = Raise OverflowError
  /\ parse_value "1e999" (Some "d") = Raise OverflowError
  /\ parse_legacy ["Betriebsstunden;h"; "Pumpe;"] ["inf"; "AN"]
     = Raise OverflowError
  /\ status_step plain_repr infinite_device start = (Ok sample_base, polled)
  /\ _async_get_data plain_repr infinite_device start
     = (Raise OverflowError, after polled legacy_requests).
Proof. split_and!; vm_compute; reflexivity. Qed.

Lemma tokens_disjoint raw_value :
  mem raw_value FALSE_TOKENS = true -> mem raw_value TRUE_TOKENS = false.
Proof.
  unfold mem, TRUE_TOKENS, FALSE_TOKENS. cbn [existsb].
  rewrite !orb_true_iff, !String.eqb_eq.
  intros [->|[->|[->|H]]]; [reflexivity..|discriminate H].
Qed.

Lemma numeric_units_disjoint unitOfMeasurement :
  unit_in unitOfMeasurement ["d"; "h"] = true ->
  unit_in unitOfMeasurement ["°C"; "%"] = false.
Proof.
  destruct unitOfMeasurement as [u|]; [|discriminate].
  unfold unit_in, mem. cbn [existsb].
  rewrite !orb_true_iff, !String.eqb_eq.
  intros [->|[->|H]]; [reflexivity..|discriminate H].
Qed.

Lemma mem_app x l1 l2 : mem x (l1 ++ l2) = mem x l1 || mem x l2.
Proof. apply existsb_app. Qed.

Lemma unit_in_app u l1 l2 : unit_in u (l1 ++ l2) = unit_in u l1 || unit_in u l2.
Proof. destruct u; [apply mem_app|reflexivity]. Qed.

(** The parts of the coercion that hold: the tokens win over the unit,
    then the unit selects the parse, and a value that does not parse is
    kept as a string. *)
Lemma parse_value_priority raw_value unitOfMeasurement :
  (mem raw_value TRUE_TOKENS = true ->
   parse_value raw_value unitOfMeasurement = Ok (JBool true))
  /\ (mem raw_value FALSE_TOKENS = true ->
      parse_value raw_value unitOfMeasurement = Ok (JBool false))
  /\ (mem raw_value (TRUE_TOKENS ++ FALSE_TOKENS) = false ->
      unit_in unitOfMeasurement ["°C"; "%"] = true ->
      parse_value raw_value unitOfMeasurement =
      Ok (from_option JFloat (JStr raw_value) (PyFloat.parse raw_value)))
  /\ (mem raw_value (TRUE_TOKENS ++ FALSE_TOKENS) = false ->
      unit_in unitOfMeasurement ["d"; "h"] = true ->
      PyFloat.parse raw_value = None ->
      parse_value raw_value unitOfMeasurement = Ok (JStr raw_value))
  /\ (mem raw_value (TRUE_TOKENS ++ FALSE_TOKENS) = false ->
      unit_in unitOfMeasurement ["°C"; "%"; "d"; "h"] = false ->
      parse_value raw_value unitOfMeasurement = Ok (JStr raw_value)).
Proof.
  rewrite parse_value_cases, !mem_app.
  change ["°C"; "%"; "d"; "h"] with (["°C"; "%"] ++ ["d"; "h"]).
  rewrite unit_in_app.
  split_and!.
  - intros ->. reflexivity.
  - intros H. rewrite (tokens_disjoint _ H), H. reflexivity.
  - intros [-> ->]%orb_false_elim ->.
    destruct (PyFloat.parse raw_value); reflexivity.
  - intros [-> ->]%orb_false_elim H Hp.
    rewrite (numeric_units_disjoint _ H), H, Hp. reflexivity.
  - intros [-> ->]%orb_false_elim [-> ->]%orb_false_elim. reflexivity.
Qed.

(** * Further properties of the client *)

(** ** The fetches *)

(** X1.  [_async_get_status_data] never raises: whatever the device
    answers it sends its one request, leaves the client as it is and
    returns the decoded document when the status is 200 and the body is
    JSON, [None] otherwise. *)
Theorem status_fetch_never_raises (net : network) w :
  let rq := status_request (self w) in
  exists status_data,
    _async_get_status_data net w = (Ok status_data, after w [rq]) /\
    (unavailable (net rq) -> status_data = JNull) /\
    (forall resp v,
        net rq = Some resp -> resp_status resp = 200 ->
        resp_json resp = Some v -> status_data = v).
Proof.
  cbn zeta. exists (payload (net (status_request (self w)))).
  split_and!.
  - apply status_data_spec.
  - apply unavailable_payload.
  - intros resp v -> Hst Hjs. unfold payload. rewrite Hst, Hjs. reflexivity.
Qed.

Lemma fetched_raises answer api e :
  fetched answer api = Raise e -> is_update_failed e = true.
Proof.
  unfold fetched. destruct answer as [resp|]; [|intros [= <-]; reflexivity].
  destruct (resp_status resp =? 200); [|intros [= <-]; reflexivity].
  destruct (read_lines resp); [discriminate|intros [= <-]; reflexivity].
Qed.

(** X2.  [_async_get_legacy_data] asks for the descriptions first.  When
    that request raises, answers another status than 200 or sends bytes
    that are not Windows-1252, it raises [UpdateFailed] and the values
    are not requested.  It raises nothing but [UpdateFailed] and
    [OverflowError], and leaves the client as it is. *)
Theorem legacy_fetch_stops_at_first_failure (net : network) w :
  let rq1 := legacy_request (self w) "/daqdesc.cgi" in
  (net rq1 = None ->
   _async_get_legacy_data net w =
   (Raise (UpdateFailed (FetchError "/daqdesc.cgi")), after w [rq1]))
  /\ (forall resp,
        net rq1 = Some resp -> resp_status resp <> 200 ->
        _async_get_legacy_data net w =
        (Raise (UpdateFailed (BadStatus "/daqdesc.cgi" (resp_status resp))),
         after w [rq1]))
  /\ (forall resp e,
        net rq1 = Some resp -> resp_status resp = 200 ->
        Py.decode_cp1252 (resp_body resp) = Raise e ->
        _async_get_legacy_data net w =
        (Raise (UpdateFailed (FetchError "/daqdesc.cgi")), after w [rq1]))
  /\ (forall e w',
        _async_get_legacy_data net w = (Raise e, w') ->
        is_update_failed e = true \/ e = OverflowError)
  /\ self (_async_get_legacy_data net w).2 = self w.
Proof.
  cbn zeta. split_and!.
  - intros H. rewrite legacy_data_spec. cbn zeta. rewrite H. reflexivity.
  - intros resp H Hst. rewrite legacy_data_spec. cbn zeta. rewrite H.
    unfold fetched. destruct (Z.eqb_spec (resp_status resp) 200);
      [contradiction|reflexivity].
  - intros resp e H Hst Hd. rewrite legacy_data_spec. cbn zeta. rewrite H.
    unfold fetched, read_lines. rewrite Hst, Hd. reflexivity.
  - intros e w'. rewrite legacy_data_spec. cbn zeta.
    destruct (fetched _ "/daqdesc.cgi") as [dd|e1] eqn:E1.
    + destruct (fetched _ "/daqdata.cgi") as [dv|e2] eqn:E2.
      * intros [= H _]. right. eapply parse_legacy_raises, H.
      * intros [= <- _]. left. eapply fetched_raises, E2.
    + intros [= <- _]. left. eapply fetched_raises, E1.
  - apply legacy_data_self.
Qed.

Lemma store_field_sent status_data field store net w :
  sent (store_field status_data field store net w).2 = sent w.
Proof.
  assert (Hd : (exists fields, status_data = JObj fields) \/
               (forall fields, status_data <> JObj fields)).
  { destruct status_data; try (right; discriminate). left; eauto. }
  destruct Hd as [[fields ->]|Hsd].
  - rewrite store_field_dict. reflexivity.
  - destruct (store_field_other _ field store net w Hsd) as [->|[e ->]];
      reflexivity.
Qed.

Lemma status_step_sent py_repr net w :
  sent (status_step py_repr net w).2 = sent w ++ [status_request (self w)].
Proof.
  rewrite status_step_spec. cbn zeta. destruct (Py.truthy _); [|reflexivity].
  set (sd := payload _). set (w1 := after w _).
  assert (Hw1 : sent w1 = sent w ++ [status_request (self w)]) by reflexivity.
  clearbody w1. unfold mbind, M_bind.
  pose proof (store_field_sent sd "meta" set_device_info net w1) as H1.
  destruct (store_field sd "meta" set_device_info net w1) as [[[]|e] w2];
    cbn [snd] in H1; [|cbn [snd]; congruence].
  pose proof (store_field_sent sd "heat_circ" set_heating_circuits net w2) as H2.
  destruct (store_field sd "heat_circ" set_heating_circuits net w2)
    as [[[]|e] w3]; cbn [snd] in H2; [|cbn [snd]; congruence].
  pose proof (store_field_sent sd "heat_constraints" set_heat_constraints
                net w3) as H3.
  destruct (store_field sd "heat_constraints" set_heat_constraints net w3)
    as [[[]|e] w4]; cbn [snd] in H3; [|cbn [snd]; congruence].
  unfold lift. cbn [snd]. congruence.
Qed.

Lemma stored_write_key status_data b :
  _write_key (stored status_data b) = _write_key b.
Proof.
  destruct status_data; try reflexivity. unfold stored.
  destruct (Py.assoc "meta" fields), (Py.assoc "heat_circ" fields),
    (Py.assoc "heat_constraints" fields); reflexivity.
Qed.

Lemma status_step_config py_repr net w :
  let b' := self (status_step py_repr net w).2 in
  _host b' = _host (self w) /\ _api_key b' = _api_key (self w) /\
  _write_key b' = _write_key (self w).
Proof.
  cbn zeta. rewrite status_step_self. cbn zeta.
  destruct (Py.truthy _); [|auto].
  destruct (stored_config (payload (net (status_request (self w)))) (self w))
    as [-> ->].
  rewrite stored_write_key. auto.
Qed.

(** X3.  A refresh sends the status request first and, unless the status
    step raises, goes on to the legacy endpoints: the descriptions, then
    the values when the descriptions were read.  These requests carry the
    read key of the client, never the write key, and no other request is
    sent. *)
Theorem refresh_requests py_repr (net : network) w :
  let rq := status_request (self w) in
  let d1 := legacy_request (self w) "/daqdesc.cgi" in
  let d2 := legacy_request (self w) "/daqdata.cgi" in
  exists rqs,
    sent (_async_get_data py_repr net w).2 = sent w ++ rq :: rqs /\
    (rqs = [] \/ rqs = [d1] \/ rqs = [d1; d2]) /\
    (forall base w1, status_step py_repr net w = (Ok base, w1) -> rqs <> []) /\
    (forall snapshot w2,
        _async_get_data py_repr net w = (Ok snapshot, w2) -> rqs <> []) /\
    Forall (fun r => params r = [("key", _api_key (self w))]) (rq :: rqs).
Proof.
  cbn zeta. rewrite get_data_spec.
  pose proof (status_step_sent py_repr net w) as Hsent.
  pose proof (status_step_config py_repr net w) as (Hh & Hk & _).
  cbn zeta in Hh, Hk.
  destruct (status_step py_repr net w) as [[base|e] w1] eqn:Hs;
    cbn [snd] in Hsent, Hh, Hk.
  - assert (Hrq : forall api, legacy_request (self w1) api
                              = legacy_request (self w) api).
    { intros api. unfold legacy_request, endpoint. rewrite Hh, Hk.
      reflexivity. }
    rewrite legacy_step_spec, legacy_data_spec. cbn zeta. rewrite !Hrq.
    assert (Hparams : forall l,
      (l = [legacy_request (self w) "/daqdesc.cgi"] \/
       l = [legacy_request (self w) "/daqdesc.cgi";
            legacy_request (self w) "/daqdata.cgi"]) ->
      sent (after w1 l) = sent w ++ status_request (self w) :: l /\
      (l = [] \/ l = [legacy_request (self w) "/daqdesc.cgi"] \/
       l = [legacy_request (self w) "/daqdesc.cgi";
            legacy_request (self w) "/daqdata.cgi"]) /\
      (forall (base0 : snapshot) (w0 : world),
          (Ok base, w1) = (Ok base0, w0) -> l <> []) /\
      l <> [] /\
      Forall (fun r => params r = [("key", _api_key (self w))])
        (status_request (self w) :: l)).
    { intros l Hl. split_and!.
      - unfold after. cbn [sent]. rewrite Hsent, <- app_assoc. reflexivity.
      - tauto.
      - intros _ _ _. destruct Hl as [->| ->]; discriminate.
      - destruct Hl as [->| ->]; discriminate.
      - destruct Hl as [->| ->]; repeat constructor. }
    destruct (fetched _ "/daqdesc.cgi") as [dd|e1].
    + destruct (fetched _ "/daqdata.cgi") as [dv|e2].
      * destruct (parse_legacy dd dv) as [legacy_data|e3].
        -- eexists. cbn [snd].
           destruct (Hparams _ (or_intror eq_refl)) as (? & ? & ? & ? & ?).
           split_and!; eauto.
        -- eexists.
           destruct (Hparams _ (or_intror eq_refl)) as (? & ? & ? & ? & ?).
           destruct (_ && _); cbn [snd]; split_and!; eauto.
      * eexists.
        destruct (Hparams _ (or_intror eq_refl)) as (? & ? & ? & ? & ?).
        destruct (_ && _); cbn [snd]; split_and!; eauto.
    + eexists.
      destruct (Hparams _ (or_introl eq_refl)) as (? & ? & ? & ? & ?).
      destruct (_ && _); cbn [snd]; split_and!; eauto.
  - exists []. cbn [snd]. split_and!; auto.
Qed.

(** ** The cache of the client *)

(** X4.  A refresh, whether it returns or raises, leaves the host and
    the two keys of the client as they were: no device answer gives or
    takes away write access. *)
Theorem refresh_keeps_configuration py_repr (net : network) w :
  let b' := self (_async_get_data py_repr net w).2 in
  _host b' = _host (self w) /\
  _api_key b' = _api_key (self w) /\
  _write_key b' = _write_key (self w) /\
  has_write_access b' = has_write_access (self w).
Proof.
  cbn zeta. rewrite get_data_self. cbn zeta.
  destruct (Py.truthy _); [|auto].
  set (sd := payload _).
  destruct (stored_config sd (self w)) as [Hh Hk].
  pose proof (stored_write_key sd (self w)) as Hw.
  unfold has_write_access. rewrite Hw. auto.
Qed.

(** X5.  When the status document is a non-empty dict, each of the
    fields [meta], [heat_circ] and [heat_constraints] it has replaces the
    cached device info, circuits or constraints, whatever its value and
    whether the refresh then returns or raises. *)
Theorem status_document_replaces_cache py_repr (net : network) w resp fields :
  net (status_request (self w)) = Some resp ->
  resp_status resp = 200 ->
  resp_json resp = Some (JObj fields) ->
  fields <> [] ->
  let b' := self (_async_get_data py_repr net w).2 in
  _device_info b'
  = default (_device_info (self w)) (Py.assoc "meta" fields) /\
  _heating_circuits b'
  = default (_heating_circuits (self w)) (Py.assoc "heat_circ" fields) /\
  _heat_constraints b'
  = default (_heat_constraints (self w)) (Py.assoc "heat_constraints" fields).
Proof.
  intros Hnet Hst Hjs Hne. cbn zeta. rewrite get_data_self. cbn zeta.
  unfold payload. rewrite Hnet, Hst, Hjs. cbn [Z.eqb Pos.eqb default from_option id].
  destruct fields as [|f fields]; [contradiction|]. cbn [Py.truthy].
  unfold stored.
  destruct (Py.assoc "meta" (f :: fields)),
    (Py.assoc "heat_circ" (f :: fields)),
    (Py.assoc "heat_constraints" (f :: fields)); auto.
Qed.

(** ** The legacy parser *)

Lemma parse_value_typed raw_value unitOfMeasurement dataValue :
  parse_value raw_value unitOfMeasurement = Ok dataValue ->
  match dataValue with
  | JBool _ | JStr _ => True
  | JFloat _ => unit_in unitOfMeasurement ["°C"; "%"] = true
  | JInt _ => unit_in unitOfMeasurement ["d"; "h"] = true
  | _ => False
  end.
Proof.
  rewrite parse_value_cases.
  destruct (mem raw_value TRUE_TOKENS); [intros [= <-]; exact I|].
  destruct (mem raw_value FALSE_TOKENS); [intros [= <-]; exact I|].
  destruct (unit_in unitOfMeasurement ["°C"; "%"]) eqn:U1.
  { destruct (PyFloat.parse raw_value); intros [= <-]; auto. }
  destruct (unit_in unitOfMeasurement ["d"; "h"]) eqn:U2;
    [|intros [= <-]; exact I].
  destruct (PyFloat.parse raw_value) as [[|neg|neg m e]|];
    intros [= <-]; auto.
Qed.

Lemma strip_or_none_not_empty s : strip_or_none s <> Some "".
Proof.
  unfold strip_or_none. destruct (String.eqb_spec (strip s) ""); congruence.
Qed.

(** X6.  Every sensor of the legacy data is a Boolean, a float, an
    integer or a string; it is a float only under the unit °C or %, an
    integer only under the unit d or h, and its unit is [None] or a
    non-empty string. *)
Theorem legacy_sensors_typed :
  (forall dd dv data key s,
      parse_legacy dd dv = Ok data -> data !! key = Some s -> legacy_typed s)
  /\ (forall (net : network) w data w' key s,
        _async_get_legacy_data net w = (Ok data, w') ->
        data !! key = Some s -> legacy_typed s).
Proof.
  assert (H : forall dd dv data,
             parse_legacy dd dv = Ok data ->
             forall key s, data !! key = Some s -> legacy_typed s).
  { intros dd dv data. rewrite parse_legacy_zip.
    apply (for_each_invariant
             (fun data : snapshot =>
                forall key s, data !! key = Some s -> legacy_typed s)).
    - intros [d v] a b. rewrite parse_line_pair.
      destruct (split ";" d) as [|k [|u [|]]]; try (intros [= <-]; auto; fail).
      destruct (mem (lower k) RESERVED); [intros [= <-]; auto|].
      destruct (parse_value _ _) as [dataValue|] eqn:E; simpl; [|discriminate].
      intros [= <-] Ha key s. destruct (decide (k = key)) as [<-|Hne].
      + rewrite lookup_insert_eq. intros [= <-]. split.
        * apply (parse_value_typed _ _ _ E).
        * apply strip_or_none_not_empty.
      + rewrite lookup_insert_ne by exact Hne. apply Ha.
    - intros key s Hk. rewrite lookup_empty in Hk. discriminate Hk. }
  split; [intros; eapply H; eauto|].
  intros net w data w' key s. rewrite legacy_data_spec. cbn zeta.
  destruct (fetched _ "/daqdesc.cgi") as [dd|]; [|discriminate].
  destruct (fetched _ "/daqdata.cgi") as [dv|]; [|discriminate].
  intros [= Hp _]. apply (H _ _ _ Hp).
Qed.

Lemma parse_legacy_snoc dd dv d v :
  List.length dd = List.length dv ->
  parse_legacy (dd ++ [d]) (dv ++ [v]) =
  (data ← parse_legacy dd dv; parse_line [d] [v] 0 data).
Proof.
  intros Hlen. rewrite !parse_legacy_zip, zip_with_app by exact Hlen.
  rewrite for_each_app. cbn [zip_with Py.for_each].
  destruct (Py.for_each _ _ ∅) as [data|e]; [|reflexivity].
  cbn [mbind outcome_bind]. destruct (parse_line [d] [v] 0 data); reflexivity.
Qed.

(** X7.  A further pair of lines whose description is [key;unit], the
    key not reserved, puts the key into the data parsed so far, with the
    value and unit of that pair: when a key comes twice, the later line
    replaces the earlier one; the other keys keep their sensors. *)
Theorem later_line_replaces_key dd dv d v key unit data :
  List.length dd = List.length dv ->
  split ";" d = [key; unit] ->
  mem (lower key) RESERVED = false ->
  parse_legacy (dd ++ [d]) (dv ++ [v]) = Ok data ->
  exists earlier dataValue,
    parse_legacy dd dv = Ok earlier /\
    parse_value (strip v) (strip_or_none unit) = Ok dataValue /\
    data = <[key := (dataValue, strip_or_none unit)]> earlier /\
    data !! key = Some (dataValue, strip_or_none unit) /\
    (forall k, k <> key -> data !! k = earlier !! k).
Proof.
  intros Hlen Hsplit Hres. rewrite (parse_legacy_snoc _ _ _ _ Hlen).
  destruct (parse_legacy dd dv) as [earlier|e]; [|discriminate].
  cbn [mbind outcome_bind]. rewrite parse_line_pair, Hsplit, Hres.
  destruct (parse_value _ _) as [dataValue|e]; [|discriminate].
  cbn [mbind outcome_bind]. intros [= <-].
  exists earlier, dataValue. split_and!; auto.
  - apply lookup_insert_eq.
  - intros k Hk. apply lookup_insert_ne. congruence.
Qed.

(** ** The write commands *)

Ltac text_case resp tac :=
  destruct (resp_text resp) as [?t|];
  [destruct (PyStr.contains "OK" _ || PyStr.contains "ack" _)|]; tac.

Ltac ext_cases resp tac :=
  destruct (resp_json resp) as [?v|]; [|text_case resp tac];
  destruct (Py.contains "ack" _) as [[|]|]; [tac| |text_case resp tac];
  destruct (Py.contains "err" _) as [[|]|]; [|tac|text_case resp tac];
  destruct (Py.get _ "err" JNull); [tac|text_case resp tac].

Lemma program_ext_attempt_spec b params (net : network) w :
  exists r, program_ext_attempt b params net w
            = (Ok r, after w [ext_request b params]) /\
            r <> Some false /\
            (r = Some true -> answers_200 (net (ext_request b params)) = true).
Proof.
  unfold program_ext_attempt, ack_in_text, ext_request, after, json_of, text_of,
    answers_200.
  run. destruct (net _) as [resp|];
    [|eexists; split_and!; [reflexivity|discriminate|discriminate]].
  cbn [from_option].
  destruct (resp_status resp =? 200);
    [|eexists; split_and!; [reflexivity|discriminate|discriminate]].
  ext_cases resp ltac:(eexists; split_and!; [reflexivity|discriminate|reflexivity]).
Qed.

Lemma temperature_ext_attempt_spec b params (net : network) w :
  exists r, temperature_ext_attempt b params net w
            = (Ok r, after w [ext_request b params]) /\
            (r = Some true -> answers_200 (net (ext_request b params)) = true).
Proof.
  unfold temperature_ext_attempt, ack_in_text, ext_request, after, json_of,
    text_of, answers_200.
  run. destruct (net _) as [resp|];
    [|eexists; split; [reflexivity|discriminate]].
  cbn [from_option].
  destruct (resp_status resp =? 200);
    [|eexists; split; [reflexivity|discriminate]].
  ext_cases resp ltac:(eexists; split; [reflexivity|reflexivity]).
Qed.

Lemma write_key_access b key :
  _write_key b = Some key -> key <> "" ->
  has_write_access b = true /\ default "" (_write_key b) = key.
Proof.
  intros Hkey Hne. unfold has_write_access. rewrite Hkey.
  destruct key; [contradiction|]. split; reflexivity.
Qed.

Lemma setProgram_unfold program_id (net : network) w key :
  _write_key (self w) = Some key -> key <> "" ->
  setProgram program_id net w =
  match program_ext_attempt (self w) (program_params key program_id) net w with
  | (Ok (Some b), w') => (Ok b, w')
  | (Ok None, w') =>
      (Ok (answers_200
             (net (parset_request (self w) (program_params key program_id)))),
       after w' [parset_request (self w) (program_params key program_id)])
  | (Raise e, w') => (Raise e, w')
  end.
Proof.
  intros Hkey Hne. destruct (write_key_access _ _ Hkey Hne) as [Ha Hd].
  unfold setProgram, program_params, parset_request, answers_200, after. run.
  rewrite Ha, Hd. cbn [negb].
  destruct (program_ext_attempt _ _ net w) as [[[b|]|e] w']; [reflexivity| |reflexivity].
  destruct (net _) as [resp|]; [|reflexivity]. cbn [from_option].
  destruct (resp_status resp =? 200); reflexivity.
Qed.

Lemma setTemperature_unfold py_repr circuit_nr temp_type value (net : network)
    w key :
  _write_key (self w) = Some key -> key <> "" ->
  setTemperature py_repr circuit_nr temp_type value net w =
  match temperature_ext_attempt (self w)
          (temperature_params py_repr key circuit_nr temp_type value) net w with
  | (Ok (Some b), w') => (Ok b, w')
  | (Ok None, w') => (Ok false, w')
  | (Raise e, w') => (Raise e, w')
  end.
Proof.
  intros Hkey Hne. destruct (write_key_access _ _ Hkey Hne) as [Ha Hd].
  unfold setTemperature, temperature_params. run.
  rewrite Ha, Hd. cbn [negb].
  destruct (temperature_ext_attempt _ _ net w) as [[[b|]|e] w']; reflexivity.
Qed.

Lemma after_after w rqs1 rqs2 : after (after w rqs1) rqs2 = after w (rqs1 ++ rqs2).
Proof. unfold after. cbn [self sent]. rewrite <- app_assoc. reflexivity. Qed.

(** X8.  With a write key [setProgram] never raises and never touches
    the client.  It sends the program under [PR001] with the write key to
    [/ext/parset.cgi]; either it returns [True] after that single request,
    which the endpoint then answered with 200, or it sends the same
    parameters to [/parset.cgi] and returns whether that answer is 200. *)
Theorem setProgram_requests program_id (net : network) w key :
  _write_key (self w) = Some key -> key <> "" ->
  let params := program_params key program_id in
  let ext := ext_request (self w) params in
  let legacy := parset_request (self w) params in
  (setProgram program_id net w = (Ok true, after w [ext]) /\
   answers_200 (net ext) = true) \/
  setProgram program_id net w =
  (Ok (answers_200 (net legacy)), after w [ext; legacy]).
Proof.
  intros Hkey Hne params ext legacy.
  rewrite (setProgram_unfold _ _ _ _ Hkey Hne). fold params. fold legacy.
  destruct (program_ext_attempt_spec (self w) params net w)
    as (r & -> & Hr & Hok).
  destruct r as [[|]|].
  - left. split; [reflexivity|apply Hok; reflexivity].
  - contradiction.
  - right. rewrite after_after. reflexivity.
Qed.

(** X9.  With a write key [setTemperature] never raises, never touches
    the client and sends exactly one request, to [/ext/parset.cgi]: the
    parameter is [HK], the circuit number plus one, and [02] for the type
    [day], [03] for every other type.  It returns [True] only if that
    request was answered with 200. *)
Theorem setTemperature_requests py_repr circuit_nr temp_type value
    (net : network) w key :
  _write_key (self w) = Some key -> key <> "" ->
  let ext := ext_request (self w)
               (temperature_params py_repr key circuit_nr temp_type value) in
  exists b,
    setTemperature py_repr circuit_nr temp_type value net w
    = (Ok b, after w [ext]) /\
    (b = true -> answers_200 (net ext) = true).
Proof.
  intros Hkey Hne ext.
  rewrite (setTemperature_unfold _ _ _ _ _ _ _ Hkey Hne).
  destruct (temperature_ext_attempt_spec (self w)
              (temperature_params py_repr key circuit_nr temp_type value) net w)
    as (r & -> & Hok).
  destruct r as [[|]|]; eexists; (split; [reflexivity|]); auto; discriminate.
Qed.

Lemma ext_attempts_ack b params (net : network) w resp v :
  net (ext_request b params) = Some resp -> resp_status resp = 200 ->
  resp_json resp = Some v -> Py.contains "ack" v = Ok true ->
  program_ext_attempt b params net w
  = (Ok (Some true), after w [ext_request b params]) /\
  temperature_ext_attempt b params net w
  = (Ok (Some true), after w [ext_request b params]).
Proof.
  unfold ext_request. intros Hnet Hst Hjs Hack.
  unfold program_ext_attempt, temperature_ext_attempt, json_of, after. run.
  rewrite Hnet, Hst, Hjs, Hack. split; reflexivity.
Qed.

(** X10.  An answer 200 of [/ext/parset.cgi] whose document has [ack]
    (a key of a dict, an element of a list, a substring of a string) ends
    both write commands with [True] after that one request, whatever else
    the document holds, an [err] included. *)
Theorem ack_ends_write py_repr (net : network) w key resp v :
  _write_key (self w) = Some key -> key <> "" ->
  resp_status resp = 200 -> resp_json resp = Some v ->
  Py.contains "ack" v = Ok true ->
  (forall program_id,
      let ext := ext_request (self w) (program_params key program_id) in
      net ext = Some resp ->
      setProgram program_id net w = (Ok true, after w [ext]))
  /\ (forall circuit_nr temp_type value,
        let ext := ext_request (self w)
                     (temperature_params py_repr key circuit_nr temp_type value)
        in
        net ext = Some resp ->
        setTemperature py_repr circuit_nr temp_type value net w
        = (Ok true, after w [ext])).
Proof.
  intros Hkey Hne Hst Hjs Hack. split.
  - intros program_id ext Hnet. rewrite (setProgram_unfold _ _ _ _ Hkey Hne).
    destruct (ext_attempts_ack _ _ net w _ _ Hnet Hst Hjs Hack) as [-> _].
    reflexivity.
  - intros circuit_nr temp_type value ext Hnet.
    rewrite (setTemperature_unfold _ _ _ _ _ _ _ Hkey Hne).
    destruct (ext_attempts_ack _ _ net w _ _ Hnet Hst Hjs Hack) as [_ ->].
    reflexivity.
Qed.

Lemma ext_attempts_text b params (net : network) w resp text :
  net (ext_request b params) = Some resp -> resp_status resp = 200 ->
  (forall v, resp_json resp = Some v -> exists e, Py.contains "ack" v = Raise e) ->
  resp_text resp = Some text ->
  let ok := PyStr.contains "OK" text || PyStr.contains "ack" (lower text) in
  program_ext_attempt b params net w
  = (Ok (if ok then Some true else None), after w [ext_request b params]) /\
  temperature_ext_attempt b params net w
  = (Ok (if ok then Some true else None), after w [ext_request b params]).
Proof.
  unfold ext_request. intros Hnet Hst Hjs Htext. cbn zeta.
  unfold program_ext_attempt, temperature_ext_attempt, ack_in_text, json_of,
    text_of, after. run.
  rewrite Hnet, Hst, Htext. cbn [Z.eqb Pos.eqb].
  destruct (resp_json resp) as [v|].
  - destruct (Hjs v eq_refl) as [e ->].
    destruct (_ || _); split; reflexivity.
  - destruct (_ || _); split; reflexivity.
Qed.

(** X11.  When [/ext/parset.cgi] answers 200 and the body is not JSON,
    or is a JSON value that is no container, the text of the body
    decides: if it contains [OK], or [ack] in any letter case, both
    write commands return [True]; otherwise [setTemperature] returns
    [False] and [setProgram] goes on to [/parset.cgi]. *)
Theorem text_answer_decides_write py_repr (net : network) w key resp text :
  _write_key (self w) = Some key -> key <> "" ->
  resp_status resp = 200 ->
  (forall v, resp_json resp = Some v -> exists e, Py.contains "ack" v = Raise e) ->
  resp_text resp = Some text ->
  let ok := PyStr.contains "OK" text || PyStr.contains "ack" (lower text) in
  (forall program_id,
      let params := program_params key program_id in
      let ext := ext_request (self w) params in
      let legacy := parset_request (self w) params in
      net ext = Some resp ->
      setProgram program_id net w =
      if ok then (Ok true, after w [ext])
      else (Ok (answers_200 (net legacy)), after w [ext; legacy]))
  /\ (forall circuit_nr temp_type value,
        let ext := ext_request (self w)
                     (temperature_params py_repr key circuit_nr temp_type value)
        in
        net ext = Some resp ->
        setTemperature py_repr circuit_nr temp_type value net w
        = (Ok ok, after w [ext])).
Proof.
  intros Hkey Hne Hst Hjs Htext. cbn zeta. split.
  - intros program_id Hnet. rewrite (setProgram_unfold _ _ _ _ Hkey Hne).
    destruct (ext_attempts_text _ _ net w _ _ Hnet Hst Hjs Htext) as [-> _].
    destruct (_ || _); [reflexivity|]. rewrite after_after. reflexivity.
  - intros circuit_nr temp_type value Hnet.
    rewrite (setTemperature_unfold _ _ _ _ _ _ _ Hkey Hne).
    destruct (ext_attempts_text _ _ net w _ _ Hnet Hst Hjs Htext) as [_ ->].
    destruct (_ || _); reflexivity.
Qed.

Lemma ext_attempts_down b params (net : network) w :
  answers_200 (net (ext_request b params)) = false ->
  program_ext_attempt b params net w
  = (Ok None, after w [ext_request b params]) /\
  exists r, temperature_ext_attempt b params net w
            = (Ok r, after w [ext_request b params]) /\ r <> Some true.
Proof.
  unfold ext_request, answers_200. intros Hdown.
  unfold program_ext_attempt, temperature_ext_attempt, after. run.
  destruct (net _) as [resp|]; cbn [from_option] in Hdown.
  - rewrite Hdown. split; [reflexivity|]. eexists. split; [reflexivity|discriminate].
  - split; [reflexivity|]. eexists. split; [reflexivity|discriminate].
Qed.

(** X12.  A device without the extended endpoint (the request to
    [/ext/parset.cgi] raises or is not answered with 200) still takes a
    program through [/parset.cgi], the result being whether that answer
    is 200, but never a temperature: [setTemperature] returns [False]
    after its single request. *)
Theorem writes_without_ext_endpoint py_repr (net : network) w key :
  _write_key (self w) = Some key -> key <> "" ->
  (forall program_id,
      let params := program_params key program_id in
      let ext := ext_request (self w) params in
      let legacy := parset_request (self w) params in
      answers_200 (net ext) = false ->
      setProgram program_id net w
      = (Ok (answers_200 (net legacy)), after w [ext; legacy]))
  /\ (forall circuit_nr temp_type value,
        let ext := ext_request (self w)
                     (temperature_params py_repr key circuit_nr temp_type value)
        in
        answers_200 (net ext) = false ->
        setTemperature py_repr circuit_nr temp_type value net w
        = (Ok false, after w [ext])).
Proof.
  intros Hkey Hne. split.
  - intros program_id params ext legacy Hdown. subst params ext legacy.
    rewrite (setProgram_unfold _ _ _ _ Hkey Hne).
    destruct (ext_attempts_down _ _ net w Hdown) as [-> _].
    rewrite after_after. reflexivity.
  - intros circuit_nr temp_type value ext Hdown. subst ext.
    rewrite (setTemperature_unfold _ _ _ _ _ _ _ Hkey Hne).
    destruct (ext_attempts_down _ _ net w Hdown) as [_ (r & -> & Hr)].
    destruct r as [[|]|]; [contradiction|reflexivity|reflexivity].
Qed.

(** ** The keyword tables of [const.py] *)

Import StrFacts.

Lemma startswith_spec p s :
  startswith p s = true <-> exists post, s = p +:+ post.
Proof.
  revert s. induction p as [|a p IH]; intros s.
  - split; [intros _; exists s; reflexivity|intros _; destruct s; reflexivity].
  - destruct s as [|b s]; cbn [startswith].
    + split; [intros H; discriminate H|].
      intros [post H]. rewrite append_cons in H. discriminate H.
    + rewrite andb_true_iff, Ascii.eqb_eq, IH. split.
      * intros [-> [post ->]]. exists post. rewrite append_cons. reflexivity.
      * intros [post H]. rewrite append_cons in H. injection H as -> ->.
        split; [reflexivity|eauto].
Qed.

Lemma contains_unfold needle hay :
  PyStr.contains needle hay =
  startswith needle hay ||
  match hay with
  | EmptyString => false
  | String _ r => PyStr.contains needle r
  end.
Proof. destruct hay; reflexivity. Qed.

Lemma contains_spec needle hay :
  PyStr.contains needle hay = true <-> occurs_in needle hay.
Proof.
  unfold occurs_in. induction hay as [|c hay IH]; rewrite contains_unfold.
  - rewrite orb_false_r, startswith_spec. split.
    + intros [post H]. exists "", post. rewrite append_nil. exact H.
    + intros (pre & post & H). destruct pre as [|a pre].
      * rewrite append_nil in H. eauto.
      * rewrite append_cons in H. discriminate H.
  - rewrite orb_true_iff, startswith_spec, IH. split.
    + intros [[post H]|(pre & post & H)].
      * exists "", post. rewrite append_nil. exact H.
      * exists (String c pre), post. rewrite append_cons, H. reflexivity.
    + intros (pre & post & H). destruct pre as [|a pre].
      * left. rewrite append_nil in H. eauto.
      * right. rewrite append_cons in H. injection H as -> ->. eauto.
Qed.

Lemma occurs_in_self s : occurs_in s s.
Proof.
  exists "", "". rewrite append_nil.
  induction s as [|c s IH]; [reflexivity|].
  rewrite append_cons, <- IH. reflexivity.
Qed.

Lemma existsb_occurs keywords s :
  existsb (fun keyword => PyStr.contains keyword s) keywords = true <->
  exists kw, In kw keywords /\ occurs_in kw s.
Proof.
  rewrite existsb_exists. split; intros (kw & Hin & H); exists kw;
    (split; [exact Hin|apply contains_spec; exact H]).
Qed.

(** X13.  [should_exclude_key] and [is_diagnostic_sensor] hold exactly
    when a keyword of their table is a substring of the key in lower
    case; so every key the legacy parser drops as reserved (the key in
    lower case is a keyword) is also excluded by [should_exclude_key]. *)
Theorem keyword_classifiers key :
  (should_exclude_key key = true <->
   exists kw, In kw EXCLUDE_KEYWORDS /\ occurs_in kw (lower key))
  /\ (is_diagnostic_sensor key = true <->
      exists kw, In kw DIAGNOSTIC_KEYWORDS /\ occurs_in kw (lower key))
  /\ (mem (lower key) RESERVED = true -> should_exclude_key key = true).
Proof.
  unfold should_exclude_key, is_diagnostic_sensor. cbn zeta.
  rewrite !existsb_occurs. split_and!; [reflexivity|reflexivity|].
  unfold mem. rewrite existsb_exists. intros (kw & Hin & Heq).
  apply String.eqb_eq in Heq. subst kw.
  exists (lower key). split; [|apply occurs_in_self].
  unfold RESERVED, EXCLUDE_KEYWORDS in *. cbn [In] in *. tauto.
Qed.

Lemma find_none_iff {A} (f : A -> bool) l :
  List.find f l = None <-> forall x, In x l -> f x = false.
Proof.
  split; [apply find_none|].
  induction l as [|a l IH]; [reflexivity|]. intros H. cbn [List.find].
  rewrite (H a) by (left; reflexivity). apply IH. intros x Hx. apply H.
  right. exact Hx.
Qed.

Lemma find_first {A} (f : A -> bool) l1 x l2 :
  (forall y, In y l1 -> f y = false) -> f x = true ->
  List.find f (l1 ++ x :: l2) = Some x.
Proof.
  intros H1 Hx. induction l1 as [|a l1 IH]; cbn [app List.find].
  - rewrite Hx. reflexivity.
  - rewrite (H1 a) by (left; reflexivity). apply IH. intros y Hy. apply H1.
    right. exact Hy.
Qed.

Lemma contains_false needle hay :
  PyStr.contains needle hay = false <-> ~ occurs_in needle hay.
Proof. rewrite <- contains_spec. destruct (PyStr.contains needle hay); split; congruence. Qed.

(** X14.  [get_icon_for_key] gives the icon of the first keyword, in the
    order of the table, that is a substring of the key in lower case; it
    gives the default [mdi:gauge] exactly when no keyword is. *)
Theorem icon_of_first_keyword key :
  (forall before kw icon later,
      ICON_KEYWORDS = before ++ (kw, icon) :: later ->
      occurs_in kw (lower key) ->
      (forall kw' icon', In (kw', icon') before -> ~ occurs_in kw' (lower key)) ->
      get_icon_for_key key = icon)
  /\ (get_icon_for_key key = "mdi:gauge" <->
      forall kw icon, In (kw, icon) ICON_KEYWORDS -> ~ occurs_in kw (lower key)).
Proof.
  unfold get_icon_for_key. cbn zeta. split.
  - intros before kw icon later -> Hkw Hbefore.
    rewrite (find_first _ before (kw, icon) later); [reflexivity| |].
    + intros [kw' icon'] Hin. apply contains_false. eapply Hbefore, Hin.
    + apply contains_spec. exact Hkw.
  - destruct (List.find _ ICON_KEYWORDS) as [[kw icon]|] eqn:E.
    + apply find_some in E as [Hin Hc]. split.
      * intros ->. exfalso. revert Hin. clear.
        unfold ICON_KEYWORDS. cbn [In].
        intros H. repeat (destruct H as [H|H]; [discriminate H|]). exact H.
      * intros H. exfalso. apply (H kw icon Hin). apply contains_spec. exact Hc.
    + split; [|reflexivity]. intros _ kw icon Hin.
      apply contains_false. apply (proj1 (find_none_iff _ _) E (kw, icon) Hin).
Qed.

(** ** The program selector of [select.py] *)

Lemma reverse_lookup n option :
  PROGRAM_OPTIONS_REVERSE !! n = Some option <-> In (option, n) PROGRAM_OPTIONS.
Proof.
  unfold PROGRAM_OPTIONS_REVERSE, PROGRAM_OPTIONS. cbn [foldl In].
  rewrite !lookup_insert_Some, lookup_empty. split.
  - intros [[<- <-]|[? [[<- <-]|[? [[<- <-]|[? [[<- <-]|[? H]]]]]]]]; auto.
    discriminate H.
  - intros [[= <- <-]|[[= <- <-]|[[= <- <-]|[[= <- <-]|[]]]]]; auto 10.
Qed.

Lemma program_id_of_spec option id :
  program_id_of option = Some id <-> In (option, id) PROGRAM_OPTIONS.
Proof.
  unfold program_id_of, PROGRAM_OPTIONS. cbn [List.find In fst snd].
  split.
  - destruct (String.eqb_spec option "off") as [->|?]; [intros [= <-]; auto|].
    destruct (String.eqb_spec option "normal") as [->|?]; [intros [= <-]; auto|].
    destruct (String.eqb_spec option "heat") as [->|?]; [intros [= <-]; auto|].
    destruct (String.eqb_spec option "lower") as [->|?];
      [intros [= <-]; auto 10|].
    intros H. discriminate H.
  - intros [[= <- <-]|[[= <- <-]|[[= <- <-]|[[= <- <-]|[]]]]]; reflexivity.
Qed.

Lemma option_of_value_sound value option :
  option_of_value value = Some option ->
  exists id, In (option, id) PROGRAM_OPTIONS.
Proof.
  destruct value as [|b|n|f|s|items|fields]; try discriminate; cbn [option_of_value].
  - intros H. apply reverse_lookup in H. eauto.
  - intros H. apply reverse_lookup in H. eauto.
  - destruct (List.find _ PROGRAM_OPTIONS) as [[o id]|] eqn:E; [|discriminate].
    intros [= <-]. apply find_some in E as [Hin _]. eauto.
Qed.

Lemma current_option_app before rest :
  current_option (before ++ rest) =
  match current_option before with
  | Some option => Some option
  | None => current_option rest
  end.
Proof.
  induction before as [|[key [value unit]] before IH]; [reflexivity|].
  cbn [app current_option]. rewrite IH.
  destruct (_ || _); [|reflexivity].
  destruct (option_of_value value); reflexivity.
Qed.

Lemma program_is_prog s :
  PyStr.contains "program" s = true -> PyStr.contains "prog" s = true.
Proof.
  rewrite !contains_spec. intros (pre & post & ->).
  exists pre, ("ram" +:+ post). reflexivity.
Qed.

(** X15.  The option the selector shows is [None] or one of the options
    it accepts; it is [None] when no key of the data has [prog] as a
    substring in lower case. *)
Theorem current_option_sound data :
  (forall option, current_option data = Some option ->
     exists id, In (option, id) PROGRAM_OPTIONS /\
                program_id_of option = Some id)
  /\ ((forall key s, In (key, s) data -> ~ occurs_in "prog" (lower key)) ->
      current_option data = None).
Proof.
  split.
  - induction data as [|[key [value unit]] data IH]; [discriminate|].
    intros option. cbn [current_option].
    destruct (_ || _); [|apply IH].
    destruct (option_of_value value) as [o|] eqn:E; [|apply IH].
    intros [= <-]. destruct (option_of_value_sound _ _ E) as [id Hid].
    exists id. split; [exact Hid|apply program_id_of_spec; exact Hid].
  - induction data as [|[key [value unit]] data IH]; [reflexivity|].
    intros H. cbn [current_option].
    assert (Hp : PyStr.contains "prog" (lower key) = false).
    { apply contains_false. apply (H key (value, unit)). left. reflexivity. }
    assert (Hq : PyStr.contains "program" (lower key) = false).
    { destruct (PyStr.contains "program" (lower key)) eqn:E; [|reflexivity].
      apply program_is_prog in E. congruence. }
    rewrite Hp, Hq. cbn [orb]. apply IH. intros k s Hin. apply (H k s).
    right. exact Hin.
Qed.

(** X16.  Round trip of the selector: when the first key with [prog]
    that has a readable value reports the number of an accepted option,
    or its name, the selector shows that option. *)
Theorem selected_program_reads_back option id before key unit rest :
  program_id_of option = Some id ->
  current_option before = None ->
  occurs_in "prog" (lower key) ->
  current_option (before ++ (key, (JInt id, unit)) :: rest) = Some option /\
  current_option (before ++ (key, (JStr option, unit)) :: rest) = Some option.
Proof.
  intros Hid Hbefore Hkey. rewrite !current_option_app, Hbefore.
  cbn [current_option]. apply contains_spec in Hkey. rewrite Hkey, orb_true_r.
  apply program_id_of_spec in Hid. unfold PROGRAM_OPTIONS in Hid. cbn [In] in Hid.
  destruct Hid as [[= <- <-]|[[= <- <-]|[[= <- <-]|[[= <- <-]|[]]]]];
    split; vm_compute; reflexivity.
Qed.

(** X17.  [async_select_option] sends nothing for an option outside the
    table; for an option of the table it is [setProgram] at the number
    of the option, and it asks for a refresh exactly when [setProgram]
    returned [True]. *)
Theorem select_option_writes option (net : network) w :
  (program_id_of option = None ->
   async_select_option option net w = (Ok false, w))
  /\ (forall id, In (option, id) PROGRAM_OPTIONS ->
        0 <= id <= 3 /\
        async_select_option option net w = setProgram id net w).
Proof.
  split.
  - intros H. unfold async_select_option. rewrite H. reflexivity.
  - intros id Hin. split.
    + unfold PROGRAM_OPTIONS in Hin. cbn [In] in Hin.
      destruct Hin as [[= <- <-]|[[= <- <-]|[[= <- <-]|[[= <- <-]|[]]]]]; lia.
    + apply program_id_of_spec in Hin.
      unfold async_select_option, async_set_program. rewrite Hin. run.
      destruct (setProgram id net w) as [[[|]|e] w']; reflexivity.
Qed.

(** ** The connection test of [config_flow.py] *)

Lemma M_bind_unfold {A B} (m : M A) (f : A -> M B) net w :
  (m ≫= f) net w =
  match m net w with
  | (Ok a, w') => f a net w'
  | (Raise e, w') => (Raise e, w')
  end.
Proof. reflexivity. Qed.

Lemma test_status_spec json_any host api_key (net : network) w :
  let status := Request ("http://" +:+ host +:+ "/status.cgi") [("key", api_key)] in
  test_status json_any host api_key net w =
  (Ok match net status with
      | Some resp =>
          if resp_status resp =? 200
          then match json_any resp with Some _ => Some true | None => None end
          else None
      | None => None
      end, after w [status]).
Proof.
  cbn zeta. unfold test_status, after. run.
  destruct (net _) as [resp|]; [|reflexivity].
  destruct (resp_status resp =? 200); [|reflexivity].
  destruct (json_any resp); reflexivity.
Qed.

Lemma status_200_test rq (net : network) w :
  try_except
    (resp ← session_get rq;
     if resp_status resp =? 200 then mret true else mret false)
    (fun _ => mret false) net w
  = (Ok (answers_200 (net rq)), after w [rq]).
Proof.
  unfold answers_200, after. run.
  destruct (net rq) as [resp|]; [|reflexivity]. cbn [from_option].
  destruct (resp_status resp =? 200); reflexivity.
Qed.

(** X18.  [_test_connection] never raises.  It returns [True] after the
    single request to [/status.cgi] when that is answered with 200 and a
    body that decodes as JSON; otherwise it asks [/daqdesc.cgi] and
    returns whether that answer is 200.  It sends the API key only and
    never asks for [/daqdata.cgi]. *)
Theorem test_connection_verdict json_any host api_key (net : network) w :
  let params := [("key", api_key)] in
  let status := Request ("http://" +:+ host +:+ "/status.cgi") params in
  let daqdesc := Request ("http://" +:+ host +:+ "/daqdesc.cgi") params in
  (exists resp, net status = Some resp /\ resp_status resp = 200 /\
                is_Some (json_any resp) /\
                _test_connection json_any host api_key net w
                = (Ok true, after w [status]))
  \/ ((forall resp, net status = Some resp -> resp_status resp = 200 ->
                    json_any resp = None) /\
      _test_connection json_any host api_key net w
      = (Ok (answers_200 (net daqdesc)), after w [status; daqdesc])).
Proof.
  cbn zeta. unfold _test_connection.
  rewrite M_bind_unfold, test_status_spec.
  destruct (net (Request ("http://" +:+ host +:+ "/status.cgi") _))
    as [resp|] eqn:Hnet.
  - destruct (resp_status resp =? 200) eqn:Hst.
    + apply Z.eqb_eq in Hst. destruct (json_any resp) as [v|] eqn:Hjs.
      * left. exists resp. split_and!; eauto.
      * right. split; [intros r [= <-] _; exact Hjs|].
        cbn beta iota. rewrite status_200_test, after_after. reflexivity.
    + right. apply Z.eqb_neq in Hst.
      split; [intros r [= <-] H; contradiction|].
      cbn beta iota. rewrite status_200_test, after_after. reflexivity.
  - right. split; [intros r H; discriminate H|].
    cbn beta iota. rewrite status_200_test, after_after. reflexivity.
Qed.

(** ** The temperature entities of [number.py] *)

Section NumberFacts.

Variable int_of_str : string -> outcome Z.

Lemma entities_loop constraints circuits acc entities :
  Py.for_each circuits (fun circuit entities =>
    circuit_nr ← circuit_number int_of_str circuit;
    circuit_name ← Py.get circuit "name" (JStr ("Circuit " +:+ pretty circuit_nr));
    day ← new_number circuit_nr circuit_name "day" constraints;
    night ← new_number circuit_nr circuit_name "night" constraints;
    Ok (entities ++ [day; night])) acc = Ok entities ->
  exists tail,
    entities = acc ++ tail /\
    List.length tail = (2 * List.length circuits)%nat /\
    forall (i : nat) circuit, circuits !! i = Some circuit ->
      exists nr name day night,
        circuit_number int_of_str circuit = Ok nr /\
        Py.get circuit "name" (JStr ("Circuit " +:+ pretty nr)) = Ok name /\
        new_number nr name "day" constraints = Ok day /\
        new_number nr name "night" constraints = Ok night /\
        tail !! (2 * i)%nat = Some day /\ tail !! (2 * i + 1)%nat = Some night.
Proof.
  revert acc. induction circuits as [|c rest IH]; intros acc; cbn [Py.for_each].
  - intros [= <-]. exists []. rewrite app_nil_r. split_and!; [reflexivity..|].
    intros i circuit H. rewrite lookup_nil in H. discriminate H.
  - intros H. apply bind_Ok in H as (acc' & Hbody & H).
    apply bind_Ok in Hbody as (nr & Hnr & Hbody).
    apply bind_Ok in Hbody as (name & Hname & Hbody).
    apply bind_Ok in Hbody as (day & Hday & Hbody).
    apply bind_Ok in Hbody as (night & Hnight & [= <-]).
    destruct (IH _ H) as (tail & -> & Hlen & Hall).
    exists ([day; night] ++ tail). rewrite <- app_assoc. split_and!.
    + reflexivity.
    + cbn [app List.length]. rewrite Hlen. lia.
    + intros [|i] circuit Hi.
      * injection Hi as <-. exists nr, name, day, night. split_and!; auto.
      * destruct (Hall i circuit Hi) as (nr' & name' & day' & night' & F).
        exists nr', name', day', night'.
        replace (2 * S i)%nat with (S (S (2 * i))) by lia.
        replace (S (S (2 * i)) + 1)%nat with (S (S (2 * i + 1))) by lia.
        exact F.
Qed.

(** X19.  Without write access no temperature entity is made.  With it,
    when the set-up returns, every heating circuit of the cache gives, in
    order, a day entity followed by a night entity; both address the
    number [int(circuit.get("nr", 0))] and carry the name of the circuit,
    [Circuit <number>] when it has none. *)
Theorem temperature_entities_pairs coordinator :
  (has_write_access coordinator = false ->
   temperature_entities int_of_str coordinator = Ok [])
  /\ (forall entities,
        has_write_access coordinator = true ->
        temperature_entities int_of_str coordinator = Ok entities ->
        exists circuits,
          Py.iter (_heating_circuits coordinator) = Ok circuits /\
          List.length entities = (2 * List.length circuits)%nat /\
          forall (i : nat) circuit, circuits !! i = Some circuit ->
            exists nr name day night,
              circuit_number int_of_str circuit = Ok nr /\
              Py.get circuit "name" (JStr ("Circuit " +:+ pretty nr)) = Ok name /\
              new_number nr name "day" (_heat_constraints coordinator) = Ok day /\
              new_number nr name "night" (_heat_constraints coordinator)
              = Ok night /\
              entities !! (2 * i)%nat = Some day /\
              entities !! (2 * i + 1)%nat = Some night).
Proof.
  unfold temperature_entities. split.
  - intros ->. reflexivity.
  - intros entities -> H. cbn [negb] in H.
    apply bind_Ok in H as (circuits & Hiter & H).
    apply entities_loop in H as (tail & -> & Hlen & Hall).
    exists circuits. split_and!; auto.
Qed.

Lemma new_number_spec circuit_nr circuit_name temp_type constraints entity :
  new_number circuit_nr circuit_name temp_type constraints = Ok entity ->
  exists fields,
    constraints = JObj fields /\
    _circuit_nr entity = circuit_nr /\
    _circuit_name entity = circuit_name /\
    _temp_type entity = temp_type /\
    _attr_translation_key entity = temp_type +:+ "_temperature" /\
    _attr_native_min_value entity
    = default (JFloat (FFin false 8444249301319680 (-49)))
        (Py.assoc "min" fields) /\
    _attr_native_max_value entity
    = default (JFloat (FFin false 8444249301319680 (-48)))
        (Py.assoc "max" fields) /\
    _attr_native_step entity
    = default (JFloat (FFin false 4503599627370496 (-53)))
        (Py.assoc "inc" fields).
Proof.
  unfold new_number. destruct constraints; try discriminate.
  cbn [Py.get mbind outcome_bind]. intros [= <-]. eexists. split_and!; reflexivity.
Qed.

(** X20.  Every temperature entity of a set-up has the bounds and the
    step of the cached constraints: the values under [min], [max] and
    [inc], and 15.0, 30.0 and 0.5 for the keys that are missing; its
    type is [day] or [night] and its translation key the type followed
    by [_temperature]. *)
Theorem entities_share_constraints coordinator entities entity :
  temperature_entities int_of_str coordinator = Ok entities ->
  In entity entities ->
  exists fields,
    _heat_constraints coordinator = JObj fields /\
    (_temp_type entity = "day" \/ _temp_type entity = "night") /\
    _attr_translation_key entity = _temp_type entity +:+ "_temperature" /\
    _attr_native_min_value entity
    = default (JFloat (float_of "15.0")) (Py.assoc "min" fields) /\
    _attr_native_max_value entity
    = default (JFloat (float_of "30.0")) (Py.assoc "max" fields) /\
    _attr_native_step entity
    = default (JFloat (float_of "0.5")) (Py.assoc "inc" fields).
Proof.
  intros H Hin. unfold temperature_entities in H.
  destruct (negb (has_write_access coordinator));
    [injection H as <-; destruct Hin|].
  apply bind_Ok in H as (circuits & _ & H).
  revert entity Hin. apply (proj1 (List.Forall_forall _ entities)).
  revert H. apply for_each_invariant; [|constructor].
  intros circuit a b Hbody Ha.
  apply bind_Ok in Hbody as (nr & _ & Hbody).
  apply bind_Ok in Hbody as (name & _ & Hbody).
  apply bind_Ok in Hbody as (day & Hday & Hbody).
  apply bind_Ok in Hbody as (night & Hnight & [= <-]).
  assert (E15 : float_of "15.0" = FFin false 8444249301319680 (-49))
    by (vm_compute; reflexivity).
  assert (E30 : float_of "30.0" = FFin false 8444249301319680 (-48))
    by (vm_compute; reflexivity).
  assert (E05 : float_of "0.5" = FFin false 4503599627370496 (-53))
    by (vm_compute; reflexivity).
  rewrite E15, E30, E05.
  apply Forall_app. split; [exact Ha|].
  apply new_number_spec in Hday as (fields & Hc & _ & _ & Ht & Hk & Hmin & Hmax & Hinc).
  apply new_number_spec in Hnight
    as (fields' & Hc' & _ & _ & Ht' & Hk' & Hmin' & Hmax' & Hinc').
  rewrite Hc in Hc'. injection Hc' as <-.
  repeat constructor; exists fields; rewrite ?Ht, ?Ht'; split_and!; auto.
Qed.

Lemma find_native_value_app before rest entity :
  Forall (fun c => exists nr, circuit_number int_of_str c = Ok nr /\
                              nr <> _circuit_nr entity) before ->
  find_native_value int_of_str (before ++ rest) entity
  = find_native_value int_of_str rest entity.
Proof.
  induction 1 as [|c before (nr & Hnr & Hne) _ IH]; [reflexivity|].
  cbn [app find_native_value]. rewrite Hnr. cbn [mbind outcome_bind].
  rewrite (proj2 (Z.eqb_neq _ _) Hne). exact IH.
Qed.

(** X21.  The value of a temperature entity is read from the first
    circuit of the cache whose number is the entity's: its [day_temp]
    for the type [day], its [night_temp] for every other type, [None]
    when the circuit lacks the key; it is [None] when no circuit has the
    number. *)
Theorem native_value_of_first_match coordinator entity :
  (forall before circuit later,
      Py.iter (_heating_circuits coordinator) = Ok (before ++ circuit :: later) ->
      Forall (fun c => exists nr, circuit_number int_of_str c = Ok nr /\
                                  nr <> _circuit_nr entity) before ->
      circuit_number int_of_str circuit = Ok (_circuit_nr entity) ->
      native_value int_of_str coordinator entity
      = Py.get circuit
          (if String.eqb (_temp_type entity) "day" then "day_temp"
           else "night_temp") JNull)
  /\ (forall circuits,
        Py.iter (_heating_circuits coordinator) = Ok circuits ->
        Forall (fun c => exists nr, circuit_number int_of_str c = Ok nr /\
                                    nr <> _circuit_nr entity) circuits ->
        native_value int_of_str coordinator entity = Ok JNull).
Proof.
  unfold native_value. split.
  - intros before circuit later -> Hbefore Hnr. cbn [mbind outcome_bind].
    rewrite (find_native_value_app _ _ _ Hbefore). cbn [find_native_value].
    rewrite Hnr. cbn [mbind outcome_bind]. rewrite Z.eqb_refl.
    destruct (String.eqb _ "day"); reflexivity.
  - intros circuits -> Hall. cbn [mbind outcome_bind].
    rewrite <- (app_nil_r circuits), (find_native_value_app _ _ _ Hall).
    reflexivity.
Qed.

End NumberFacts.

(** X22.  Setting the value of a temperature entity writes to the
    parameter of its own circuit and type through [setTemperature], one
    request to [/ext/parset.cgi], and asks for a refresh exactly when the
    write returned [True]; it never raises. *)
Theorem entity_write py_repr entity value (net : network) w key :
  _write_key (self w) = Some key -> key <> "" ->
  let ext := ext_request (self w)
               (temperature_params py_repr key (_circuit_nr entity)
                  (_temp_type entity) value) in
  exists b,
    setTemperature py_repr (_circuit_nr entity) (_temp_type entity) value net w
    = (Ok b, after w [ext]) /\
    async_set_native_value py_repr entity value net w
    = (Ok (b, b), after w [ext]).
Proof.
  intros Hkey Hne ext. unfold async_set_native_value, async_set_temperature.
  rewrite M_bind_unfold.
  rewrite (setTemperature_unfold _ _ _ _ _ _ _ Hkey Hne).
  destruct (temperature_ext_attempt_spec (self w)
              (temperature_params py_repr key (_circuit_nr entity)
                 (_temp_type entity) value) net w) as (r & -> & _).
  destruct r as [[|]|]; eexists; split; reflexivity.
Qed.

(** ** The readings of the status document *)

Lemma copy_field_keeps data field key unit (r r' : snapshot) k :
  copy_field data field key unit r = Ok r' -> key <> k -> r' !! k = r !! k.
Proof.
  unfold copy_field. intros H Hne.
  apply bind_Ok in H as ([] & _ & H).
  - apply bind_Ok in H as (v & _ & [= <-]). apply lookup_insert_ne. exact Hne.
  - injection H as <-. reflexivity.
Qed.

Lemma copy_field_obj fields field key unit (r r' : snapshot) :
  copy_field (JObj fields) field key unit r = Ok r' ->
  r' !! key = match Py.assoc field fields with
              | Some v => Some (v, unit)
              | None => r !! key
              end.
Proof.
  unfold copy_field. cbn [Py.contains Py.getitem mbind outcome_bind].
  destruct (Py.assoc field fields) as [v|].
  - rewrite bool_decide_eq_true_2 by eauto. cbn [mbind outcome_bind].
    intros [= <-]. apply lookup_insert_eq.
  - rewrite bool_decide_eq_false_2 by (intros [? H]; discriminate H).
    intros [= <-]. reflexivity.
Qed.

Lemma prefixed_ne p x y k : startswith p k = false -> (p +:+ x) +:+ y <> k.
Proof.
  intros H <-. rewrite append_assoc in H.
  rewrite (proj2 (startswith_spec p (p +:+ (x +:+ y)))) in H by eauto.
  discriminate H.
Qed.

Lemma prefixed_ne1 p x k : startswith p k = false -> p +:+ x <> k.
Proof.
  intros H <-.
  rewrite (proj2 (startswith_spec p (p +:+ x))) in H by eauto.
  discriminate H.
Qed.

Section StatusFacts.

Variable py_repr : json -> string.

Lemma parse_meta_keeps data (r r' : snapshot) k :
  parse_meta data r = Ok r' ->
  mem k (map snd meta_fields) = false ->
  r' !! k = r !! k.
Proof.
  unfold parse_meta, mem, meta_fields. cbn [map snd existsb]. intros H Hk.
  repeat (apply orb_false_elim in Hk as [?E Hk]).
  apply bind_Ok in H as ([] & _ & H); [|injection H as <-; reflexivity].
  apply bind_Ok in H as (meta & _ & H).
  apply bind_Ok in H as (r1 & H1 & H). apply bind_Ok in H as (r2 & H2 & H).
  apply bind_Ok in H as (r3 & H3 & H).
  rewrite (copy_field_keeps _ _ _ _ _ _ k H),
    (copy_field_keeps _ _ _ _ _ _ k H3), (copy_field_keeps _ _ _ _ _ _ k H2),
    (copy_field_keeps _ _ _ _ _ _ k H1);
    [reflexivity|intros <-; rewrite String.eqb_refl in *; discriminate..].
Qed.

Lemma parse_heat_circ_keeps data (r r' : snapshot) k :
  parse_heat_circ py_repr data r = Ok r' ->
  startswith "_Circuit " k = false ->
  r' !! k = r !! k.
Proof.
  unfold parse_heat_circ. intros H Hk.
  apply bind_Ok in H as ([] & _ & H); [|injection H as <-; reflexivity].
  apply bind_Ok in H as (c & _ & H). apply bind_Ok in H as (cs & _ & H).
  revert H. apply (for_each_invariant (fun x : snapshot => x !! k = r !! k));
    [|reflexivity].
  intros [i circuit] a b H Ha.
  apply bind_Ok in H as (name & _ & H). cbn zeta in H.
  apply bind_Ok in H as (r1 & H1 & H). apply bind_Ok in H as (r2 & H2 & H).
  rewrite (copy_field_keeps _ _ _ _ _ _ k H),
    (copy_field_keeps _ _ _ _ _ _ k H2), (copy_field_keeps _ _ _ _ _ _ k H1);
    [exact Ha|apply prefixed_ne; exact Hk..].
Qed.

Lemma parse_water_circ_keeps data (r r' : snapshot) k :
  parse_water_circ py_repr data r = Ok r' ->
  startswith "_ECS " k = false ->
  r' !! k = r !! k.
Proof.
  unfold parse_water_circ. intros H Hk.
  apply bind_Ok in H as ([] & _ & H); [|injection H as <-; reflexivity].
  apply bind_Ok in H as (c & _ & H). apply bind_Ok in H as (cs & _ & H).
  revert H. apply (for_each_invariant (fun x : snapshot => x !! k = r !! k));
    [|reflexivity].
  intros [i circuit] a b H Ha.
  apply bind_Ok in H as (name & _ & H). cbn zeta in H.
  apply bind_Ok in H as (r1 & H1 & H).
  rewrite (copy_field_keeps _ _ _ _ _ _ k H),
    (copy_field_keeps _ _ _ _ _ _ k H1);
    [exact Ha|apply prefixed_ne; exact Hk..].
Qed.

Lemma parse_error_keeps data (r r' : snapshot) k :
  parse_error py_repr data r = Ok r' ->
  startswith "_Erreur" k = false ->
  r' !! k = r !! k.
Proof.
  unfold parse_error. intros H Hk.
  apply bind_Ok in H as ([] & _ & H); [|injection H as <-; reflexivity].
  apply bind_Ok in H as (errors & _ & H).
  destruct (Py.truthy errors); [|injection H as <-; reflexivity].
  apply bind_Ok in H as (count & _ & H). apply bind_Ok in H as (es & _ & H).
  revert H. apply (for_each_invariant (fun x : snapshot => x !! k = r !! k)).
  - intros [i error] a b [= <-] Ha. rewrite lookup_insert_ne; [exact Ha|].
    change ("_Erreur " +:+ pretty i) with (("_Erreur" +:+ " ") +:+ pretty i).
    apply prefixed_ne. exact Hk.
  - apply lookup_insert_ne.
    change "_Erreurs actives" with ("_Erreur" +:+ "s actives").
    apply prefixed_ne1. exact Hk.
Qed.

Ltac back_through k :=
  repeat match goal with
         | H : copy_field _ _ ?key _ ?r = Ok ?r' |- context [?r' !! k] =>
             first [ rewrite (copy_field_keeps _ _ _ _ _ _ k H) by discriminate
                   | rewrite (copy_field_obj _ _ _ _ _ _ H) ]
         end.

(** X23.  Each top-level reading of a status document that is a dict
    comes out under its own key with its own unit: the sensor is there
    exactly when the document has the field, and its value is the
    field's, whatever circuits, errors and device information the
    document also lists. *)
Theorem status_readings fields result field key unit :
  In (field, key, unit) main_fields ->
  _parse_status_data py_repr (JObj fields) = Ok result ->
  result !! key = (fun v => (v, unit)) <$> Py.assoc field fields.
Proof.
  intros Hin H. unfold _parse_status_data in H. cbn zeta in H.
  apply bind_Ok in H as (r1 & H1 & H). apply bind_Ok in H as (r2 & H2 & H).
  apply bind_Ok in H as (r3 & H3 & H). apply bind_Ok in H as (r4 & H4 & H).
  apply bind_Ok in H as (r5 & H5 & H). apply bind_Ok in H as (r6 & H6 & H).
  apply bind_Ok in H as (r7 & H7 & H). apply bind_Ok in H as (r8 & H8 & H).
  apply bind_Ok in H as (r9 & H9 & H). apply bind_Ok in H as (r10 & H10 & H).
  apply bind_Ok in H as (r11 & H11 & H). apply bind_Ok in H as (r12 & H12 & H).
  apply bind_Ok in H as (r13 & H13 & H).
  unfold main_fields in Hin. cbn [In] in Hin.
  repeat (destruct Hin as [Hin|Hin];
          [injection Hin as <- <- <-;
           rewrite (parse_error_keeps _ _ _ _ H) by reflexivity;
           rewrite (parse_water_circ_keeps _ _ _ _ H13) by reflexivity;
           rewrite (parse_heat_circ_keeps _ _ _ _ H12) by reflexivity;
           rewrite (parse_meta_keeps _ _ _ _ H11) by reflexivity;
           match goal with
           | |- _ !! ?k = _ => back_through k
           end;
           rewrite lookup_empty; destruct (Py.assoc _ fields); reflexivity|]).
  destruct Hin.
Qed.

End StatusFacts.

(** ** The properties at the sample devices *)

Lemma status_fetch_never_raises_witness :
  _async_get_status_data silent_device start
  = (Ok JNull, after start [status_request client])
  /\ _async_get_status_data status_device start
     = (Ok sample_status, after start [status_request client]).
Proof.
  split.
  - destruct (status_fetch_never_raises silent_device start)
      as (status_data & H & Hun & _).
    rewrite H, (Hun I). reflexivity.
  - destruct (status_fetch_never_raises status_device start)
      as (status_data & H & _ & Hv).
    rewrite H, (Hv (json_answer sample_status) sample_status);
      [reflexivity|vm_compute; reflexivity|reflexivity|reflexivity].
Defined.

Lemma legacy_fetch_stops_at_first_failure_witness :
  _async_get_legacy_data silent_device start
  = (Raise (UpdateFailed (FetchError "/daqdesc.cgi")),
     after start [legacy_request client "/daqdesc.cgi"])
  /\ _async_get_legacy_data status_device start
     = (Raise (UpdateFailed (FetchError "/daqdesc.cgi")),
        after start [legacy_request client "/daqdesc.cgi"]).
Proof.
  split.
  - apply (proj1 (legacy_fetch_stops_at_first_failure silent_device start)).
    vm_compute. reflexivity.
  - apply (proj1 (legacy_fetch_stops_at_first_failure status_device start)).
    vm_compute. reflexivity.
Defined.

Lemma refresh_requests_witness :
  exists rqs,
    sent (_async_get_data plain_repr full_device start).2
    = status_request client :: rqs /\ rqs <> [].
Proof.
  destruct (refresh_requests plain_repr full_device start)
    as (rqs & H & _ & Hstep & _).
  exists rqs. split; [exact H|].
  exact (Hstep sample_base polled full_device_status).
Defined.

Lemma status_document_replaces_cache_witness :
  _heating_circuits (self (_async_get_data plain_repr status_device start).2)
  = sample_circuits
  /\ _device_info (self (_async_get_data plain_repr status_device start).2)
     = JNull.
Proof.
  destruct (status_document_replaces_cache plain_repr status_device start
              (json_answer sample_status)
              [("temp", JFloat (float_of "55.2")); ("mode", JStr "HEAT");
               ("heat_circ", sample_circuits)])
    as (Hinfo & Hcirc & _).
  - vm_compute. reflexivity.
  - reflexivity.
  - reflexivity.
  - discriminate.
  - split; [exact Hcirc|exact Hinfo].
Defined.

Lemma legacy_sensors_typed_witness :
  legacy_typed (JInt 1234, Some "h").
Proof.
  apply (proj1 legacy_sensors_typed ["Betriebsstunden;h"] ["1234"]
           (<["Betriebsstunden" := (JInt 1234, Some "h")]> ∅)
           "Betriebsstunden").
  - vm_compute. reflexivity.
  - vm_compute. reflexivity.
Defined.

Lemma later_line_replaces_key_witness :
  exists earlier dataValue,
    parse_legacy ["Pumpe;"] ["AUS"] = Ok earlier /\
    parse_value (strip "AN") (strip_or_none "") = Ok dataValue /\
    <["Pumpe" := (JBool true, None)]> (∅ : snapshot)
    = <["Pumpe" := (dataValue, strip_or_none "")]> earlier /\
    (<["Pumpe" := (JBool true, None)]> (∅ : snapshot)) !! "Pumpe"
    = Some (dataValue, strip_or_none "") /\
    (forall k, k <> "Pumpe" ->
       (<["Pumpe" := (JBool true, None)]> (∅ : snapshot)) !! k = earlier !! k).
Proof.
  apply (later_line_replaces_key ["Pumpe;"] ["AUS"] "Pumpe;" "AN" "Pumpe" "").
  - reflexivity.
  - vm_compute. reflexivity.
  - vm_compute. reflexivity.
  - vm_compute. reflexivity.
Defined.

Lemma setProgram_requests_witness :
  (setProgram 2 rejecting_device start
   = (Ok true, after start [ext_request client (program_params "write" 2)]) /\
   answers_200 (rejecting_device (ext_request client (program_params "write" 2)))
   = true)
  \/ setProgram 2 rejecting_device start
     = (Ok (answers_200
              (rejecting_device
                 (parset_request client (program_params "write" 2)))),
        after start [ext_request client (program_params "write" 2);
                     parset_request client (program_params "write" 2)]).
Proof.
  apply (setProgram_requests 2 rejecting_device start "write").
  - reflexivity.
  - discriminate.
Defined.

Lemma setTemperature_requests_witness :
  exists b,
    setTemperature plain_repr 0 "night" (float_of "16.5") ack_device start
    = (Ok b, after start
               [ext_request client
                  (temperature_params plain_repr "write" 0 "night"
                     (float_of "16.5"))]) /\
    (b = true ->
     answers_200
       (ack_device
          (ext_request client
             (temperature_params plain_repr "write" 0 "night" (float_of "16.5"))))
     = true).
Proof.
  apply (setTemperature_requests plain_repr 0 "night" (float_of "16.5")
           ack_device start "write").
  - reflexivity.
  - discriminate.
Defined.

Lemma ack_ends_write_witness :
  setProgram 2 ack_device start
  = (Ok true, after start [ext_request client (program_params "write" 2)])
  /\ setTemperature plain_repr 0 "day" (float_of "21.5") ack_device start
     = (Ok true,
        after start
          [ext_request client
             (temperature_params plain_repr "write" 0 "day" (float_of "21.5"))]).
Proof.
  destruct (ack_ends_write plain_repr ack_device start "write"
              (json_answer (JObj [("err", JStr "busy"); ("ack", JStr "done")]))
              (JObj [("err", JStr "busy"); ("ack", JStr "done")]))
    as [Hp Ht].
  - reflexivity.
  - discriminate.
  - reflexivity.
  - reflexivity.
  - vm_compute. reflexivity.
  - split.
    + apply (Hp 2). vm_compute. reflexivity.
    + apply (Ht 0 "day" (float_of "21.5")). vm_compute. reflexivity.
Defined.

Lemma text_answer_decides_write_witness :
  setProgram 2 text_device start
  = (Ok true, after start [ext_request client (program_params "write" 2)])
  /\ setTemperature plain_repr 0 "day" (float_of "21.5") text_device start
     = (Ok true,
        after start
          [ext_request client
             (temperature_params plain_repr "write" 0 "day" (float_of "21.5"))]).
Proof.
  destruct (text_answer_decides_write plain_repr text_device start "write"
              ok_text "OK") as [Hp Ht].
  - reflexivity.
  - discriminate.
  - reflexivity.
  - intros v H. discriminate H.
  - reflexivity.
  - split.
    + apply (Hp 2). vm_compute. reflexivity.
    + apply (Ht 0 "day" (float_of "21.5")). vm_compute. reflexivity.
Defined.

Lemma writes_without_ext_endpoint_witness :
  setProgram 2 legacy_write_device start
  = (Ok true,
     after start [ext_request client (program_params "write" 2);
                  parset_request client (program_params "write" 2)])
  /\ setTemperature plain_repr 0 "day" (float_of "21.5") legacy_write_device start
     = (Ok false,
        after start
          [ext_request client
             (temperature_params plain_repr "write" 0 "day" (float_of "21.5"))]).
Proof.
  destruct (writes_without_ext_endpoint plain_repr legacy_write_device start
              "write") as [Hp Ht].
  - reflexivity.
  - discriminate.
  - split.
    + apply (Hp 2). vm_compute. reflexivity.
    + apply (Ht 0 "day" (float_of "21.5")). vm_compute. reflexivity.
Defined.

Lemma keyword_classifiers_witness :
  mem (lower "RESERVED") RESERVED = true /\ should_exclude_key "RESERVED" = true.
Proof.
  assert (H : mem (lower "RESERVED") RESERVED = true) by (vm_compute; reflexivity).
  split; [exact H|].
  exact (proj2 (proj2 (keyword_classifiers "RESERVED")) H).
Defined.

Lemma icon_of_first_keyword_witness :
  get_icon_for_key "Kesseltemperatur" = "mdi:fire".
Proof.
  apply (proj1 (icon_of_first_keyword "Kesseltemperatur")
           [("ext", "mdi:sun-thermometer-outline"); ("chaud", "mdi:fire")]
           "kessel" "mdi:fire"
           (List.tl (List.tl (List.tl ICON_KEYWORDS)))).
  - reflexivity.
  - exists "", "temperatur". vm_compute. reflexivity.
  - intros kw' icon' [[= <- <-]|[[= <- <-]|[]]];
      apply contains_false; vm_compute; reflexivity.
Defined.

Lemma current_option_sound_witness :
  current_option [("Programm", (JInt 2, None))] = Some "heat" /\
  exists id, In ("heat", id) PROGRAM_OPTIONS /\ program_id_of "heat" = Some id.
Proof.
  assert (H : current_option [("Programm", (JInt 2, None))] = Some "heat")
    by (vm_compute; reflexivity).
  split; [exact H|].
  exact (proj1 (current_option_sound [("Programm", (JInt 2, None))]) "heat" H).
Defined.

Lemma selected_program_reads_back_witness :
  current_option ([("Pumpe", (JBool true, None))]
                  ++ ("Programm", (JInt 2, None)) :: [])
  = Some "heat" /\
  current_option ([("Pumpe", (JBool true, None))]
                  ++ ("Programm", (JStr "heat", None)) :: [])
  = Some "heat".
Proof.
  apply (selected_program_reads_back "heat" 2 [("Pumpe", (JBool true, None))]
           "Programm" None []).
  - vm_compute. reflexivity.
  - vm_compute. reflexivity.
  - exists "", "ramm". vm_compute. reflexivity.
Defined.

Lemma select_option_writes_witness :
  async_select_option "boost" full_device start = (Ok false, start)
  /\ async_select_option "heat" full_device start
     = setProgram 2 full_device start.
Proof.
  split.
  - apply (proj1 (select_option_writes "boost" full_device start)).
    vm_compute. reflexivity.
  - apply (proj2 (select_option_writes "heat" full_device start) 2).
    right. right. left. reflexivity.
Defined.

Lemma test_connection_verdict_witness :
  _test_connection resp_json "boiler" "secret" legacy_device start
  = (Ok true,
     after start [status_request client; legacy_request client "/daqdesc.cgi"]).
Proof.
  destruct (test_connection_verdict resp_json "boiler" "secret" legacy_device
              start) as [(resp & H & Hst & _)|[_ H]].
  - exfalso. revert H Hst. vm_compute. intros [= <-] H. discriminate H.
  - rewrite H. vm_compute. reflexivity.
Defined.

Lemma temperature_entities_pairs_witness :
  temperature_entities no_int reader = Ok []
  /\ exists circuits,
       Py.iter (_heating_circuits (self polled)) = Ok circuits /\
       List.length [sample_entity "day"; sample_entity "night"]
       = (2 * List.length circuits)%nat /\
       forall (i : nat) circuit, circuits !! i = Some circuit ->
         exists nr name day night,
           circuit_number no_int circuit = Ok nr /\
           Py.get circuit "name" (JStr ("Circuit " +:+ pretty nr)) = Ok name /\
           new_number nr name "day" (_heat_constraints (self polled)) = Ok day /\
           new_number nr name "night" (_heat_constraints (self polled))
           = Ok night /\
           [sample_entity "day"; sample_entity "night"] !! (2 * i)%nat
           = Some day /\
           [sample_entity "day"; sample_entity "night"] !! (2 * i + 1)%nat
           = Some night.
Proof.
  split.
  - apply (proj1 (temperature_entities_pairs no_int reader)). reflexivity.
  - apply (proj2 (temperature_entities_pairs no_int (self polled))).
    + reflexivity.
    + vm_compute. reflexivity.
Defined.

Lemma entities_share_constraints_witness :
  exists fields,
    _heat_constraints (self polled) = JObj fields /\
    (_temp_type (sample_entity "night") = "day" \/
     _temp_type (sample_entity "night") = "night") /\
    _attr_translation_key (sample_entity "night")
    = _temp_type (sample_entity "night") +:+ "_temperature" /\
    _attr_native_min_value (sample_entity "night")
    = default (JFloat (float_of "15.0")) (Py.assoc "min" fields) /\
    _attr_native_max_value (sample_entity "night")
    = default (JFloat (float_of "30.0")) (Py.assoc "max" fields) /\
    _attr_native_step (sample_entity "night")
    = default (JFloat (float_of "0.5")) (Py.assoc "inc" fields).
Proof.
  apply (entities_share_constraints no_int (self polled)
           [sample_entity "day"; sample_entity "night"]).
  - vm_compute. reflexivity.
  - right. left. reflexivity.
Defined.

Lemma native_value_of_first_match_witness :
  native_value no_int (self polled) (sample_entity "night")
  = Ok (JFloat (float_of "16.0")).
Proof.
  rewrite (proj1 (native_value_of_first_match no_int (self polled)
                    (sample_entity "night")) []
             (JObj [("nr", JInt 1); ("name", JStr "Main");
                    ("day_temp", JFloat (float_of "21.0"));
                    ("night_temp", JFloat (float_of "16.0"))]) []).
  - reflexivity.
  - reflexivity.
  - constructor.
  - reflexivity.
Defined.

Lemma entity_write_witness :
  exists b,
    setTemperature plain_repr 1 "day" (float_of "21.5") ack_device start
    = (Ok b, after start
               [ext_request client
                  (temperature_params plain_repr "write" 1 "day"
                     (float_of "21.5"))]) /\
    async_set_native_value plain_repr (sample_entity "day") (float_of "21.5")
      ack_device start
    = (Ok (b, b),
       after start
         [ext_request client
            (temperature_params plain_repr "write" 1 "day" (float_of "21.5"))]).
Proof.
  apply (entity_write plain_repr (sample_entity "day") (float_of "21.5")
           ack_device start "write").
  - reflexivity.
  - discriminate.
Defined.

Lemma status_readings_witness :
  sample_base !! "_Température chaudière"
  = Some (JFloat (float_of "55.2"), Some "°C")
  /\ sample_base !! "_État" = None.
Proof.
  pose (fields := [("temp", JFloat (float_of "55.2")); ("mode", JStr "HEAT");
                   ("heat_circ", sample_circuits)]).
  assert (H : _parse_status_data plain_repr (JObj fields) = Ok sample_base)
    by (vm_compute; reflexivity).
  split.
  - exact (status_readings plain_repr fields sample_base "temp"
             "_Température chaudière" (Some "°C") (or_introl eq_refl) H).
  - apply (status_readings plain_repr fields sample_base "state" "_État" None);
      [|exact H].
    do 6 right. left. reflexivity.
Defined.
